(** * AliCSPIDCuts: the PID track cut of the correlation studies analysis

    A shallow embedding of
    [PWGCF/Correlations/DPhi/Unfoldedhistos/AliCSPIDCuts.cxx]
    and the properties of its configuration and truth-acceptance code.

    Conventions of the embedding.
    - [Float_t]/[Double_t] values (momenta, n-sigma bounds) are exact
      rationals [Q]; the code only stores and compares them.  Rounding of a
      literal to single precision and the not-a-number value are outside
      the model: [SetPMin] and [SetPMax] hold the decimal preset where the
      code holds its single precision rounding, and the properties that
      compare a momentum with a preset set by them keep [roundingMargin]
      from it.
    - An n-sigma array is a list and the store [array[id] = x] a list
      insert at the index of the species.  For a species beyond the bound
      of the array the store of the code is out of bounds and has no
      defined behaviour; the properties of the band setters are stated for
      a species that has a slot ([hasSlot]) in arrays of the declared bound
      ([allocated]).
    - [Int_t] preset codes and identifiers are [Z].
    - A ROOT [TBits] is the set of its set bits, held as a bit mask [N].
    - A member function that mutates the cut object and returns [Bool_t]
      is a function from the object to the pair of its result and the new
      object.  Logging ([AliInfo], [AliError]) is not modelled. *)

From Stdlib Require Import ZArith NArith QArith Bool String List Lia.
From stdpp Require Import base list.
Import ListNotations.

Local Open Scope Z_scope.

(** ** Rational comparisons as the code writes them *)

(** [x < y] on floating values. *)
Definition Qltb (x y : Q) : bool := negb (Qle_bool y x).

(** ** ROOT's [TBits], as far as the cut uses it *)

Module TBits.

Definition t := N.

(** [TBits()] and [ResetAllBits()]. *)
Definition ResetAllBits : t := 0%N.

Definition SetBitNumber (bitnumber : N) (b : t) : t := N.setbit b bitnumber.

Definition ResetBitNumber (bitnumber : N) (b : t) : t := N.clearbit b bitnumber.

Definition TestBitNumber (b : t) (bitnumber : N) : bool := N.testbit b bitnumber.

(** [operator&]. *)
Definition and (lhs rhs : t) : t := N.land lhs rhs.

Fixpoint count_positive (p : positive) : nat :=
  match p with
  | xH => 1
  | xO q => count_positive q
  | xI q => S (count_positive q)
  end.

(** [CountBits()]: the number of bits set. *)
Definition CountBits (b : t) : nat :=
  match b with
  | N0 => 0
  | Npos p => count_positive p
  end.

End TBits.

(** ** AliPID species and PDG codes (external enumerations) *)

Module AliPID.

(** [AliPID::EParticleType], in declaration order. *)
Inductive EParticleType : Type :=
| kElectron | kMuon | kPion | kKaon | kProton
| kDeuteron | kTriton | kHe3 | kAlpha
| kPhoton | kPi0 | kNeutron | kKaon0 | kEleCon
| kUnknown.

(** The enumerator's integer value, used as array index and bit number. *)
Definition index (id : EParticleType) : nat :=
  match id with
  | kElectron => 0 | kMuon => 1 | kPion => 2 | kKaon => 3 | kProton => 4
  | kDeuteron => 5 | kTriton => 6 | kHe3 => 7 | kAlpha => 8
  | kPhoton => 9 | kPi0 => 10 | kNeutron => 11 | kKaon0 => 12
  | kEleCon => 13 | kUnknown => 14
  end%nat.

Definition bit (id : EParticleType) : N := N.of_nat (index id).

Definition eqb (a b : EParticleType) : bool := Nat.eqb (index a) (index b).

Definition all : list EParticleType :=
  [kElectron; kMuon; kPion; kKaon; kProton; kDeuteron; kTriton; kHe3;
   kAlpha; kPhoton; kPi0; kNeutron; kKaon0; kEleCon; kUnknown].

(** [AliPID::kSPECIESC]: the charged species, electron to alpha. *)
Definition kSPECIESC : nat := 9.

End AliPID.

Import AliPID.

(** [TPDGCode.h] *)
Module PDG.
Definition kElectron : Z := 11.
Definition kPositron : Z := -11.
Definition kMuonMinus : Z := 13.
Definition kMuonPlus : Z := -13.
Definition kPiPlus : Z := 211.
Definition kPiMinus : Z := -211.
Definition kKPlus : Z := 321.
Definition kKMinus : Z := -321.
Definition kProton : Z := 2212.
Definition kProtonBar : Z := -2212.
End PDG.

(** ** The cut object *)

(** [enum cutsIds]: the bit numbers of [fCutsEnabledMask], in the order of
    [fgkCutsNames]. *)
Definition kITSdEdxSigmaCut : N := 0.
Definition kTPCdEdxSigmaCut : N := 1.
Definition kTOFSigmaCut : N := 2.
Definition kTPCTOF2DSigmaCut : N := 3.
Definition kNCuts : nat := 4.

(** [enum cutsParametersIds]: one identifier per [case] of
    [SetCutAndParams], in the order of the [switch]. *)
Inductive cutsParametersIds : Type :=
| kPMinCutParam
| kPMaxCutParam
| kITSdEdxSigmaCutParam_e
| kITSdEdxSigmaCutParam_mu
| kITSdEdxSigmaCutParam_pi
| kITSdEdxSigmaCutParam_k
| kITSdEdxSigmaCutParam_p
| kTPCdEdxSigmaCutParam_e
| kTPCdEdxSigmaCutParam_mu
| kTPCdEdxSigmaCutParam_pi
| kTPCdEdxSigmaCutParam_k
| kTPCdEdxSigmaCutParam_p
| kTOFSigmaCutParam_e
| kTOFSigmaCutParam_mu
| kTOFSigmaCutParam_pi
| kTOFSigmaCutParam_k
| kTOFSigmaCutParam_p
| kTPCTOFCutParam.

Definition param_index (p : cutsParametersIds) : nat :=
  match p with
  | kPMinCutParam => 0
  | kPMaxCutParam => 1
  | kITSdEdxSigmaCutParam_e => 2
  | kITSdEdxSigmaCutParam_mu => 3
  | kITSdEdxSigmaCutParam_pi => 4
  | kITSdEdxSigmaCutParam_k => 5
  | kITSdEdxSigmaCutParam_p => 6
  | kTPCdEdxSigmaCutParam_e => 7
  | kTPCdEdxSigmaCutParam_mu => 8
  | kTPCdEdxSigmaCutParam_pi => 9
  | kTPCdEdxSigmaCutParam_k => 10
  | kTPCdEdxSigmaCutParam_p => 11
  | kTOFSigmaCutParam_e => 12
  | kTOFSigmaCutParam_mu => 13
  | kTOFSigmaCutParam_pi => 14
  | kTOFSigmaCutParam_k => 15
  | kTOFSigmaCutParam_p => 16
  | kTPCTOFCutParam => 17
  end%nat.

Definition kNCutsParameters : nat := 18.

(** Modelled from the spec: the numbering of [cutsParametersIds] is declared
    in the class header, which is not among the sources.  The flat
    parameter-ID space covers the momentum minimum and maximum, five
    per-species ITS codes, five per-species TPC codes, five per-species TOF
    codes and the combined TPC+TOF mode, numbered from zero in that order;
    [cutsParametersIds(paramID)] of any other integer selects the
    [default] branch. *)
Definition cutsParametersIds_of (paramID : Z) : option cutsParametersIds :=
  match paramID with
  | 0 => Some kPMinCutParam
  | 1 => Some kPMaxCutParam
  | 2 => Some kITSdEdxSigmaCutParam_e
  | 3 => Some kITSdEdxSigmaCutParam_mu
  | 4 => Some kITSdEdxSigmaCutParam_pi
  | 5 => Some kITSdEdxSigmaCutParam_k
  | 6 => Some kITSdEdxSigmaCutParam_p
  | 7 => Some kTPCdEdxSigmaCutParam_e
  | 8 => Some kTPCdEdxSigmaCutParam_mu
  | 9 => Some kTPCdEdxSigmaCutParam_pi
  | 10 => Some kTPCdEdxSigmaCutParam_k
  | 11 => Some kTPCdEdxSigmaCutParam_p
  | 12 => Some kTOFSigmaCutParam_e
  | 13 => Some kTOFSigmaCutParam_mu
  | 14 => Some kTOFSigmaCutParam_pi
  | 15 => Some kTOFSigmaCutParam_k
  | 16 => Some kTOFSigmaCutParam_p
  | 17 => Some kTPCTOFCutParam
  | _ => None
  end.

(** The data members of [AliCSPIDCuts] that the configuration and the
    acceptance code read or write; [fParameters] and [fCutsString] are
    inherited from the cuts base class.  The n-sigma arrays are indexed by
    species. *)
Record AliCSPIDCuts : Type := mkCuts {
  fParameters : list Z;
  fCutsString : string;
  fMinP : Q;
  fMaxP : Q;
  fTOFRequired : bool;
  fTPCTOF2Dcut : bool;
  fITSnSigmaAbove : list Q;
  fITSnSigmaBelow : list Q;
  fTPCnSigmaAbove : list Q;
  fTPCnSigmaBelow : list Q;
  fTOFnSigmaAbove : list Q;
  fTOFnSigmaBelow : list Q;
  fCutsEnabledMask : TBits.t;
  fCutsActivatedMask : TBits.t;
  fITSEnabledSpeciesMask : TBits.t;
  fTPCEnabledSpeciesMask : TBits.t;
  fTOFEnabledSpeciesMask : TBits.t;
  fTPCTOF2DEnabledSpeciesMask : TBits.t;
  fTargetSpecies : EParticleType
}.

(** Field updates, one per assigned data member. *)
Definition with_fParameters (v : list Z) (c : AliCSPIDCuts) : AliCSPIDCuts :=
  mkCuts v (fCutsString c) (fMinP c) (fMaxP c) (fTOFRequired c)
    (fTPCTOF2Dcut c) (fITSnSigmaAbove c) (fITSnSigmaBelow c)
    (fTPCnSigmaAbove c) (fTPCnSigmaBelow c) (fTOFnSigmaAbove c)
    (fTOFnSigmaBelow c) (fCutsEnabledMask c) (fCutsActivatedMask c)
    (fITSEnabledSpeciesMask c) (fTPCEnabledSpeciesMask c)
    (fTOFEnabledSpeciesMask c) (fTPCTOF2DEnabledSpeciesMask c)
    (fTargetSpecies c).

Definition with_fCutsString (v : string) (c : AliCSPIDCuts) : AliCSPIDCuts :=
  mkCuts (fParameters c) v (fMinP c) (fMaxP c) (fTOFRequired c)
    (fTPCTOF2Dcut c) (fITSnSigmaAbove c) (fITSnSigmaBelow c)
    (fTPCnSigmaAbove c) (fTPCnSigmaBelow c) (fTOFnSigmaAbove c)
    (fTOFnSigmaBelow c) (fCutsEnabledMask c) (fCutsActivatedMask c)
    (fITSEnabledSpeciesMask c) (fTPCEnabledSpeciesMask c)
    (fTOFEnabledSpeciesMask c) (fTPCTOF2DEnabledSpeciesMask c)
    (fTargetSpecies c).

Definition with_fMinP (v : Q) (c : AliCSPIDCuts) : AliCSPIDCuts :=
  mkCuts (fParameters c) (fCutsString c) v (fMaxP c) (fTOFRequired c)
    (fTPCTOF2Dcut c) (fITSnSigmaAbove c) (fITSnSigmaBelow c)
    (fTPCnSigmaAbove c) (fTPCnSigmaBelow c) (fTOFnSigmaAbove c)
    (fTOFnSigmaBelow c) (fCutsEnabledMask c) (fCutsActivatedMask c)
    (fITSEnabledSpeciesMask c) (fTPCEnabledSpeciesMask c)
    (fTOFEnabledSpeciesMask c) (fTPCTOF2DEnabledSpeciesMask c)
    (fTargetSpecies c).

Definition with_fMaxP (v : Q) (c : AliCSPIDCuts) : AliCSPIDCuts :=
  mkCuts (fParameters c) (fCutsString c) (fMinP c) v (fTOFRequired c)
    (fTPCTOF2Dcut c) (fITSnSigmaAbove c) (fITSnSigmaBelow c)
    (fTPCnSigmaAbove c) (fTPCnSigmaBelow c) (fTOFnSigmaAbove c)
    (fTOFnSigmaBelow c) (fCutsEnabledMask c) (fCutsActivatedMask c)
    (fITSEnabledSpeciesMask c) (fTPCEnabledSpeciesMask c)
    (fTOFEnabledSpeciesMask c) (fTPCTOF2DEnabledSpeciesMask c)
    (fTargetSpecies c).

Definition with_fTOFRequired (v : bool) (c : AliCSPIDCuts) : AliCSPIDCuts :=
  mkCuts (fParameters c) (fCutsString c) (fMinP c) (fMaxP c) v
    (fTPCTOF2Dcut c) (fITSnSigmaAbove c) (fITSnSigmaBelow c)
    (fTPCnSigmaAbove c) (fTPCnSigmaBelow c) (fTOFnSigmaAbove c)
    (fTOFnSigmaBelow c) (fCutsEnabledMask c) (fCutsActivatedMask c)
    (fITSEnabledSpeciesMask c) (fTPCEnabledSpeciesMask c)
    (fTOFEnabledSpeciesMask c) (fTPCTOF2DEnabledSpeciesMask c)
    (fTargetSpecies c).

Definition with_fCutsEnabledMask (v : TBits.t) (c : AliCSPIDCuts) : AliCSPIDCuts :=
  mkCuts (fParameters c) (fCutsString c) (fMinP c) (fMaxP c) (fTOFRequired c)
    (fTPCTOF2Dcut c) (fITSnSigmaAbove c) (fITSnSigmaBelow c)
    (fTPCnSigmaAbove c) (fTPCnSigmaBelow c) (fTOFnSigmaAbove c)
    (fTOFnSigmaBelow c) v (fCutsActivatedMask c)
    (fITSEnabledSpeciesMask c) (fTPCEnabledSpeciesMask c)
    (fTOFEnabledSpeciesMask c) (fTPCTOF2DEnabledSpeciesMask c)
    (fTargetSpecies c).

Definition with_fTPCTOF2DEnabledSpeciesMask (v : TBits.t) (c : AliCSPIDCuts)
  : AliCSPIDCuts :=
  mkCuts (fParameters c) (fCutsString c) (fMinP c) (fMaxP c) (fTOFRequired c)
    (fTPCTOF2Dcut c) (fITSnSigmaAbove c) (fITSnSigmaBelow c)
    (fTPCnSigmaAbove c) (fTPCnSigmaBelow c) (fTOFnSigmaAbove c)
    (fTOFnSigmaBelow c) (fCutsEnabledMask c) (fCutsActivatedMask c)
    (fITSEnabledSpeciesMask c) (fTPCEnabledSpeciesMask c)
    (fTOFEnabledSpeciesMask c) v (fTargetSpecies c).

(** The three assignments of one [case] of [SetITSdEdxSigmaCut]: the
    species mask, [fITSnSigmaBelow[id]] and [fITSnSigmaAbove[id]]. *)
Definition with_ITS (mask : TBits.t) (below above : list Q) (c : AliCSPIDCuts)
  : AliCSPIDCuts :=
  mkCuts (fParameters c) (fCutsString c) (fMinP c) (fMaxP c) (fTOFRequired c)
    (fTPCTOF2Dcut c) above below
    (fTPCnSigmaAbove c) (fTPCnSigmaBelow c) (fTOFnSigmaAbove c)
    (fTOFnSigmaBelow c) (fCutsEnabledMask c) (fCutsActivatedMask c)
    mask (fTPCEnabledSpeciesMask c)
    (fTOFEnabledSpeciesMask c) (fTPCTOF2DEnabledSpeciesMask c)
    (fTargetSpecies c).

(** The same for [SetTPCdEdxSigmaCut]. *)
Definition with_TPC (mask : TBits.t) (below above : list Q) (c : AliCSPIDCuts)
  : AliCSPIDCuts :=
  mkCuts (fParameters c) (fCutsString c) (fMinP c) (fMaxP c) (fTOFRequired c)
    (fTPCTOF2Dcut c) (fITSnSigmaAbove c) (fITSnSigmaBelow c)
    above below (fTOFnSigmaAbove c)
    (fTOFnSigmaBelow c) (fCutsEnabledMask c) (fCutsActivatedMask c)
    (fITSEnabledSpeciesMask c) mask
    (fTOFEnabledSpeciesMask c) (fTPCTOF2DEnabledSpeciesMask c)
    (fTargetSpecies c).

(** The same for [SetTOFSigmaCut]. *)
Definition with_TOF (mask : TBits.t) (below above : list Q) (c : AliCSPIDCuts)
  : AliCSPIDCuts :=
  mkCuts (fParameters c) (fCutsString c) (fMinP c) (fMaxP c) (fTOFRequired c)
    (fTPCTOF2Dcut c) (fITSnSigmaAbove c) (fITSnSigmaBelow c)
    (fTPCnSigmaAbove c) (fTPCnSigmaBelow c) above
    below (fCutsEnabledMask c) (fCutsActivatedMask c)
    (fITSEnabledSpeciesMask c) (fTPCEnabledSpeciesMask c)
    mask (fTPCTOF2DEnabledSpeciesMask c)
    (fTargetSpecies c).

(** Modelled from the spec: the bound of the n-sigma arrays is declared in
    the class header, which is not among the sources.  Each detector has a
    per-species table; one slot per charged AliPID species is taken. *)
Definition kNSigmaSlots : nat := AliPID.kSPECIESC.

(** An array member initialised with one value in braces: the first element
    takes the value, the others are zero. *)
Definition brace_init (first : Q) : list Q :=
  first :: repeat 0%Q (kNSigmaSlots - 1).

(** The constructor [AliCSPIDCuts(name, title, target, cutnumber)].  The
    base class allocates one stored parameter per parameter identifier. *)
Definition new_AliCSPIDCuts (target : EParticleType) : AliCSPIDCuts :=
  {| fParameters := repeat 0 kNCutsParameters;
     fCutsString := EmptyString;
     fMinP := 0.0;
     fMaxP := 9999.0;
     fTOFRequired := false;
     fTPCTOF2Dcut := false;
     fITSnSigmaAbove := brace_init 100.0;
     fITSnSigmaBelow := brace_init (-100.0);
     fTPCnSigmaAbove := brace_init 100.0;
     fTPCnSigmaBelow := brace_init (-100.0);
     fTOFnSigmaAbove := brace_init 100.0;
     fTOFnSigmaBelow := brace_init (-100.0);
     fCutsEnabledMask := TBits.ResetAllBits;
     fCutsActivatedMask := TBits.ResetAllBits;
     fITSEnabledSpeciesMask := TBits.ResetAllBits;
     fTPCEnabledSpeciesMask := TBits.ResetAllBits;
     fTOFEnabledSpeciesMask := TBits.ResetAllBits;
     fTPCTOF2DEnabledSpeciesMask := TBits.ResetAllBits;
     fTargetSpecies := target |}.

(** ** Momentum window *)

(** [SetPMin] *)
Definition SetPMin (pcode : Z) (c : AliCSPIDCuts) : bool * AliCSPIDCuts :=
  match pcode with
  | 0 => (true, with_fMinP 0.0 c)
  | 1 | 2 | 3 | 4 | 5 | 6 | 7 | 8 | 9 =>
      (true, with_fMinP (inject_Z (pcode + 1) / 10.0) c)
  | _ => (false, c)
  end.

(** [SetPMax] *)
Definition SetPMax (pcode : Z) (c : AliCSPIDCuts) : bool * AliCSPIDCuts :=
  match pcode with
  | 0 => (true, with_fMaxP 1e6 c)
  | 1 => (true, with_fMaxP 0.3 c)
  | 2 => (true, with_fMaxP 0.4 c)
  | 3 => (true, with_fMaxP 0.5 c)
  | 4 => (true, with_fMaxP 0.6 c)
  | 5 => (true, with_fMaxP 0.7 c)
  | 6 => (true, with_fMaxP 2.0 c)
  | 7 => (true, with_fMaxP 3.0 c)
  | 8 => (true, with_fMaxP 4.0 c)
  | _ => (false, c)
  end.

(** ** Per-detector n-sigma bands *)

(** The closing statement of each band setter: the detector's bit of
    [fCutsEnabledMask] follows [CountBits() > 0] of the species mask. *)
Definition ITS_enabled_update (c : AliCSPIDCuts) : AliCSPIDCuts :=
  if (0 <? TBits.CountBits (fITSEnabledSpeciesMask c))%nat
  then with_fCutsEnabledMask
         (TBits.SetBitNumber kITSdEdxSigmaCut (fCutsEnabledMask c)) c
  else with_fCutsEnabledMask
         (TBits.ResetBitNumber kITSdEdxSigmaCut (fCutsEnabledMask c)) c.

Definition TPC_enabled_update (c : AliCSPIDCuts) : AliCSPIDCuts :=
  if (0 <? TBits.CountBits (fTPCEnabledSpeciesMask c))%nat
  then with_fCutsEnabledMask
         (TBits.SetBitNumber kTPCdEdxSigmaCut (fCutsEnabledMask c)) c
  else with_fCutsEnabledMask
         (TBits.ResetBitNumber kTPCdEdxSigmaCut (fCutsEnabledMask c)) c.

Definition TOF_enabled_update (c : AliCSPIDCuts) : AliCSPIDCuts :=
  if (0 <? TBits.CountBits (fTOFEnabledSpeciesMask c))%nat
  then with_fCutsEnabledMask
         (TBits.SetBitNumber kTOFSigmaCut (fCutsEnabledMask c)) c
  else with_fCutsEnabledMask
         (TBits.ResetBitNumber kTOFSigmaCut (fCutsEnabledMask c)) c.

Definition TPCTOF2D_enabled_update (c : AliCSPIDCuts) : AliCSPIDCuts :=
  if (0 <? TBits.CountBits (fTPCTOF2DEnabledSpeciesMask c))%nat
  then with_fCutsEnabledMask
         (TBits.SetBitNumber kTPCTOF2DSigmaCut (fCutsEnabledMask c)) c
  else with_fCutsEnabledMask
         (TBits.ResetBitNumber kTPCTOF2DSigmaCut (fCutsEnabledMask c)) c.

(** The passive [case 0] of [SetITSdEdxSigmaCut]: the species bit is reset and
    the bounds go back to -100 and 100. *)
Definition ITS_passive (id : EParticleType) (c : AliCSPIDCuts) : AliCSPIDCuts :=
  with_ITS (TBits.ResetBitNumber (bit id) (fITSEnabledSpeciesMask c))
    (<[index id := (-100.0)%Q]> (fITSnSigmaBelow c))
    (<[index id := 100.0%Q]> (fITSnSigmaAbove c)) c.

(** An active [case] of [SetITSdEdxSigmaCut]: the species bit is set and the
    bounds are stored. *)
Definition ITS_band (id : EParticleType) (below above : Q) (c : AliCSPIDCuts)
  : AliCSPIDCuts :=
  with_ITS (TBits.SetBitNumber (bit id) (fITSEnabledSpeciesMask c))
    (<[index id := below]> (fITSnSigmaBelow c))
    (<[index id := above]> (fITSnSigmaAbove c)) c.

(** [SetITSdEdxSigmaCut] *)
Definition SetITSdEdxSigmaCut (id : EParticleType) (dEdxCode : Z)
    (c : AliCSPIDCuts) : bool * AliCSPIDCuts :=
  match dEdxCode with
  | 0 => (true, ITS_enabled_update (ITS_passive id c))
  | 1 => (true, ITS_enabled_update (ITS_band id (-10.0) 10.0 c))
  | 2 => (true, ITS_enabled_update (ITS_band id (-6.0) 7.0 c))
  | 3 => (true, ITS_enabled_update (ITS_band id (-5.0) 5.0 c))
  | 4 => (true, ITS_enabled_update (ITS_band id (-4.0) 5.0 c))
  | 5 => (true, ITS_enabled_update (ITS_band id (-3.0) 5.0 c))
  | 6 => (true, ITS_enabled_update (ITS_band id (-4.0) 4.0 c))
  | 7 => (true, ITS_enabled_update (ITS_band id (-2.5) 4.0 c))
  | 8 => (true, ITS_enabled_update (ITS_band id (-2.0) 3.5 c))
  | _ => (false, c)
  end.

(** The passive [case 0] of [SetTPCdEdxSigmaCut]: the species bit is reset and
    the bounds go back to -100 and 100. *)
Definition TPC_passive (id : EParticleType) (c : AliCSPIDCuts) : AliCSPIDCuts :=
  with_TPC (TBits.ResetBitNumber (bit id) (fTPCEnabledSpeciesMask c))
    (<[index id := (-100.0)%Q]> (fTPCnSigmaBelow c))
    (<[index id := 100.0%Q]> (fTPCnSigmaAbove c)) c.

(** An active [case] of [SetTPCdEdxSigmaCut]: the species bit is set and the
    bounds are stored. *)
Definition TPC_band (id : EParticleType) (below above : Q) (c : AliCSPIDCuts)
  : AliCSPIDCuts :=
  with_TPC (TBits.SetBitNumber (bit id) (fTPCEnabledSpeciesMask c))
    (<[index id := below]> (fTPCnSigmaBelow c))
    (<[index id := above]> (fTPCnSigmaAbove c)) c.

(** [SetTPCdEdxSigmaCut] *)
Definition SetTPCdEdxSigmaCut (id : EParticleType) (dEdxCode : Z)
    (c : AliCSPIDCuts) : bool * AliCSPIDCuts :=
  match dEdxCode with
  | 0 => (true, TPC_enabled_update (TPC_passive id c))
  | 1 => (true, TPC_enabled_update (TPC_band id (-10.0) 10.0 c))
  | 2 => (true, TPC_enabled_update (TPC_band id (-6.0) 7.0 c))
  | 3 => (true, TPC_enabled_update (TPC_band id (-5.0) 5.0 c))
  | 4 => (true, TPC_enabled_update (TPC_band id (-4.0) 5.0 c))
  | 5 => (true, TPC_enabled_update (TPC_band id (-4.0) 4.0 c))
  | 6 => (true, TPC_enabled_update (TPC_band id (-3.0) 4.0 c))
  | 7 => (true, TPC_enabled_update (TPC_band id (-3.0) 3.0 c))
  | 8 => (true, TPC_enabled_update (TPC_band id (-3.0) 5.0 c))
  | 9 => (true, TPC_enabled_update (TPC_band id (-2.0) 3.0 c))
  | _ => (false, c)
  end.

(** The passive [case 0] of [SetTOFSigmaCut]: the species bit is reset and
    the bounds go back to -100 and 100. *)
Definition TOF_passive (id : EParticleType) (c : AliCSPIDCuts) : AliCSPIDCuts :=
  with_TOF (TBits.ResetBitNumber (bit id) (fTOFEnabledSpeciesMask c))
    (<[index id := (-100.0)%Q]> (fTOFnSigmaBelow c))
    (<[index id := 100.0%Q]> (fTOFnSigmaAbove c)) c.

(** An active [case] of [SetTOFSigmaCut]: the species bit is set and the
    bounds are stored. *)
Definition TOF_band (id : EParticleType) (below above : Q) (c : AliCSPIDCuts)
  : AliCSPIDCuts :=
  with_TOF (TBits.SetBitNumber (bit id) (fTOFEnabledSpeciesMask c))
    (<[index id := below]> (fTOFnSigmaBelow c))
    (<[index id := above]> (fTOFnSigmaAbove c)) c.

(** [SetTOFSigmaCut] *)
Definition SetTOFSigmaCut (id : EParticleType) (tofcode : Z)
    (c : AliCSPIDCuts) : bool * AliCSPIDCuts :=
  match tofcode with
  | 0 => (true, TOF_enabled_update (TOF_passive id c))
  | 1 => (true, TOF_enabled_update (TOF_band id (-7.0) 7.0 c))
  | 2 => (true, TOF_enabled_update (TOF_band id (-5.0) 5.0 c))
  | 3 => (true, TOF_enabled_update (TOF_band id (-3.0) 5.0 c))
  | 4 => (true, TOF_enabled_update (TOF_band id (-2.0) 3.0 c))
  | 5 => (true, TOF_enabled_update (TOF_band id (-3.0) 3.0 c))
  | _ => (false, c)
  end.

(** [fTPCTOF2DEnabledSpeciesMask.ResetAllBits()], the first statement of
    every [case] of [SetTPCTOFCut]. *)
Definition TPCTOF2D_reset (c : AliCSPIDCuts) : AliCSPIDCuts :=
  with_fTPCTOF2DEnabledSpeciesMask TBits.ResetAllBits c.

(** [fTPCTOF2DEnabledSpeciesMask = fTPCEnabledSpeciesMask & fTOFEnabledSpeciesMask] *)
Definition TPCTOF2D_intersect (c : AliCSPIDCuts) : AliCSPIDCuts :=
  with_fTPCTOF2DEnabledSpeciesMask
    (TBits.and (fTPCEnabledSpeciesMask c) (fTOFEnabledSpeciesMask c)) c.

(** [SetTPCTOFCut] *)
Definition SetTPCTOFCut (tpctofcode : Z) (c : AliCSPIDCuts)
  : bool * AliCSPIDCuts :=
  match tpctofcode with
  | 0 => (true,
          TPCTOF2D_enabled_update
            (with_fTOFRequired false (TPCTOF2D_reset c)))
  | 1 => (true,
          TPCTOF2D_enabled_update
            (with_fTOFRequired true (TPCTOF2D_reset c)))
  | 2 => (true,
          TPCTOF2D_enabled_update
            (with_fTOFRequired false
               (TPCTOF2D_intersect (TPCTOF2D_reset c))))
  | 3 => (true,
          TPCTOF2D_enabled_update
            (with_fTOFRequired true
               (TPCTOF2D_intersect (TPCTOF2D_reset c))))
  | _ => (false, c)
  end.

(** ** Monte Carlo truth *)

Module AliVParticle.
(** What the cut reads of a true particle: [P()] and [PdgCode()]. *)
Record t : Type := mk { P : Q; PdgCode : Z }.
End AliVParticle.

(** The truth sources the cut reaches through static members: the data
    format flag [fgIsESD], the tracks of the MC event and the AOD array of
    MC particles.  A lookup gives [None] for a null pointer. *)
Record MCTruth : Type := mkMCTruth {
  fgIsESD : bool;
  MCEvent_GetTrack : Z -> option AliVParticle.t;
  fgMCArray_At : Z -> option AliVParticle.t
}.

(** What the truth check reads of a reconstructed track: [GetLabel()]. *)
Record AliVTrack : Type := mkTrack { GetLabel : Z }.

(** [GetTrueSpecies], the overload on a true particle. *)
Definition GetTrueSpecies (par : AliVParticle.t) : EParticleType :=
  let pdg := AliVParticle.PdgCode par in
  if (pdg =? PDG.kPositron) || (pdg =? PDG.kElectron) then kElectron
  else if (pdg =? PDG.kProton) || (pdg =? PDG.kProtonBar) then kProton
  else if (pdg =? PDG.kMuonPlus) || (pdg =? PDG.kMuonMinus) then kMuon
  else if (pdg =? PDG.kPiPlus) || (pdg =? PDG.kPiMinus) then kPion
  else if (pdg =? PDG.kKPlus) || (pdg =? PDG.kKMinus) then kKaon
  else kUnknown.

(** [IsTrueTrackAccepted], the overload on the index of a true track. *)
Definition IsTrueTrackAccepted_index (mc : MCTruth) (c : AliCSPIDCuts)
    (itrk : Z) : bool :=
  if fgIsESD mc then
    match MCEvent_GetTrack mc itrk with
    | None => false
    | Some particle =>
        let p := AliVParticle.P particle in
        if Qltb p (fMinP c) || Qltb (fMaxP c) p then false
        else if TBits.TestBitNumber (fCutsEnabledMask c) kITSdEdxSigmaCut
                || TBits.TestBitNumber (fCutsEnabledMask c) kTPCdEdxSigmaCut
                || TBits.TestBitNumber (fCutsEnabledMask c) kTOFSigmaCut
                || TBits.TestBitNumber (fCutsEnabledMask c) kTPCTOF2DSigmaCut
        then if negb (AliPID.eqb (GetTrueSpecies particle) (fTargetSpecies c))
             then false else true
        else true
    end
  else
    match fgMCArray_At mc itrk with
    | None => false
    | Some particle =>
        let p := AliVParticle.P particle in
        if Qltb p (fMinP c) || Qltb (fMaxP c) p then false
        else if TBits.TestBitNumber (fCutsEnabledMask c) kITSdEdxSigmaCut
                || TBits.TestBitNumber (fCutsEnabledMask c) kTPCdEdxSigmaCut
                || TBits.TestBitNumber (fCutsEnabledMask c) kTOFSigmaCut
                || TBits.TestBitNumber (fCutsEnabledMask c) kTPCTOF2DSigmaCut
        then if negb (AliPID.eqb (GetTrueSpecies particle) (fTargetSpecies c))
             then false else true
        else true
    end.

(** [IsTrueTrackAccepted], the overload on a reconstructed track. *)
Definition IsTrueTrackAccepted (mc : MCTruth) (c : AliCSPIDCuts)
    (trk : AliVTrack) : bool :=
  if GetLabel trk <? 0 then false
  else IsTrueTrackAccepted_index mc c (GetLabel trk).

(** The momentum window as the truth check applies it: a momentum is
    rejected when [p < fMinP || fMaxP < p]. *)
Definition momentumGate (c : AliCSPIDCuts) (p : Q) : bool :=
  negb (Qltb p (fMinP c) || Qltb (fMaxP c) p).

(** Whether any of the four cut categories is enabled. *)
Definition anyCutEnabled (c : AliCSPIDCuts) : bool :=
  TBits.TestBitNumber (fCutsEnabledMask c) kITSdEdxSigmaCut
  || TBits.TestBitNumber (fCutsEnabledMask c) kTPCdEdxSigmaCut
  || TBits.TestBitNumber (fCutsEnabledMask c) kTOFSigmaCut
  || TBits.TestBitNumber (fCutsEnabledMask c) kTPCTOF2DSigmaCut.

(** The true particle a label leads to: the ESD format reads the MC event,
    the AOD format the array of MC particles. *)
Definition truthParticle (mc : MCTruth) (itrk : Z) : option AliVParticle.t :=
  if fgIsESD mc then MCEvent_GetTrack mc itrk else fgMCArray_At mc itrk.

(** Two lookups agree when both give a null pointer or both give a
    particle of the same momentum and PDG code. *)
Definition sameParticle (a b : option AliVParticle.t) : Prop :=
  match a, b with
  | None, None => True
  | Some x, Some y =>
      (AliVParticle.P x == AliVParticle.P y)%Q
      /\ AliVParticle.PdgCode x = AliVParticle.PdgCode y
  | _, _ => False
  end.

(** Reading [array[id]]. *)
Definition at_species (a : list Q) (id : EParticleType) : Q :=
  nth (index id) a 0%Q.

(** ** Allocation of the n-sigma arrays *)

(** The six n-sigma arrays have their declared bound. *)
Definition allocated (c : AliCSPIDCuts) : Prop :=
  length (fITSnSigmaAbove c) = kNSigmaSlots
  /\ length (fITSnSigmaBelow c) = kNSigmaSlots
  /\ length (fTPCnSigmaAbove c) = kNSigmaSlots
  /\ length (fTPCnSigmaBelow c) = kNSigmaSlots
  /\ length (fTOFnSigmaAbove c) = kNSigmaSlots
  /\ length (fTOFnSigmaBelow c) = kNSigmaSlots.

(** The species has a slot in the n-sigma arrays. *)
Definition hasSlot (id : EParticleType) : Prop :=
  (index id < kNSigmaSlots)%nat.

(** What a band setter of one detector leaves behind, for the detector's
    bit [cut] of [fCutsEnabledMask], its species mask and its two arrays of
    bounds, when called on [c] with species [id] and preset [code] and
    ending in [c']: the detector's bit is set exactly when the species mask
    counts a bit; and for the preset 0 the species' bit is reset, its bounds
    are -100 and 100, and the detector's bit is reset if no other species
    was enabled. *)
Definition bandSetterPost (cut : N) (mask : AliCSPIDCuts -> TBits.t)
    (below above : AliCSPIDCuts -> list Q)
    (id : EParticleType) (code : Z) (c c' : AliCSPIDCuts) : Prop :=
  (TBits.TestBitNumber (fCutsEnabledMask c') cut = true <->
   (0 < TBits.CountBits (mask c'))%nat)
  /\ (code = 0 ->
      TBits.TestBitNumber (mask c') (bit id) = false
      /\ at_species (below c') id = (-100.0)%Q
      /\ at_species (above c') id = 100.0%Q
      /\ ((forall m, m <> bit id -> TBits.TestBitNumber (mask c) m = false) ->
          TBits.TestBitNumber (fCutsEnabledMask c') cut = false)).

(** What the preset 0 of a band setter leaves behind, when called on [c]
    for species [id] and ending in [c']: the species' bit is reset, its
    bounds are -100 and 100, and the detector's bit [cut] of
    [fCutsEnabledMask] is reset if no other species was enabled. *)
Definition presetZeroPost (cut : N) (mask : AliCSPIDCuts -> TBits.t)
    (below above : AliCSPIDCuts -> list Q)
    (id : EParticleType) (c c' : AliCSPIDCuts) : Prop :=
  TBits.TestBitNumber (mask c') (bit id) = false
  /\ at_species (below c') id = (-100.0)%Q
  /\ at_species (above c') id = 100.0%Q
  /\ ((forall m, m <> bit id -> TBits.TestBitNumber (mask c) m = false) ->
      TBits.TestBitNumber (fCutsEnabledMask c') cut = false).

(** ** The configuration facade *)

Section Facade.

(** The stored parameters rendered as the cuts string.  The rendering is
    code of the cuts base class, which is not among the sources; it reads
    the stored parameters only. *)
Variable FormCutsString : list Z -> string.

(** [UpdateCutsString] of the base class. *)
Definition UpdateCutsString (c : AliCSPIDCuts) : AliCSPIDCuts :=
  with_fCutsString (FormCutsString (fParameters c)) c.

(** The body every [case] of [SetCutAndParams] shares: when the setter
    accepted the value, it is stored under the parameter identifier and
    the cuts string is regenerated. *)
Definition stored (param : cutsParametersIds) (value : Z)
    (r : bool * AliCSPIDCuts) : bool * AliCSPIDCuts :=
  if fst r
  then (true,
        UpdateCutsString
          (with_fParameters
             (<[param_index param := value]> (fParameters (snd r)))
             (snd r)))
  else (false, snd r).

(** [SetCutAndParams] *)
Definition SetCutAndParams (paramID value : Z) (c : AliCSPIDCuts)
  : bool * AliCSPIDCuts :=
  match cutsParametersIds_of paramID with
  | Some kPMinCutParam =>
      stored kPMinCutParam value (SetPMin value c)
  | Some kPMaxCutParam =>
      stored kPMaxCutParam value (SetPMax value c)
  | Some kITSdEdxSigmaCutParam_e =>
      stored kITSdEdxSigmaCutParam_e value
        (SetITSdEdxSigmaCut kElectron value c)
  | Some kITSdEdxSigmaCutParam_mu =>
      stored kITSdEdxSigmaCutParam_mu value
        (SetITSdEdxSigmaCut kMuon value c)
  | Some kITSdEdxSigmaCutParam_pi =>
      stored kITSdEdxSigmaCutParam_pi value
        (SetITSdEdxSigmaCut kPion value c)
  | Some kITSdEdxSigmaCutParam_k =>
      stored kITSdEdxSigmaCutParam_k value
        (SetITSdEdxSigmaCut kKaon value c)
  | Some kITSdEdxSigmaCutParam_p =>
      stored kITSdEdxSigmaCutParam_p value
        (SetITSdEdxSigmaCut kProton value c)
  | Some kTPCdEdxSigmaCutParam_e =>
      stored kTPCdEdxSigmaCutParam_e value
        (SetTPCdEdxSigmaCut kElectron value c)
  | Some kTPCdEdxSigmaCutParam_mu =>
      stored kTPCdEdxSigmaCutParam_mu value
        (SetTPCdEdxSigmaCut kMuon value c)
  | Some kTPCdEdxSigmaCutParam_pi =>
      stored kTPCdEdxSigmaCutParam_pi value
        (SetTPCdEdxSigmaCut kPion value c)
  | Some kTPCdEdxSigmaCutParam_k =>
      stored kTPCdEdxSigmaCutParam_k value
        (SetTPCdEdxSigmaCut kKaon value c)
  | Some kTPCdEdxSigmaCutParam_p =>
      stored kTPCdEdxSigmaCutParam_p value
        (SetTPCdEdxSigmaCut kProton value c)
  | Some kTOFSigmaCutParam_e =>
      stored kTOFSigmaCutParam_e value (SetTOFSigmaCut kElectron value c)
  | Some kTOFSigmaCutParam_mu =>
      stored kTOFSigmaCutParam_mu value (SetTOFSigmaCut kMuon value c)
  | Some kTOFSigmaCutParam_pi =>
      stored kTOFSigmaCutParam_pi value (SetTOFSigmaCut kPion value c)
  | Some kTOFSigmaCutParam_k =>
      stored kTOFSigmaCutParam_k value (SetTOFSigmaCut kKaon value c)
  | Some kTOFSigmaCutParam_p =>
      stored kTOFSigmaCutParam_p value (SetTOFSigmaCut kProton value c)
  | Some kTPCTOFCutParam =>
      stored kTPCTOFCutParam value (SetTPCTOFCut value c)
  | None => (false, c)
  end.

End Facade.

(** The preset codes each parameter accepts, as the tables in the setters'
    documentation list them. *)
Definition supported (param : cutsParametersIds) (value : Z) : Prop :=
  match param with
  | kPMinCutParam => 0 <= value <= 9
  | kPMaxCutParam => 0 <= value <= 8
  | kITSdEdxSigmaCutParam_e | kITSdEdxSigmaCutParam_mu
  | kITSdEdxSigmaCutParam_pi | kITSdEdxSigmaCutParam_k
  | kITSdEdxSigmaCutParam_p => 0 <= value <= 8
  | kTPCdEdxSigmaCutParam_e | kTPCdEdxSigmaCutParam_mu
  | kTPCdEdxSigmaCutParam_pi | kTPCdEdxSigmaCutParam_k
  | kTPCdEdxSigmaCutParam_p => 0 <= value <= 9
  | kTOFSigmaCutParam_e | kTOFSigmaCutParam_mu
  | kTOFSigmaCutParam_pi | kTOFSigmaCutParam_k
  | kTOFSigmaCutParam_p => 0 <= value <= 5
  | kTPCTOFCutParam => 0 <= value <= 3
  end.

(** ** The one-dimensional detector test *)

(** Modelled from the spec: the per-track evaluator [accept], which
    [IsTrackAccepted] calls, is defined in the class header, which is not
    among the sources.  For the target species the signal has to lie inside
    the band, [below < nSigma < above] with strict inequality on both sides;
    for a species other than the target the band is a separation band and
    the signal has to lie outside of it, [nSigma < below] or
    [above < nSigma]. *)
Definition bandTest (target id : EParticleType) (below above nSigma : Q)
  : bool :=
  if AliPID.eqb id target
  then Qltb below nSigma && Qltb nSigma above
  else Qltb nSigma below || Qltb above nSigma.

(** Modelled from the spec: the 1-D test of one detector in [accept] (class
    header, not among the sources).  Every species with an enabled band is
    tested against its own band, with the detector response [nSigma] for
    that species; a species without an enabled band does not constrain the
    track. *)
Definition detectorTest1D (target : EParticleType) (mask : TBits.t)
    (below above : list Q) (nSigma : EParticleType -> Q) : bool :=
  forallb
    (fun id =>
       if TBits.TestBitNumber mask (bit id)
       then bandTest target id (at_species below id) (at_species above id)
              (nSigma id)
       else true)
    AliPID.all.

(** Modelled from the spec: the ITS, TPC and TOF instances of the 1-D test
    in [accept] (class header, not among the sources).  The TOF test needs a
    valid TOF hit on the track; without one it is skipped, unless TOF is
    required, in which case the track is rejected. *)
Definition ITSTest (c : AliCSPIDCuts) (nSigmaITS : EParticleType -> Q) : bool :=
  detectorTest1D (fTargetSpecies c) (fITSEnabledSpeciesMask c)
    (fITSnSigmaBelow c) (fITSnSigmaAbove c) nSigmaITS.

Definition TPCTest (c : AliCSPIDCuts) (nSigmaTPC : EParticleType -> Q) : bool :=
  detectorTest1D (fTargetSpecies c) (fTPCEnabledSpeciesMask c)
    (fTPCnSigmaBelow c) (fTPCnSigmaAbove c) nSigmaTPC.

Definition TOFTest (c : AliCSPIDCuts) (tofHit : bool)
    (nSigmaTOF : EParticleType -> Q) : bool :=
  if tofHit
  then detectorTest1D (fTargetSpecies c) (fTOFEnabledSpeciesMask c)
         (fTOFnSigmaBelow c) (fTOFnSigmaAbove c) nSigmaTOF
  else negb (fTOFRequired c).

(** ** Updates that repeat and commute with the parameter store *)

(** An update of the cut that gives the same cut when applied twice and
    that neither reads nor writes the stored parameters and the cuts
    string. *)
Definition framed (f : AliCSPIDCuts -> AliCSPIDCuts) : Prop :=
  (forall c, f (f c) = f c)
  /\ (forall l s c,
         f (with_fCutsString s (with_fParameters l c))
         = with_fCutsString s (with_fParameters l (f c))).

(** A setter that, for the value it is given, either rejects on every cut
    and leaves it as it is, or accepts on every cut and applies one framed
    update. *)
Definition uniformSetter (set : AliCSPIDCuts -> bool * AliCSPIDCuts) : Prop :=
  (forall c, set c = (false, c))
  \/ (exists f, framed f /\ forall c, set c = (true, f c)).

(** ** Bands as intervals *)

(** Strictly inside the open interval from [below] to [above]. *)
Definition insideBand (below above x : Q) : Prop :=
  (below < x /\ x < above)%Q.

(** Strictly outside the closed interval from [below] to [above]. *)
Definition outsideBand (below above x : Q) : Prop :=
  (x < below \/ above < x)%Q.

(** The detector response of a track respects the bands of a detector: the
    n-sigma for the target species is inside the target's band, and for
    every other species with an enabled band the n-sigma for that species
    is outside that species' band. *)
Definition bandsRespected (target : EParticleType) (mask : TBits.t)
    (below above : list Q) (nSigma : EParticleType -> Q) : Prop :=
  insideBand (at_species below target) (at_species above target)
    (nSigma target)
  /\ forall id,
      id <> target ->
      TBits.TestBitNumber mask (bit id) = true ->
      outsideBand (at_species below id) (at_species above id) (nSigma id).

(** ** Sample configurations *)

(** A pion cut with the TPC pion band configured, and an ESD truth source
    holding one charged pion of 1.5 GeV/c under label 7. *)
Definition pionCut : AliCSPIDCuts :=
  snd (SetTPCdEdxSigmaCut kPion 3 (new_AliCSPIDCuts kPion)).

Definition onePionESD : MCTruth :=
  mkMCTruth true
    (fun itrk => if itrk =? 7 then Some (AliVParticle.mk 1.5 211) else None)
    (fun _ => None).

Definition onePionAOD : MCTruth :=
  mkMCTruth false
    (fun _ => None)
    (fun itrk => if itrk =? 7 then Some (AliVParticle.mk (3 # 2) 211) else None).

(** A pion cut with a pion band in each of the three detectors: ITS preset
    3, TPC preset 3 and TOF preset 2. *)
Definition pionThreeBands : AliCSPIDCuts :=
  snd (SetTOFSigmaCut kPion 2 (snd (SetITSdEdxSigmaCut kPion 3 pionCut))).

(** An AOD truth source holding one charged pion of 0.4 GeV/c under
    label 3. *)
Definition slowPionAOD : MCTruth :=
  mkMCTruth false
    (fun _ => None)
    (fun itrk => if itrk =? 3 then Some (AliVParticle.mk 0.4 211) else None).

(** Truth sources, ESD and AOD, holding three charged pions: under index 0
    one at the minimum momentum of a freshly constructed cut, under index 1
    one at its maximum momentum and under index 2 one above it. *)
Definition windowEnds (itrk : Z) : option AliVParticle.t :=
  match itrk with
  | 0 => Some (AliVParticle.mk 0.0 211)
  | 1 => Some (AliVParticle.mk 9999.0 211)
  | 2 => Some (AliVParticle.mk 10000.0 211)
  | _ => None
  end.

Definition windowEndsESD : MCTruth :=
  mkMCTruth true windowEnds (fun _ => None).

Definition windowEndsAOD : MCTruth :=
  mkMCTruth false (fun _ => None) windowEnds.

(** A rendering of the stored parameters for the examples: one decimal
    digit per stored preset code. *)
Definition digitsCutsString (parameters : list Z) : string :=
  string_of_list_ascii
    (map (fun v => Ascii.ascii_of_nat (48 + Z.to_nat v)) parameters).

(** The detector response of a track that is a clear pion: on the pion line
    and four sigma away from any other line. *)
Definition pionResponse (id : EParticleType) : Q :=
  if AliPID.eqb id kPion then 0.5 else 4.5.

(** A pion cut with the TPC pion band of preset 3 and the TPC kaon
    separation band of preset 7. *)
Definition pionKaonCut : AliCSPIDCuts :=
  snd (SetTPCdEdxSigmaCut kKaon 7 pionCut).

(** ** Configuration as table lookups *)

(** The row of the minimum momentum table: the value [SetPMin] assigns for
    a preset code. *)
Definition PMin_preset (pcode : Z) : option Q :=
  match pcode with
  | 0 => Some 0.0%Q
  | 1 | 2 | 3 | 4 | 5 | 6 | 7 | 8 | 9 =>
      Some (inject_Z (pcode + 1) / 10.0)%Q
  | _ => None
  end.

(** The momentum bounds are single precision numbers in the code and exact
    decimals here.  Properties of the momentum window that compare a
    momentum with a preset value keep this margin from it, far above the
    rounding error of a preset value in single precision and far below the
    step of 0.1 between two presets. *)
Definition roundingMargin : Q := 0.001.

(** The row of the maximum momentum table. *)
Definition PMax_preset (pcode : Z) : option Q :=
  match pcode with
  | 0 => Some 1e6%Q
  | 1 => Some 0.3%Q
  | 2 => Some 0.4%Q
  | 3 => Some 0.5%Q
  | 4 => Some 0.6%Q
  | 5 => Some 0.7%Q
  | 6 => Some 2.0%Q
  | 7 => Some 3.0%Q
  | 8 => Some 4.0%Q
  | _ => None
  end.

(** The rows of the band tables in the documentation of the band setters:
    the n-sigma below and above the line for an active preset code, as the
    setters write them. *)
Definition ITS_preset (dEdxCode : Z) : option (Q * Q) :=
  match dEdxCode with
  | 1 => Some (-10.0, 10.0)%Q
  | 2 => Some (-6.0, 7.0)%Q
  | 3 => Some (-5.0, 5.0)%Q
  | 4 => Some (-4.0, 5.0)%Q
  | 5 => Some (-3.0, 5.0)%Q
  | 6 => Some (-4.0, 4.0)%Q
  | 7 => Some (-2.5, 4.0)%Q
  | 8 => Some (-2.0, 3.5)%Q
  | _ => None
  end.

Definition TPC_preset (dEdxCode : Z) : option (Q * Q) :=
  match dEdxCode with
  | 1 => Some (-10.0, 10.0)%Q
  | 2 => Some (-6.0, 7.0)%Q
  | 3 => Some (-5.0, 5.0)%Q
  | 4 => Some (-4.0, 5.0)%Q
  | 5 => Some (-4.0, 4.0)%Q
  | 6 => Some (-3.0, 4.0)%Q
  | 7 => Some (-3.0, 3.0)%Q
  | 8 => Some (-3.0, 5.0)%Q
  | 9 => Some (-2.0, 3.0)%Q
  | _ => None
  end.

Definition TOF_preset (tofcode : Z) : option (Q * Q) :=
  match tofcode with
  | 1 => Some (-7.0, 7.0)%Q
  | 2 => Some (-5.0, 5.0)%Q
  | 3 => Some (-3.0, 5.0)%Q
  | 4 => Some (-2.0, 3.0)%Q
  | 5 => Some (-3.0, 3.0)%Q
  | _ => None
  end.

(** What a band setter leaves behind for the species it was called for with
    an active preset: the species is enabled, its bounds are [lo] and [hi],
    and the detector's bit [cut] of the enabled cuts is set. *)
Definition bandStored (cut : N) (mask : AliCSPIDCuts -> TBits.t)
    (below above : AliCSPIDCuts -> list Q)
    (id : EParticleType) (lo hi : Q) (c' : AliCSPIDCuts) : Prop :=
  TBits.TestBitNumber (mask c') (bit id) = true
  /\ (at_species (below c') id == lo)%Q
  /\ (at_species (above c') id == hi)%Q
  /\ TBits.TestBitNumber (fCutsEnabledMask c') cut = true.

(** What a band setter keeps of the other species of its detector: the
    enable bit and the bounds of every other species that has a slot in the
    arrays. *)
Definition otherSpeciesKept (mask : AliCSPIDCuts -> TBits.t)
    (below above : AliCSPIDCuts -> list Q)
    (id : EParticleType) (c c' : AliCSPIDCuts) : Prop :=
  forall id',
    hasSlot id' ->
    id' <> id ->
    TBits.TestBitNumber (mask c') (bit id') = TBits.TestBitNumber (mask c) (bit id')
    /\ at_species (below c') id' = at_species (below c) id'
    /\ at_species (above c') id' = at_species (above c) id'.

(** Two masks of enabled cuts that agree on every bit but [cut]. *)
Definition sameButBit (cut : N) (e e' : TBits.t) : Prop :=
  forall k, k <> cut -> TBits.TestBitNumber e' k = TBits.TestBitNumber e k.

(** ** The facade as a table of updates *)

(** The change an accepted parameter value makes to the cut: a momentum
    bound, a band of one species of one detector ([None] for the passive
    preset 0), or the combined TPC+TOF mode. *)
Inductive Update : Type :=
| UpdPMin (q : Q)
| UpdPMax (q : Q)
| UpdITS (id : EParticleType) (band : option (Q * Q))
| UpdTPC (id : EParticleType) (band : option (Q * Q))
| UpdTOF (id : EParticleType) (band : option (Q * Q))
| UpdTPCTOF (required twoD : bool).

Definition applyUpdate (u : Update) (c : AliCSPIDCuts) : AliCSPIDCuts :=
  match u with
  | UpdPMin q => with_fMinP q c
  | UpdPMax q => with_fMaxP q c
  | UpdITS id None => ITS_enabled_update (ITS_passive id c)
  | UpdITS id (Some (below, above)) =>
      ITS_enabled_update (ITS_band id below above c)
  | UpdTPC id None => TPC_enabled_update (TPC_passive id c)
  | UpdTPC id (Some (below, above)) =>
      TPC_enabled_update (TPC_band id below above c)
  | UpdTOF id None => TOF_enabled_update (TOF_passive id c)
  | UpdTOF id (Some (below, above)) =>
      TOF_enabled_update (TOF_band id below above c)
  | UpdTPCTOF required false =>
      TPCTOF2D_enabled_update (with_fTOFRequired required (TPCTOF2D_reset c))
  | UpdTPCTOF required true =>
      TPCTOF2D_enabled_update
        (with_fTOFRequired required (TPCTOF2D_intersect (TPCTOF2D_reset c)))
  end.

(** The update of a band parameter: passive for the code 0, the row of the
    detector's table for an active code. *)
Definition bandUpdate (mk : EParticleType -> option (Q * Q) -> Update)
    (preset : Z -> option (Q * Q)) (id : EParticleType) (value : Z)
  : option Update :=
  match value with
  | 0 => Some (mk id None)
  | _ => option_map (fun band => mk id (Some band)) (preset value)
  end.

(** The update a parameter value stands for, [None] for a value that is not
    supported. *)
Definition updateOf (param : cutsParametersIds) (value : Z) : option Update :=
  match param with
  | kPMinCutParam => option_map UpdPMin (PMin_preset value)
  | kPMaxCutParam => option_map UpdPMax (PMax_preset value)
  | kITSdEdxSigmaCutParam_e => bandUpdate UpdITS ITS_preset kElectron value
  | kITSdEdxSigmaCutParam_mu => bandUpdate UpdITS ITS_preset kMuon value
  | kITSdEdxSigmaCutParam_pi => bandUpdate UpdITS ITS_preset kPion value
  | kITSdEdxSigmaCutParam_k => bandUpdate UpdITS ITS_preset kKaon value
  | kITSdEdxSigmaCutParam_p => bandUpdate UpdITS ITS_preset kProton value
  | kTPCdEdxSigmaCutParam_e => bandUpdate UpdTPC TPC_preset kElectron value
  | kTPCdEdxSigmaCutParam_mu => bandUpdate UpdTPC TPC_preset kMuon value
  | kTPCdEdxSigmaCutParam_pi => bandUpdate UpdTPC TPC_preset kPion value
  | kTPCdEdxSigmaCutParam_k => bandUpdate UpdTPC TPC_preset kKaon value
  | kTPCdEdxSigmaCutParam_p => bandUpdate UpdTPC TPC_preset kProton value
  | kTOFSigmaCutParam_e => bandUpdate UpdTOF TOF_preset kElectron value
  | kTOFSigmaCutParam_mu => bandUpdate UpdTOF TOF_preset kMuon value
  | kTOFSigmaCutParam_pi => bandUpdate UpdTOF TOF_preset kPion value
  | kTOFSigmaCutParam_k => bandUpdate UpdTOF TOF_preset kKaon value
  | kTOFSigmaCutParam_p => bandUpdate UpdTOF TOF_preset kProton value
  | kTPCTOFCutParam =>
      match value with
      | 0 => Some (UpdTPCTOF false false)
      | 1 => Some (UpdTPCTOF true false)
      | 2 => Some (UpdTPCTOF false true)
      | 3 => Some (UpdTPCTOF true true)
      | _ => None
      end
  end.

(** A band of the tables: a proper interval around the line, within ten
    sigma. *)
Definition saneBand (band : option (Q * Q)) : Prop :=
  match band with
  | None => True
  | Some (below, above) =>
      (-10 <= below /\ below < 0 /\ 0 < above /\ above <= 10)%Q
  end.

(** [AliPID::kSPECIES]: the five species the facade configures, electron to
    proton. *)
Definition kSPECIES : nat := 5.

(** What the updates of the facade have in common: momentum bounds of the
    tables, a species of the five, a band of the tables. *)
Definition facadeUpdate (u : Update) : Prop :=
  match u with
  | UpdPMin q => (0 <= q /\ q <= 1)%Q
  | UpdPMax q => (0.3 <= q /\ q <= 1e6)%Q
  | UpdITS id band | UpdTPC id band | UpdTOF id band =>
      (index id < kSPECIES)%nat /\ saneBand band
  | UpdTPCTOF _ _ => True
  end.

(** A sequence of calls of [SetCutAndParams], each with a parameter
    identifier and a value, as a configuration macro issues them; the
    results of the calls are dropped. *)
Definition configure (FormCutsString : list Z -> string)
    (script : list (Z * Z)) (c : AliCSPIDCuts) : AliCSPIDCuts :=
  fold_left
    (fun c0 call => snd (SetCutAndParams FormCutsString (fst call) (snd call) c0))
    script c.

(** ** Invariants of a configured cut *)

(** Each bit of the enabled cuts says whether the species mask of its
    category counts an enabled species. *)
Definition enabledConsistent (c : AliCSPIDCuts) : Prop :=
  TBits.TestBitNumber (fCutsEnabledMask c) kITSdEdxSigmaCut
  = (0 <? TBits.CountBits (fITSEnabledSpeciesMask c))%nat
  /\ TBits.TestBitNumber (fCutsEnabledMask c) kTPCdEdxSigmaCut
     = (0 <? TBits.CountBits (fTPCEnabledSpeciesMask c))%nat
  /\ TBits.TestBitNumber (fCutsEnabledMask c) kTOFSigmaCut
     = (0 <? TBits.CountBits (fTOFEnabledSpeciesMask c))%nat
  /\ TBits.TestBitNumber (fCutsEnabledMask c) kTPCTOF2DSigmaCut
     = (0 <? TBits.CountBits (fTPCTOF2DEnabledSpeciesMask c))%nat.

(** The bounds of one species in one detector: the lower bound is not above
    the upper bound, and when the species is enabled the band is a proper
    interval around the line within ten sigma. *)
Definition saneBandAt (mask : TBits.t) (below above : list Q)
    (id : EParticleType) : Prop :=
  (at_species below id <= at_species above id)%Q
  /\ (TBits.TestBitNumber mask (bit id) = true ->
      (-10 <= at_species below id /\ at_species below id < 0
       /\ 0 < at_species above id /\ at_species above id <= 10)%Q).

Definition bandsSane (c : AliCSPIDCuts) : Prop :=
  forall id,
    hasSlot id ->
    saneBandAt (fITSEnabledSpeciesMask c) (fITSnSigmaBelow c)
      (fITSnSigmaAbove c) id
    /\ saneBandAt (fTPCEnabledSpeciesMask c) (fTPCnSigmaBelow c)
         (fTPCnSigmaAbove c) id
    /\ saneBandAt (fTOFEnabledSpeciesMask c) (fTOFnSigmaBelow c)
         (fTOFnSigmaAbove c) id.

(** A species mask that holds bits of the five species of the facade
    only. *)
Definition onlyFacadeSpecies (mask : TBits.t) : Prop :=
  forall n, (N.of_nat kSPECIES <= n)%N -> TBits.TestBitNumber mask n = false.

Definition masksOfFacade (c : AliCSPIDCuts) : Prop :=
  onlyFacadeSpecies (fITSEnabledSpeciesMask c)
  /\ onlyFacadeSpecies (fTPCEnabledSpeciesMask c)
  /\ onlyFacadeSpecies (fTOFEnabledSpeciesMask c)
  /\ onlyFacadeSpecies (fTPCTOF2DEnabledSpeciesMask c).

(** The parameter store has one entry per parameter identifier and every
    entry is a preset code its parameter supports. *)
Definition parametersSupported (c : AliCSPIDCuts) : Prop :=
  length (fParameters c) = kNCutsParameters
  /\ forall param,
      exists value,
        fParameters c !! param_index param = Some value
        /\ supported param value.

(** ** The true species of a reconstructed track *)

(** [GetTrueSpecies], the overload on a reconstructed track: the particle
    is looked up under the absolute value of the label.  The code
    dereferences the particle without a check; a null particle is [None]
    here. *)
Definition GetTrueSpecies_track (mc : MCTruth) (trk : AliVTrack)
  : option EParticleType :=
  if fgIsESD mc then
    match MCEvent_GetTrack mc (Z.abs (GetLabel trk)) with
    | Some particle => Some (GetTrueSpecies particle)
    | None => None
    end
  else
    match fgMCArray_At mc (Z.abs (GetLabel trk)) with
    | Some particle => Some (GetTrueSpecies particle)
    | None => None
    end.

(** The species the truth classifier can answer. *)
Definition classified : list EParticleType :=
  [kElectron; kMuon; kPion; kKaon; kProton; kUnknown].

(** A deuteron cut with a TPC band for the proton line. *)
Definition deuteronCut : AliCSPIDCuts :=
  snd (SetTPCdEdxSigmaCut kProton 3 (new_AliCSPIDCuts kDeuteron)).

(** ** Printing the cuts *)

(** An argument of a [printf] call: a string, a floating value, or the
    string a nested [Form] call of one floating value gives. *)
Inductive printf_arg : Type :=
| ArgStr (s : string)
| ArgFloat (x : Q)
| ArgForm (format : string) (x : Q).

(** A [printf] call: its format and its arguments.  What a print function
    writes is the list of its [printf] calls, in order. *)
Definition printf_call : Type := (string * list printf_arg)%type.

(** The line feed that ends the formats. *)
Definition LF : string := String (Ascii.ascii_of_nat 10) EmptyString.

Section Printing.

Local Open Scope string_scope.

(** [AliPID::ParticleName] *)
Variable ParticleName : EParticleType -> string.

(** [PrintITSdEdxSigmaCut] *)
Definition PrintITSdEdxSigmaCut (id : EParticleType) (c : AliCSPIDCuts)
  : list printf_call :=
  if TBits.TestBitNumber (fCutsEnabledMask c) kITSdEdxSigmaCut then
    ("  ITS PID CUT %s: ", [ArgStr (ParticleName (fTargetSpecies c))])
    :: (if TBits.TestBitNumber (fITSEnabledSpeciesMask c) (bit id) then
          if negb (AliPID.eqb (fTargetSpecies c) id) then
            [("nsigma %s < %3.1f OR %3.1f < nsigma %s" ++ LF,
              [ArgStr (ParticleName id);
               ArgFloat (at_species (fITSnSigmaBelow c) id);
               ArgFloat (at_species (fITSnSigmaAbove c) id);
               ArgStr (ParticleName id)])]
          else
            [("%3.1f < nsigma < %3.1f" ++ LF,
              [ArgFloat (at_species (fITSnSigmaBelow c) id);
               ArgFloat (at_species (fITSnSigmaAbove c) id)])]
        else
          [("none to %s line" ++ LF, [ArgStr (ParticleName id)])])
  else
    [("  ITS PID CUT %s: none" ++ LF,
      [ArgStr (ParticleName (fTargetSpecies c))])].

(** [PrintTPCdEdxSigmaCut] *)
Definition PrintTPCdEdxSigmaCut (id : EParticleType) (c : AliCSPIDCuts)
  : list printf_call :=
  if TBits.TestBitNumber (fCutsEnabledMask c) kTPCdEdxSigmaCut
     || TBits.TestBitNumber (fCutsEnabledMask c) kTPCTOF2DSigmaCut then
    ("  TPC%sPID CUT %s: ",
     [ArgStr (if fTPCTOF2Dcut c then " [2D] " else " ");
      ArgStr (ParticleName (fTargetSpecies c))])
    :: (if TBits.TestBitNumber (fTPCEnabledSpeciesMask c) (bit id) then
          if negb (AliPID.eqb (fTargetSpecies c) id) then
            if fTPCTOF2Dcut c then
              [("%3.1f < 2D nsigma %s" ++ LF,
                [ArgFloat (at_species (fTPCnSigmaAbove c) id);
                 ArgStr (ParticleName id)])]
            else
              [("nsigma %s < %3.1f OR %3.1f < nsigma %s" ++ LF,
                [ArgStr (ParticleName id);
                 ArgFloat (at_species (fTPCnSigmaBelow c) id);
                 ArgFloat (at_species (fTPCnSigmaAbove c) id);
                 ArgStr (ParticleName id)])]
          else
            if fTPCTOF2Dcut c then
              [("2D nsigma < %3.1f" ++ LF,
                [ArgFloat (at_species (fTPCnSigmaAbove c) id)])]
            else
              [("%3.1f < nsigma < %3.1f" ++ LF,
                [ArgFloat (at_species (fTPCnSigmaBelow c) id);
                 ArgFloat (at_species (fTPCnSigmaAbove c) id)])]
        else
          [("none to %s line" ++ LF, [ArgStr (ParticleName id)])])
  else
    [("  TPC PID CUT %s: none" ++ LF,
      [ArgStr (ParticleName (fTargetSpecies c))])].

(** [PrintTOFSigmaCut] *)
Definition PrintTOFSigmaCut (id : EParticleType) (c : AliCSPIDCuts)
  : list printf_call :=
  if TBits.TestBitNumber (fCutsEnabledMask c) kTOFSigmaCut
     || TBits.TestBitNumber (fCutsEnabledMask c) kTPCTOF2DSigmaCut then
    ("  TOF (%s)%sPID CUT %s: ",
     [ArgStr (if fTOFRequired c then "REQUIRED" else "NOT required");
      ArgStr (if fTPCTOF2Dcut c then " [2D] " else " ");
      ArgStr (ParticleName (fTargetSpecies c))])
    :: (if TBits.TestBitNumber (fTOFEnabledSpeciesMask c) (bit id) then
          if negb (AliPID.eqb (fTargetSpecies c) id) then
            if fTPCTOF2Dcut c then
              [("%3.1f < 2D nsigma %s" ++ LF,
                [ArgFloat (at_species (fTOFnSigmaAbove c) id);
                 ArgStr (ParticleName id)])]
            else
              [("nsigma %s < %3.1f OR %3.1f < nsigma %s" ++ LF,
                [ArgStr (ParticleName id);
                 ArgFloat (at_species (fTOFnSigmaBelow c) id);
                 ArgFloat (at_species (fTOFnSigmaAbove c) id);
                 ArgStr (ParticleName id)])]
          else
            if fTPCTOF2Dcut c then
              [("2D nsigma < %3.1f" ++ LF,
                [ArgFloat (at_species (fTOFnSigmaAbove c) id)])]
            else
              [("%3.1f < nsigma < %3.1f" ++ LF,
                [ArgFloat (at_species (fTOFnSigmaBelow c) id);
                 ArgFloat (at_species (fTOFnSigmaAbove c) id)])]
        else
          [("none to %s line" ++ LF, [ArgStr (ParticleName id)])])
  else
    [("  TOF PID CUT %s: none" ++ LF,
      [ArgStr (ParticleName (fTargetSpecies c))])].

(** [PrintCutWithParams]; for an identifier that names no parameter the
    code logs an error and prints nothing. *)
Definition PrintCutWithParams (paramID : Z) (c : AliCSPIDCuts)
  : list printf_call :=
  match cutsParametersIds_of paramID with
  | Some kPMinCutParam =>
      [("  Cut applicable from P min: %3.1f GeV/c" ++ LF,
        [ArgFloat (fMinP c)])]
  | Some kPMaxCutParam =>
      [("  Cut applicable up to P max: %s",
        [if Qltb (fMaxP c) 9990
         then ArgForm ("%3.1f GeV/c" ++ LF) (fMaxP c)
         else ArgStr LF])]
  | Some kITSdEdxSigmaCutParam_e => PrintITSdEdxSigmaCut kElectron c
  | Some kITSdEdxSigmaCutParam_mu => PrintITSdEdxSigmaCut kMuon c
  | Some kITSdEdxSigmaCutParam_pi => PrintITSdEdxSigmaCut kPion c
  | Some kITSdEdxSigmaCutParam_k => PrintITSdEdxSigmaCut kKaon c
  | Some kITSdEdxSigmaCutParam_p => PrintITSdEdxSigmaCut kProton c
  | Some kTPCdEdxSigmaCutParam_e => PrintTPCdEdxSigmaCut kElectron c
  | Some kTPCdEdxSigmaCutParam_mu => PrintTPCdEdxSigmaCut kMuon c
  | Some kTPCdEdxSigmaCutParam_pi => PrintTPCdEdxSigmaCut kPion c
  | Some kTPCdEdxSigmaCutParam_k => PrintTPCdEdxSigmaCut kKaon c
  | Some kTPCdEdxSigmaCutParam_p => PrintTPCdEdxSigmaCut kProton c
  | Some kTOFSigmaCutParam_e => PrintTOFSigmaCut kElectron c
  | Some kTOFSigmaCutParam_mu => PrintTOFSigmaCut kMuon c
  | Some kTOFSigmaCutParam_pi => PrintTOFSigmaCut kPion c
  | Some kTOFSigmaCutParam_k => PrintTOFSigmaCut kKaon c
  | Some kTOFSigmaCutParam_p => PrintTOFSigmaCut kProton c
  | Some kTPCTOFCutParam => []
  | None => []
  end.

End Printing.

(** The texts that mark the 2D form of a printed TPC or TOF cut: the header
    tag and the two 2D formats. *)
Definition mentions2D (call : printf_call) : Prop :=
  fst call = ("%3.1f < 2D nsigma %s" ++ LF)%string
  \/ fst call = ("2D nsigma < %3.1f" ++ LF)%string
  \/ In (ArgStr " [2D] "%string) (snd call).

(** A sample table of particle names for the examples. *)
Definition sampleName (id : EParticleType) : string :=
  match id with
  | kElectron => "electron"
  | kMuon => "muon"
  | kPion => "pion"
  | kKaon => "kaon"
  | kProton => "proton"
  | _ => "other"
  end%string.

(** ** Calls that do not depend on each other *)

(** The parameter of a species' band in each detector. *)
Definition ITSparam (id : EParticleType) : option cutsParametersIds :=
  match id with
  | kElectron => Some kITSdEdxSigmaCutParam_e
  | kMuon => Some kITSdEdxSigmaCutParam_mu
  | kPion => Some kITSdEdxSigmaCutParam_pi
  | kKaon => Some kITSdEdxSigmaCutParam_k
  | kProton => Some kITSdEdxSigmaCutParam_p
  | _ => None
  end.

Definition TPCparam (id : EParticleType) : option cutsParametersIds :=
  match id with
  | kElectron => Some kTPCdEdxSigmaCutParam_e
  | kMuon => Some kTPCdEdxSigmaCutParam_mu
  | kPion => Some kTPCdEdxSigmaCutParam_pi
  | kKaon => Some kTPCdEdxSigmaCutParam_k
  | kProton => Some kTPCdEdxSigmaCutParam_p
  | _ => None
  end.

Definition TOFparam (id : EParticleType) : option cutsParametersIds :=
  match id with
  | kElectron => Some kTOFSigmaCutParam_e
  | kMuon => Some kTOFSigmaCutParam_mu
  | kPion => Some kTOFSigmaCutParam_pi
  | kKaon => Some kTOFSigmaCutParam_k
  | kProton => Some kTOFSigmaCutParam_p
  | _ => None
  end.

(** The update belongs to the parameter. *)
Definition updateFor (param : cutsParametersIds) (u : Update) : Prop :=
  match u with
  | UpdPMin _ => param = kPMinCutParam
  | UpdPMax _ => param = kPMaxCutParam
  | UpdITS id _ => ITSparam id = Some param
  | UpdTPC id _ => TPCparam id = Some param
  | UpdTOF id _ => TOFparam id = Some param
  | UpdTPCTOF _ _ => param = kTPCTOFCutParam
  end.

(** A TPC or a TOF band parameter: what the combined mode reads. *)
Definition isTPCorTOFband (param : cutsParametersIds) : bool :=
  match param with
  | kTPCdEdxSigmaCutParam_e | kTPCdEdxSigmaCutParam_mu
  | kTPCdEdxSigmaCutParam_pi | kTPCdEdxSigmaCutParam_k
  | kTPCdEdxSigmaCutParam_p
  | kTOFSigmaCutParam_e | kTOFSigmaCutParam_mu
  | kTOFSigmaCutParam_pi | kTOFSigmaCutParam_k
  | kTOFSigmaCutParam_p => true
  | _ => false
  end.

(** Two parameters whose calls do not depend on each other: different
    parameters, and not the combined TPC+TOF mode together with a TPC or a
    TOF band. *)
Definition independentParams (a b : cutsParametersIds) : Prop :=
  a <> b
  /\ ~ (a = kTPCTOFCutParam /\ isTPCorTOFband b = true)
  /\ ~ (b = kTPCTOFCutParam /\ isTPCorTOFband a = true).

(** The same for two updates. *)
Definition independentUpdates (u1 u2 : Update) : Prop :=
  match u1, u2 with
  | UpdPMin _, UpdPMin _ | UpdPMax _, UpdPMax _ => False
  | UpdITS id1 _, UpdITS id2 _
  | UpdTPC id1 _, UpdTPC id2 _
  | UpdTOF id1 _, UpdTOF id2 _ => id1 <> id2
  | UpdTPCTOF _ _, UpdTPCTOF _ _ => False
  | UpdTPCTOF _ _, UpdTPC _ _ | UpdTPC _ _, UpdTPCTOF _ _
  | UpdTPCTOF _ _, UpdTOF _ _ | UpdTOF _ _, UpdTPCTOF _ _ => False
  | _, _ => True
  end.

(** * Properties *)

(** ** Auxiliary facts *)

Lemma Qltb_lt (x y : Q) : Qltb x y = true <-> (x < y)%Q.
Proof.
  unfold Qltb. rewrite negb_true_iff.
  split; intro H.
  - apply Qnot_le_lt. intro Hle. apply Qle_bool_iff in Hle. congruence.
  - destruct (Qle_bool y x) eqn:E; [|reflexivity].
    apply Qle_bool_iff in E. exfalso. exact (Qlt_not_le _ _ H E).
Qed.

Lemma Qltb_ge (x y : Q) : Qltb x y = false <-> (y <= x)%Q.
Proof.
  unfold Qltb. rewrite negb_false_iff. apply Qle_bool_iff.
Qed.

Lemma count_positive_pos (p : positive) : (0 < TBits.count_positive p)%nat.
Proof.
  induction p; simpl; lia.
Qed.

Lemma CountBits_pos (b : TBits.t) : (0 < TBits.CountBits b)%nat <-> b <> 0%N.
Proof.
  destruct b as [|p]; simpl.
  - split; [lia | congruence].
  - split; [discriminate | intros _; apply count_positive_pos].
Qed.

Lemma CountBits_ltb (b : TBits.t) :
  (0 <? TBits.CountBits b)%nat = negb (N.eqb b 0).
Proof.
  destruct (N.eqb_spec b 0) as [->|Hne]; simpl.
  - reflexivity.
  - apply Nat.ltb_lt, CountBits_pos, Hne.
Qed.

Lemma index_inj (a b : EParticleType) : index a = index b -> a = b.
Proof.
  destruct a, b; simpl; intro H; first [reflexivity | discriminate H].
Qed.

Lemma AliPID_eqb_eq (a b : EParticleType) : AliPID.eqb a b = true <-> a = b.
Proof.
  unfold AliPID.eqb. rewrite Nat.eqb_eq.
  split; [apply index_inj | intros ->; reflexivity].
Qed.

Lemma bit_inj (a b : EParticleType) : bit a = bit b -> a = b.
Proof.
  unfold bit. intro H. apply index_inj. lia.
Qed.

Lemma all_complete (id : EParticleType) : In id AliPID.all.
Proof.
  destruct id; simpl; tauto.
Qed.

(** ** The truth classifier *)

(** C8: [GetTrueSpecies] is a total function of the PDG code alone.  The
    electron and the positron are classified as electron, the proton and the
    antiproton as proton, both muons as muon, both charged pions as pion,
    both charged kaons as kaon, and every other PDG code as unknown; two
    particles with the same code get the same species. *)
Theorem GetTrueSpecies_table :
  (forall p, GetTrueSpecies (AliVParticle.mk p 11) = kElectron) /\
  (forall p, GetTrueSpecies (AliVParticle.mk p (-11)) = kElectron) /\
  (forall p, GetTrueSpecies (AliVParticle.mk p 2212) = kProton) /\
  (forall p, GetTrueSpecies (AliVParticle.mk p (-2212)) = kProton) /\
  (forall p, GetTrueSpecies (AliVParticle.mk p 13) = kMuon) /\
  (forall p, GetTrueSpecies (AliVParticle.mk p (-13)) = kMuon) /\
  (forall p, GetTrueSpecies (AliVParticle.mk p 211) = kPion) /\
  (forall p, GetTrueSpecies (AliVParticle.mk p (-211)) = kPion) /\
  (forall p, GetTrueSpecies (AliVParticle.mk p 321) = kKaon) /\
  (forall p, GetTrueSpecies (AliVParticle.mk p (-321)) = kKaon) /\
  (forall par,
      ~ In (AliVParticle.PdgCode par)
          [11; -11; 2212; -2212; 13; -13; 211; -211; 321; -321] ->
      GetTrueSpecies par = kUnknown) /\
  (forall par1 par2,
      AliVParticle.PdgCode par1 = AliVParticle.PdgCode par2 ->
      GetTrueSpecies par1 = GetTrueSpecies par2).
Proof.
  repeat split; try (intro p; reflexivity).
  - intros par Hout. unfold GetTrueSpecies.
    cbv [PDG.kPositron PDG.kElectron PDG.kProton PDG.kProtonBar PDG.kMuonPlus
         PDG.kMuonMinus PDG.kPiPlus PDG.kPiMinus PDG.kKPlus PDG.kKMinus].
    simpl in Hout.
    repeat match goal with
           | |- context [Z.eqb ?a ?b] =>
               destruct (Z.eqb_spec a b) as [Heq|Hne];
               [exfalso; apply Hout; rewrite Heq; tauto | clear Hne]
           end.
    reflexivity.
  - intros par1 par2 Hpdg. unfold GetTrueSpecies. rewrite Hpdg. reflexivity.
Qed.

Lemma GetTrueSpecies_table_witness :
  GetTrueSpecies (AliVParticle.mk 1.5 22) = kUnknown /\
  GetTrueSpecies (AliVParticle.mk 0.4 211) = GetTrueSpecies (AliVParticle.mk 2.0 211).
Proof.
  split.
  - apply (proj1 (proj2 (proj2 (proj2 (proj2 (proj2 (proj2 (proj2 (proj2
             (proj2 (proj2 GetTrueSpecies_table))))))))))).
    simpl. lia.
  - apply (proj2 (proj2 (proj2 (proj2 (proj2 (proj2 (proj2 (proj2 (proj2
             (proj2 (proj2 GetTrueSpecies_table))))))))))).
    reflexivity.
Defined.

(** ** The truth acceptance *)

Lemma momentumGate_range (c : AliCSPIDCuts) (p : Q) :
  momentumGate c p = true <-> (fMinP c <= p /\ p <= fMaxP c)%Q.
Proof.
  unfold momentumGate.
  rewrite negb_true_iff, orb_false_iff, !Qltb_ge. tauto.
Qed.

Lemma IsTrueTrackAccepted_index_eq (mc : MCTruth) (c : AliCSPIDCuts) (itrk : Z) :
  IsTrueTrackAccepted_index mc c itrk =
  match truthParticle mc itrk with
  | None => false
  | Some particle =>
      momentumGate c (AliVParticle.P particle)
      && (negb (anyCutEnabled c)
          || AliPID.eqb (GetTrueSpecies particle) (fTargetSpecies c))
  end.
Proof.
  unfold IsTrueTrackAccepted_index, truthParticle, momentumGate, anyCutEnabled.
  destruct (fgIsESD mc).
  - destruct (MCEvent_GetTrack mc itrk) as [particle|]; [|reflexivity].
    destruct (Qltb _ _ || Qltb _ _); simpl; [reflexivity|].
    destruct (_ || _ || _ || _); simpl; [|reflexivity].
    destruct (AliPID.eqb _ _); reflexivity.
  - destruct (fgMCArray_At mc itrk) as [particle|]; [|reflexivity].
    destruct (Qltb _ _ || Qltb _ _); simpl; [reflexivity|].
    destruct (_ || _ || _ || _); simpl; [|reflexivity].
    destruct (AliPID.eqb _ _); reflexivity.
Qed.

(** C5: the momentum gate has inclusive boundaries.  A momentum is accepted
    exactly when [fMinP <= p <= fMaxP]; below the minimum or above the
    maximum it is rejected, and so is the true track that carries it; the
    two ends of a non-empty window are accepted.  The same holds of
    [IsTrueTrackAccepted], by index, in its ESD and in its AOD branch: for a
    particle that passes the species test (no cut category is enabled, or
    its true species is the target) the function returns true exactly when
    [fMinP <= p <= fMaxP], and so it returns true for a particle whose
    momentum is [fMinP] or [fMaxP]. *)
Theorem momentumGate_inclusive (c : AliCSPIDCuts) (p : Q) :
  (momentumGate c p = true <-> (fMinP c <= p /\ p <= fMaxP c)%Q) /\
  (momentumGate c p = negb (Qltb p (fMinP c) || Qltb (fMaxP c) p)) /\
  ((p < fMinP c \/ fMaxP c < p)%Q -> momentumGate c p = false) /\
  ((fMinP c <= fMaxP c)%Q ->
   momentumGate c (fMinP c) = true /\ momentumGate c (fMaxP c) = true) /\
  (forall mc itrk particle,
      truthParticle mc itrk = Some particle ->
      AliVParticle.P particle = p ->
      (p < fMinP c \/ fMaxP c < p)%Q ->
      IsTrueTrackAccepted_index mc c itrk = false) /\
  (forall mc itrk particle,
      truthParticle mc itrk = Some particle ->
      (AliVParticle.P particle == p)%Q ->
      (anyCutEnabled c = true -> GetTrueSpecies particle = fTargetSpecies c) ->
      (IsTrueTrackAccepted_index mc c itrk = true <->
       (fMinP c <= p /\ p <= fMaxP c)%Q)) /\
  (forall mc itrk particle,
      truthParticle mc itrk = Some particle ->
      (anyCutEnabled c = true -> GetTrueSpecies particle = fTargetSpecies c) ->
      (fMinP c <= fMaxP c)%Q ->
      (AliVParticle.P particle == fMinP c
       \/ AliVParticle.P particle == fMaxP c)%Q ->
      IsTrueTrackAccepted_index mc c itrk = true).
Proof.
  assert (Hout : (p < fMinP c \/ fMaxP c < p)%Q -> momentumGate c p = false).
  { intros H. apply not_true_is_false. rewrite momentumGate_range.
    intros [Hlo Hhi]. destruct H as [H|H].
    - exact (Qlt_not_le _ _ H Hlo).
    - exact (Qlt_not_le _ _ H Hhi). }
  assert (Hin : forall mc itrk particle,
             truthParticle mc itrk = Some particle ->
             (anyCutEnabled c = true ->
              GetTrueSpecies particle = fTargetSpecies c) ->
             (IsTrueTrackAccepted_index mc c itrk = true <->
              (fMinP c <= AliVParticle.P particle
               /\ AliVParticle.P particle <= fMaxP c)%Q)).
  { intros mc itrk particle Hpart Hspecies.
    rewrite IsTrueTrackAccepted_index_eq, Hpart, andb_true_iff,
      momentumGate_range.
    split; [tauto|]. intros Hwin. split; [exact Hwin|].
    destruct (anyCutEnabled c); [|reflexivity].
    rewrite (Hspecies eq_refl). simpl. apply AliPID_eqb_eq. reflexivity. }
  split; [apply momentumGate_range|].
  split; [reflexivity|].
  split; [exact Hout|].
  split; [|split; [|split]].
  - intros Hne. rewrite !momentumGate_range.
    repeat split; first [apply Qle_refl | exact Hne].
  - intros mc itrk particle Hpart HP H.
    rewrite IsTrueTrackAccepted_index_eq, Hpart, HP, (Hout H). reflexivity.
  - intros mc itrk particle Hpart HP Hspecies.
    rewrite (Hin mc itrk particle Hpart Hspecies), HP. tauto.
  - intros mc itrk particle Hpart Hspecies Hne HP.
    apply (Hin mc itrk particle Hpart Hspecies).
    destruct HP as [HP|HP]; rewrite HP;
      split; first [apply Qle_refl | exact Hne].
Qed.

Lemma momentumGate_inclusive_witness :
  momentumGate (new_AliCSPIDCuts kPion) 0.0 = true /\
  momentumGate (new_AliCSPIDCuts kPion) 9999.0 = true /\
  momentumGate (new_AliCSPIDCuts kPion) 10000.0 = false /\
  IsTrueTrackAccepted_index windowEndsESD (new_AliCSPIDCuts kPion) 0 = true /\
  IsTrueTrackAccepted_index windowEndsESD (new_AliCSPIDCuts kPion) 1 = true /\
  IsTrueTrackAccepted_index windowEndsESD (new_AliCSPIDCuts kPion) 2 = false /\
  IsTrueTrackAccepted_index windowEndsAOD pionCut 0 = true /\
  IsTrueTrackAccepted_index windowEndsAOD pionCut 1 = true /\
  IsTrueTrackAccepted_index windowEndsAOD pionCut 2 = false.
Proof.
  pose proof (momentumGate_inclusive (new_AliCSPIDCuts kPion) 10000.0)
    as (_ & _ & Hout & Hends & Hrej & _ & Hacc).
  pose proof (momentumGate_inclusive pionCut 10000.0)
    as (_ & _ & _ & _ & Hrej' & _ & Hacc').
  split; [|split; [|split; [|split; [|split; [|split; [|split; [|split]]]]]]].
  - apply Hends. vm_compute. discriminate.
  - apply Hends. vm_compute. discriminate.
  - apply Hout. right. vm_compute. reflexivity.
  - apply (Hacc windowEndsESD 0 (AliVParticle.mk 0.0 211));
      [ reflexivity | vm_compute; discriminate | vm_compute; discriminate
      | left; reflexivity ].
  - apply (Hacc windowEndsESD 1 (AliVParticle.mk 9999.0 211));
      [ reflexivity | vm_compute; discriminate | vm_compute; discriminate
      | right; reflexivity ].
  - apply (Hrej windowEndsESD 2 (AliVParticle.mk 10000.0 211));
      [ reflexivity | reflexivity | right; vm_compute; reflexivity ].
  - apply (Hacc' windowEndsAOD 0 (AliVParticle.mk 0.0 211));
      [ reflexivity | intros _; reflexivity | vm_compute; discriminate
      | left; reflexivity ].
  - apply (Hacc' windowEndsAOD 1 (AliVParticle.mk 9999.0 211));
      [ reflexivity | intros _; reflexivity | vm_compute; discriminate
      | right; reflexivity ].
  - apply (Hrej' windowEndsAOD 2 (AliVParticle.mk 10000.0 211));
      [ reflexivity | reflexivity | right; vm_compute; reflexivity ].
Defined.

(** C7: a track without a valid truth link (negative label) is never
    accepted.  With a valid label the true track is accepted exactly when
    the momentum of the associated particle is inside the window and, in
    case any of the four cut categories is enabled, the true species of the
    particle is the target species; a label that leads to no particle is
    rejected. *)
Theorem IsTrueTrackAccepted_spec (mc : MCTruth) (c : AliCSPIDCuts)
    (trk : AliVTrack) :
  (GetLabel trk < 0 -> IsTrueTrackAccepted mc c trk = false) /\
  (0 <= GetLabel trk ->
   forall particle,
     truthParticle mc (GetLabel trk) = Some particle ->
     (IsTrueTrackAccepted mc c trk = true <->
      (fMinP c <= AliVParticle.P particle
       /\ AliVParticle.P particle <= fMaxP c)%Q
      /\ (TBits.TestBitNumber (fCutsEnabledMask c) kITSdEdxSigmaCut = true
          \/ TBits.TestBitNumber (fCutsEnabledMask c) kTPCdEdxSigmaCut = true
          \/ TBits.TestBitNumber (fCutsEnabledMask c) kTOFSigmaCut = true
          \/ TBits.TestBitNumber (fCutsEnabledMask c) kTPCTOF2DSigmaCut = true ->
          GetTrueSpecies particle = fTargetSpecies c))) /\
  (0 <= GetLabel trk ->
   truthParticle mc (GetLabel trk) = None ->
   IsTrueTrackAccepted mc c trk = false).
Proof.
  unfold IsTrueTrackAccepted.
  split; [|split].
  - intros Hneg. apply Z.ltb_lt in Hneg. rewrite Hneg. reflexivity.
  - intros Hpos particle Hpart.
    apply Z.ltb_ge in Hpos. rewrite Hpos.
    rewrite IsTrueTrackAccepted_index_eq, Hpart.
    rewrite andb_true_iff, momentumGate_range, orb_true_iff, negb_true_iff,
      AliPID_eqb_eq.
    unfold anyCutEnabled.
    destruct (TBits.TestBitNumber (fCutsEnabledMask c) kITSdEdxSigmaCut);
      destruct (TBits.TestBitNumber (fCutsEnabledMask c) kTPCdEdxSigmaCut);
      destruct (TBits.TestBitNumber (fCutsEnabledMask c) kTOFSigmaCut);
      destruct (TBits.TestBitNumber (fCutsEnabledMask c) kTPCTOF2DSigmaCut);
      simpl; intuition congruence.
  - intros Hpos Hnone.
    apply Z.ltb_ge in Hpos. rewrite Hpos.
    rewrite IsTrueTrackAccepted_index_eq, Hnone. reflexivity.
Qed.

Lemma IsTrueTrackAccepted_spec_witness :
  IsTrueTrackAccepted onePionESD pionCut (mkTrack (-1)) = false /\
  IsTrueTrackAccepted onePionESD pionCut (mkTrack 7) = true /\
  IsTrueTrackAccepted onePionESD pionCut (mkTrack 8) = false.
Proof.
  split; [|split].
  - apply (proj1 (IsTrueTrackAccepted_spec onePionESD pionCut (mkTrack (-1)))).
    simpl. lia.
  - apply (proj1 (proj2 (IsTrueTrackAccepted_spec onePionESD pionCut (mkTrack 7)))
             ltac:(simpl; lia) (AliVParticle.mk 1.5 211) eq_refl).
    split.
    + split; vm_compute; discriminate.
    + intros _. reflexivity.
  - apply (proj2 (proj2 (IsTrueTrackAccepted_spec onePionESD pionCut (mkTrack 8)))).
    + simpl. lia.
    + reflexivity.
Defined.

Lemma Qltb_comp (x x' y y' : Q) :
  (x == x')%Q -> (y == y')%Q -> Qltb x y = Qltb x' y'.
Proof.
  intros Hx Hy. unfold Qltb. rewrite Hx, Hy. reflexivity.
Qed.

(** C10: the ESD branch and the AOD branch of the truth acceptance take the
    same decision.  When the particle the MC event gives for a label and the
    particle the AOD array gives for it agree (both null, or the same
    momentum and PDG code), the two branches return the same value, for
    every cut configuration. *)
Theorem IsTrueTrackAccepted_branches_agree (mcESD mcAOD : MCTruth)
    (c : AliCSPIDCuts) (itrk : Z) :
  fgIsESD mcESD = true ->
  fgIsESD mcAOD = false ->
  sameParticle (MCEvent_GetTrack mcESD itrk) (fgMCArray_At mcAOD itrk) ->
  IsTrueTrackAccepted_index mcESD c itrk = IsTrueTrackAccepted_index mcAOD c itrk.
Proof.
  intros HE HA Hsame.
  unfold IsTrueTrackAccepted_index. rewrite HE, HA.
  destruct (MCEvent_GetTrack mcESD itrk) as [x|],
           (fgMCArray_At mcAOD itrk) as [y|];
    simpl in Hsame; try contradiction; [|reflexivity].
  destruct Hsame as [HP Hpdg].
  rewrite (Qltb_comp _ (AliVParticle.P y) _ (fMinP c) HP (Qeq_refl _)).
  rewrite (Qltb_comp _ (fMaxP c) _ (AliVParticle.P y) (Qeq_refl _) HP).
  unfold GetTrueSpecies. rewrite Hpdg. reflexivity.
Qed.

Lemma IsTrueTrackAccepted_branches_agree_witness :
  IsTrueTrackAccepted_index onePionESD pionCut 7
  = IsTrueTrackAccepted_index onePionAOD pionCut 7.
Proof.
  apply IsTrueTrackAccepted_branches_agree.
  - reflexivity.
  - reflexivity.
  - simpl. split; reflexivity.
Defined.

(** ** The default momentum window *)

(** The window is not unbounded above: a freshly constructed cut rejects
    the momentum 10000, and after [SetPMax(0)] the momentum 2000000 is
    rejected. *)
Lemma momentum_window_bounded_above :
  ((0 <= 10000)%Q
   /\ momentumGate (new_AliCSPIDCuts kPion) 10000 = false)
  /\ (fst (SetPMax 0 (new_AliCSPIDCuts kPion)) = true
      /\ momentumGate (snd (SetPMax 0 (new_AliCSPIDCuts kPion))) 2000000 = false).
Proof.
  repeat split. vm_compute. discriminate.
Qed.

(** C6, amended: before any configuration call the momentum window is
    [0, 9999]: a freshly constructed cut accepts a momentum exactly when
    [0 <= p <= 9999].  [SetPMax(0)] succeeds and sets the maximum to
    1000000, leaving the minimum as it is: afterwards a momentum is accepted
    exactly when [fMinP <= p <= 1000000]. *)
Theorem default_momentum_window (target : EParticleType) (c : AliCSPIDCuts)
    (p : Q) :
  (momentumGate (new_AliCSPIDCuts target) p = true <->
   (0 <= p /\ p <= 9999)%Q) /\
  fst (SetPMax 0 c) = true /\
  fMinP (snd (SetPMax 0 c)) = fMinP c /\
  (momentumGate (snd (SetPMax 0 c)) p = true <->
   (fMinP c <= p /\ p <= 1000000)%Q).
Proof.
  split; [|split; [|split]].
  - rewrite momentumGate_range. simpl.
    assert (H0 : (0.0 == 0)%Q) by reflexivity.
    assert (H1 : (9999.0 == 9999)%Q) by reflexivity.
    rewrite H0, H1. tauto.
  - reflexivity.
  - reflexivity.
  - rewrite momentumGate_range. simpl.
    assert (H1 : (1e6 == 1000000)%Q) by reflexivity.
    rewrite H1. tauto.
Qed.

(** ** Bit masks *)

Lemma TestBitNumber_Set (b : TBits.t) (n m : N) :
  TBits.TestBitNumber (TBits.SetBitNumber n b) m
  = N.eqb n m || TBits.TestBitNumber b m.
Proof. apply N.setbit_eqb. Qed.

Lemma TestBitNumber_Reset (b : TBits.t) (n m : N) :
  TBits.TestBitNumber (TBits.ResetBitNumber n b) m
  = TBits.TestBitNumber b m && negb (N.eqb n m).
Proof. apply N.clearbit_eqb. Qed.

Lemma SetBitNumber_idem (b : TBits.t) (n : N) :
  TBits.SetBitNumber n (TBits.SetBitNumber n b) = TBits.SetBitNumber n b.
Proof.
  apply N.bits_inj. intro m.
  change (TBits.TestBitNumber (TBits.SetBitNumber n (TBits.SetBitNumber n b)) m
          = TBits.TestBitNumber (TBits.SetBitNumber n b) m).
  rewrite !TestBitNumber_Set. destruct (N.eqb n m); reflexivity.
Qed.

Lemma ResetBitNumber_idem (b : TBits.t) (n : N) :
  TBits.ResetBitNumber n (TBits.ResetBitNumber n b) = TBits.ResetBitNumber n b.
Proof.
  apply N.bits_inj. intro m.
  change (TBits.TestBitNumber
            (TBits.ResetBitNumber n (TBits.ResetBitNumber n b)) m
          = TBits.TestBitNumber (TBits.ResetBitNumber n b) m).
  rewrite !TestBitNumber_Reset.
  destruct (N.eqb n m), (TBits.TestBitNumber b m); reflexivity.
Qed.

Lemma SetBitNumber_nonempty (b : TBits.t) (n : N) :
  TBits.SetBitNumber n b <> 0%N.
Proof.
  intro H.
  assert (Hbit : TBits.TestBitNumber (TBits.SetBitNumber n b) n = true).
  { rewrite TestBitNumber_Set, N.eqb_refl. reflexivity. }
  rewrite H in Hbit. unfold TBits.TestBitNumber in Hbit.
  rewrite N.bits_0 in Hbit. discriminate.
Qed.

Lemma ResetBitNumber_only (b : TBits.t) (n : N) :
  (forall m, m <> n -> TBits.TestBitNumber b m = false) ->
  TBits.ResetBitNumber n b = 0%N.
Proof.
  intros Honly. apply N.bits_inj. intro m.
  change (TBits.TestBitNumber (TBits.ResetBitNumber n b) m = N.testbit 0 m).
  rewrite TestBitNumber_Reset, N.bits_0.
  destruct (N.eqb_spec n m) as [->|Hne].
  - apply andb_false_r.
  - rewrite Honly by congruence. reflexivity.
Qed.

Lemma CountBits_Set (b : TBits.t) (n : N) :
  (0 <? TBits.CountBits (TBits.SetBitNumber n b))%nat = true.
Proof.
  apply Nat.ltb_lt, CountBits_pos, SetBitNumber_nonempty.
Qed.

(** ** The shape of the setters *)

(** Case analysis on a preset code: zero, a positive literal of at most four
    binary digits, a larger positive, or a negative. *)
Ltac split_code code :=
  let p := fresh "p" in
  destruct code as [|p|p];
  [ | do 4 (try destruct p as [p|p|]) | ].

Lemma SetPMin_cases (pcode : Z) :
  (~ 0 <= pcode <= 9 /\ forall c, SetPMin pcode c = (false, c)) \/
  (0 <= pcode <= 9 /\ exists q, forall c, SetPMin pcode c = (true, with_fMinP q c)).
Proof.
  split_code pcode;
    first [ left; split; [lia | intro; reflexivity]
          | right; split; [lia | eexists; intro; reflexivity] ].
Qed.

Lemma SetPMax_cases (pcode : Z) :
  (~ 0 <= pcode <= 8 /\ forall c, SetPMax pcode c = (false, c)) \/
  (0 <= pcode <= 8 /\ exists q, forall c, SetPMax pcode c = (true, with_fMaxP q c)).
Proof.
  split_code pcode;
    first [ left; split; [lia | intro; reflexivity]
          | right; split; [lia | eexists; intro; reflexivity] ].
Qed.

Lemma SetITSdEdxSigmaCut_cases (id : EParticleType) (dEdxCode : Z) :
  (~ 0 <= dEdxCode <= 8
   /\ forall c, SetITSdEdxSigmaCut id dEdxCode c = (false, c)) \/
  (dEdxCode = 0
   /\ forall c, SetITSdEdxSigmaCut id dEdxCode c
                = (true, ITS_enabled_update (ITS_passive id c))) \/
  (1 <= dEdxCode <= 8
   /\ exists below above,
       forall c, SetITSdEdxSigmaCut id dEdxCode c
                 = (true, ITS_enabled_update (ITS_band id below above c))).
Proof.
  split_code dEdxCode;
    first [ left; split; [lia | intro; reflexivity]
          | right; left; split; [reflexivity | intro; reflexivity]
          | right; right; split; [lia | do 2 eexists; intro; reflexivity] ].
Qed.

Lemma SetTPCdEdxSigmaCut_cases (id : EParticleType) (dEdxCode : Z) :
  (~ 0 <= dEdxCode <= 9
   /\ forall c, SetTPCdEdxSigmaCut id dEdxCode c = (false, c)) \/
  (dEdxCode = 0
   /\ forall c, SetTPCdEdxSigmaCut id dEdxCode c
                = (true, TPC_enabled_update (TPC_passive id c))) \/
  (1 <= dEdxCode <= 9
   /\ exists below above,
       forall c, SetTPCdEdxSigmaCut id dEdxCode c
                 = (true, TPC_enabled_update (TPC_band id below above c))).
Proof.
  split_code dEdxCode;
    first [ left; split; [lia | intro; reflexivity]
          | right; left; split; [reflexivity | intro; reflexivity]
          | right; right; split; [lia | do 2 eexists; intro; reflexivity] ].
Qed.

Lemma SetTOFSigmaCut_cases (id : EParticleType) (tofcode : Z) :
  (~ 0 <= tofcode <= 5
   /\ forall c, SetTOFSigmaCut id tofcode c = (false, c)) \/
  (tofcode = 0
   /\ forall c, SetTOFSigmaCut id tofcode c
                = (true, TOF_enabled_update (TOF_passive id c))) \/
  (1 <= tofcode <= 5
   /\ exists below above,
       forall c, SetTOFSigmaCut id tofcode c
                 = (true, TOF_enabled_update (TOF_band id below above c))).
Proof.
  split_code tofcode;
    first [ left; split; [lia | intro; reflexivity]
          | right; left; split; [reflexivity | intro; reflexivity]
          | right; right; split; [lia | do 2 eexists; intro; reflexivity] ].
Qed.

(** ** The combined TPC+TOF mode *)

(** C4: [SetTPCTOFCut] accepts the codes 0 to 3 and rejects every other
    code without touching the cut.  On success TOF is required exactly for
    the codes 1 and 3; the 2D species mask is the intersection of the TPC
    and TOF species masks as they are at the call for the codes 2 and 3 and
    empty for the codes 0 and 1; the 2D bit of the enabled cuts is set
    exactly when that mask has a bit set. *)
Theorem SetTPCTOFCut_spec (tpctofcode : Z) (c : AliCSPIDCuts) :
  (0 <= tpctofcode <= 3 ->
   fst (SetTPCTOFCut tpctofcode c) = true /\
   fTOFRequired (snd (SetTPCTOFCut tpctofcode c))
   = (tpctofcode =? 1) || (tpctofcode =? 3) /\
   fTPCTOF2DEnabledSpeciesMask (snd (SetTPCTOFCut tpctofcode c))
   = (if (tpctofcode =? 2) || (tpctofcode =? 3)
      then TBits.and (fTPCEnabledSpeciesMask c) (fTOFEnabledSpeciesMask c)
      else TBits.ResetAllBits) /\
   (TBits.TestBitNumber (fCutsEnabledMask (snd (SetTPCTOFCut tpctofcode c)))
      kTPCTOF2DSigmaCut = true <->
    (0 < TBits.CountBits
           (fTPCTOF2DEnabledSpeciesMask (snd (SetTPCTOFCut tpctofcode c))))%nat) /\
   (TBits.TestBitNumber (fCutsEnabledMask (snd (SetTPCTOFCut tpctofcode c)))
      kTPCTOF2DSigmaCut = true <->
    fTPCTOF2DEnabledSpeciesMask (snd (SetTPCTOFCut tpctofcode c))
    <> TBits.ResetAllBits)) /\
  (~ 0 <= tpctofcode <= 3 -> SetTPCTOFCut tpctofcode c = (false, c)).
Proof.
  assert (Hbit : forall c0,
             TBits.TestBitNumber
               (fCutsEnabledMask (TPCTOF2D_enabled_update c0))
               kTPCTOF2DSigmaCut = true <->
             (0 < TBits.CountBits (fTPCTOF2DEnabledSpeciesMask c0))%nat).
  { intro c0. unfold TPCTOF2D_enabled_update.
    destruct (0 <? TBits.CountBits (fTPCTOF2DEnabledSpeciesMask c0))%nat eqn:E;
      simpl.
    - rewrite TestBitNumber_Set, N.eqb_refl. apply Nat.ltb_lt in E. tauto.
    - rewrite TestBitNumber_Reset, N.eqb_refl, andb_false_r.
      apply Nat.ltb_ge in E. split; [discriminate | lia]. }
  assert (Hmask : forall c0,
             fTPCTOF2DEnabledSpeciesMask (TPCTOF2D_enabled_update c0)
             = fTPCTOF2DEnabledSpeciesMask c0).
  { intro c0. unfold TPCTOF2D_enabled_update.
    destruct (0 <? _)%nat; reflexivity. }
  assert (Hreq : forall c0,
             fTOFRequired (TPCTOF2D_enabled_update c0) = fTOFRequired c0).
  { intro c0. unfold TPCTOF2D_enabled_update.
    destruct (0 <? _)%nat; reflexivity. }
  split.
  - intros Hrange.
    assert (Hcode : tpctofcode = 0 \/ tpctofcode = 1 \/ tpctofcode = 2
                    \/ tpctofcode = 3) by lia.
    destruct Hcode as [-> | [-> | [-> | ->]]];
      (split; [reflexivity|]);
      (split; [unfold SetTPCTOFCut; simpl snd; rewrite Hreq; reflexivity|]);
      (split; [unfold SetTPCTOFCut; simpl snd; rewrite Hmask; reflexivity|]);
      unfold SetTPCTOFCut; simpl snd; rewrite Hmask;
      (split; [apply Hbit|]);
      rewrite Hbit; apply CountBits_pos.
  - intros Hout. split_code tpctofcode; first [reflexivity | lia].
Qed.

Lemma SetTPCTOFCut_spec_witness :
  fst (SetTPCTOFCut 3 pionCut) = true /\
  fTOFRequired (snd (SetTPCTOFCut 3 pionCut)) = true /\
  SetTPCTOFCut 4 pionCut = (false, pionCut).
Proof.
  pose proof (SetTPCTOFCut_spec 3 pionCut) as [Hin _].
  pose proof (SetTPCTOFCut_spec 4 pionCut) as [_ Hout].
  destruct (Hin ltac:(lia)) as (Hok & Hreq & _).
  split; [exact Hok|]. split; [exact Hreq|].
  apply Hout. lia.
Defined.

(** ** The detector bit of the enabled cuts *)

Lemma new_AliCSPIDCuts_allocated (target : EParticleType) :
  allocated (new_AliCSPIDCuts target).
Proof. repeat split. Qed.

Lemma at_species_insert (a : list Q) (id : EParticleType) (x : Q) :
  (index id < length a)%nat -> at_species (<[index id := x]> a) id = x.
Proof.
  intro Hlt. unfold at_species.
  rewrite nth_lookup, list_lookup_insert_eq by exact Hlt. reflexivity.
Qed.

Ltac enabled_update_fields upd :=
  let E := fresh "E" in
  unfold upd;
  destruct (0 <? _)%nat eqn:E; simpl;
  rewrite ?TestBitNumber_Set, ?TestBitNumber_Reset, ?N.eqb_refl,
    ?andb_false_r;
  repeat split; reflexivity.

Lemma ITS_enabled_update_fields (c : AliCSPIDCuts) :
  fITSEnabledSpeciesMask (ITS_enabled_update c) = fITSEnabledSpeciesMask c
  /\ fITSnSigmaBelow (ITS_enabled_update c) = fITSnSigmaBelow c
  /\ fITSnSigmaAbove (ITS_enabled_update c) = fITSnSigmaAbove c
  /\ TBits.TestBitNumber (fCutsEnabledMask (ITS_enabled_update c))
       kITSdEdxSigmaCut
     = (0 <? TBits.CountBits (fITSEnabledSpeciesMask c))%nat.
Proof. enabled_update_fields ITS_enabled_update. Qed.

Lemma TPC_enabled_update_fields (c : AliCSPIDCuts) :
  fTPCEnabledSpeciesMask (TPC_enabled_update c) = fTPCEnabledSpeciesMask c
  /\ fTPCnSigmaBelow (TPC_enabled_update c) = fTPCnSigmaBelow c
  /\ fTPCnSigmaAbove (TPC_enabled_update c) = fTPCnSigmaAbove c
  /\ TBits.TestBitNumber (fCutsEnabledMask (TPC_enabled_update c))
       kTPCdEdxSigmaCut
     = (0 <? TBits.CountBits (fTPCEnabledSpeciesMask c))%nat.
Proof. enabled_update_fields TPC_enabled_update. Qed.

Lemma TOF_enabled_update_fields (c : AliCSPIDCuts) :
  fTOFEnabledSpeciesMask (TOF_enabled_update c) = fTOFEnabledSpeciesMask c
  /\ fTOFnSigmaBelow (TOF_enabled_update c) = fTOFnSigmaBelow c
  /\ fTOFnSigmaAbove (TOF_enabled_update c) = fTOFnSigmaAbove c
  /\ TBits.TestBitNumber (fCutsEnabledMask (TOF_enabled_update c))
       kTOFSigmaCut
     = (0 <? TBits.CountBits (fTOFEnabledSpeciesMask c))%nat.
Proof. enabled_update_fields TOF_enabled_update. Qed.

(** The postcondition from the four facts about the closing statement and
    the two shapes the state can have before it. *)
Lemma bandSetterPost_intro (cut : N) (mask : AliCSPIDCuts -> TBits.t)
    (below above : AliCSPIDCuts -> list Q)
    (update : AliCSPIDCuts -> AliCSPIDCuts)
    (id : EParticleType) (code : Z) (c c1 : AliCSPIDCuts) :
  (mask (update c1) = mask c1
   /\ below (update c1) = below c1
   /\ above (update c1) = above c1
   /\ TBits.TestBitNumber (fCutsEnabledMask (update c1)) cut
      = (0 <? TBits.CountBits (mask c1))%nat) ->
  (code = 0 ->
   mask c1 = TBits.ResetBitNumber (bit id) (mask c)
   /\ below c1 = <[index id := (-100.0)%Q]> (below c)
   /\ above c1 = <[index id := 100.0%Q]> (above c)) ->
  (index id < length (below c))%nat ->
  (index id < length (above c))%nat ->
  bandSetterPost cut mask below above id code c (update c1).
Proof.
  intros (Hm & Hb & Ha & Hbit) Hpassive Hlb Hla.
  unfold bandSetterPost. rewrite Hm, Hb, Ha, Hbit.
  split; [apply Nat.ltb_lt|].
  intros Hcode. destruct (Hpassive Hcode) as (Hm1 & Hb1 & Ha1).
  rewrite Hm1, Hb1, Ha1.
  split; [|split; [|split]].
  - rewrite TestBitNumber_Reset, N.eqb_refl. apply andb_false_r.
  - apply at_species_insert, Hlb.
  - apply at_species_insert, Hla.
  - intros Honly. rewrite (ResetBitNumber_only _ _ Honly). reflexivity.
Qed.

Lemma SetITSdEdxSigmaCut_post (id : EParticleType) (dEdxCode : Z)
    (c : AliCSPIDCuts) :
  allocated c -> hasSlot id ->
  fst (SetITSdEdxSigmaCut id dEdxCode c) = true ->
  bandSetterPost kITSdEdxSigmaCut fITSEnabledSpeciesMask
    fITSnSigmaBelow fITSnSigmaAbove id dEdxCode c
    (snd (SetITSdEdxSigmaCut id dEdxCode c)).
Proof.
  intros (Ha & Hb & _) Hslot Hok. unfold hasSlot in Hslot.
  destruct (SetITSdEdxSigmaCut_cases id dEdxCode)
    as [[_ H] | [[Hz H] | (Hr & lo & hi & H)]];
    rewrite H in *; simpl fst in *; simpl snd; [discriminate | |];
    (apply bandSetterPost_intro;
     [apply ITS_enabled_update_fields
     | intro; first [lia | repeat split]
     | rewrite Hb; exact Hslot
     | rewrite Ha; exact Hslot ]).
Qed.

Lemma SetTPCdEdxSigmaCut_post (id : EParticleType) (dEdxCode : Z)
    (c : AliCSPIDCuts) :
  allocated c -> hasSlot id ->
  fst (SetTPCdEdxSigmaCut id dEdxCode c) = true ->
  bandSetterPost kTPCdEdxSigmaCut fTPCEnabledSpeciesMask
    fTPCnSigmaBelow fTPCnSigmaAbove id dEdxCode c
    (snd (SetTPCdEdxSigmaCut id dEdxCode c)).
Proof.
  intros (_ & _ & Ha & Hb & _) Hslot Hok. unfold hasSlot in Hslot.
  destruct (SetTPCdEdxSigmaCut_cases id dEdxCode)
    as [[_ H] | [[Hz H] | (Hr & lo & hi & H)]];
    rewrite H in *; simpl fst in *; simpl snd; [discriminate | |];
    (apply bandSetterPost_intro;
     [apply TPC_enabled_update_fields
     | intro; first [lia | repeat split]
     | rewrite Hb; exact Hslot
     | rewrite Ha; exact Hslot ]).
Qed.

Lemma SetTOFSigmaCut_post (id : EParticleType) (tofcode : Z)
    (c : AliCSPIDCuts) :
  allocated c -> hasSlot id ->
  fst (SetTOFSigmaCut id tofcode c) = true ->
  bandSetterPost kTOFSigmaCut fTOFEnabledSpeciesMask
    fTOFnSigmaBelow fTOFnSigmaAbove id tofcode c
    (snd (SetTOFSigmaCut id tofcode c)).
Proof.
  intros (_ & _ & _ & _ & Ha & Hb) Hslot Hok. unfold hasSlot in Hslot.
  destruct (SetTOFSigmaCut_cases id tofcode)
    as [[_ H] | [[Hz H] | (Hr & lo & hi & H)]];
    rewrite H in *; simpl fst in *; simpl snd; [discriminate | |];
    (apply bandSetterPost_intro;
     [apply TOF_enabled_update_fields
     | intro; first [lia | repeat split]
     | rewrite Hb; exact Hslot
     | rewrite Ha; exact Hslot ]).
Qed.

(** C2: each band setter ([SetITSdEdxSigmaCut], [SetTPCdEdxSigmaCut],
    [SetTOFSigmaCut]) accepts exactly the preset codes of its table (0 to 8,
    0 to 9 and 0 to 5).  After a successful call the detector's bit of
    [fCutsEnabledMask] is set exactly when the detector's species mask
    counts at least one enabled species.  The preset 0 is accepted: it
    resets the species' enable bit and its bounds to -100 and 100, and
    resets the detector's bit when no other species was enabled. *)
Theorem band_setters_enabled_bit (id : EParticleType) (code : Z)
    (c : AliCSPIDCuts) :
  allocated c -> hasSlot id ->
  ((fst (SetITSdEdxSigmaCut id code c) = true <-> 0 <= code <= 8) /\
   (fst (SetITSdEdxSigmaCut id code c) = true ->
    bandSetterPost kITSdEdxSigmaCut fITSEnabledSpeciesMask
      fITSnSigmaBelow fITSnSigmaAbove id code c
      (snd (SetITSdEdxSigmaCut id code c))) /\
   fst (SetITSdEdxSigmaCut id 0 c) = true /\
   presetZeroPost kITSdEdxSigmaCut fITSEnabledSpeciesMask
     fITSnSigmaBelow fITSnSigmaAbove id c
     (snd (SetITSdEdxSigmaCut id 0 c))) /\
  ((fst (SetTPCdEdxSigmaCut id code c) = true <-> 0 <= code <= 9) /\
   (fst (SetTPCdEdxSigmaCut id code c) = true ->
    bandSetterPost kTPCdEdxSigmaCut fTPCEnabledSpeciesMask
      fTPCnSigmaBelow fTPCnSigmaAbove id code c
      (snd (SetTPCdEdxSigmaCut id code c))) /\
   fst (SetTPCdEdxSigmaCut id 0 c) = true /\
   presetZeroPost kTPCdEdxSigmaCut fTPCEnabledSpeciesMask
     fTPCnSigmaBelow fTPCnSigmaAbove id c
     (snd (SetTPCdEdxSigmaCut id 0 c))) /\
  ((fst (SetTOFSigmaCut id code c) = true <-> 0 <= code <= 5) /\
   (fst (SetTOFSigmaCut id code c) = true ->
    bandSetterPost kTOFSigmaCut fTOFEnabledSpeciesMask
      fTOFnSigmaBelow fTOFnSigmaAbove id code c
      (snd (SetTOFSigmaCut id code c))) /\
   fst (SetTOFSigmaCut id 0 c) = true /\
   presetZeroPost kTOFSigmaCut fTOFEnabledSpeciesMask
     fTOFnSigmaBelow fTOFnSigmaAbove id c
     (snd (SetTOFSigmaCut id 0 c))).
Proof.
  intros Halloc Hslot.
  split; [|split]; (split; [|split; [|split; [reflexivity|]]]).
  - destruct (SetITSdEdxSigmaCut_cases id code)
      as [[Hr H] | [[Hr H] | (Hr & lo & hi & H)]]; rewrite H; simpl fst;
      split; first [discriminate | reflexivity | lia].
  - intro Hok. apply SetITSdEdxSigmaCut_post; assumption.
  - exact (proj2 (SetITSdEdxSigmaCut_post id 0 c Halloc Hslot eq_refl) eq_refl).
  - destruct (SetTPCdEdxSigmaCut_cases id code)
      as [[Hr H] | [[Hr H] | (Hr & lo & hi & H)]]; rewrite H; simpl fst;
      split; first [discriminate | reflexivity | lia].
  - intro Hok. apply SetTPCdEdxSigmaCut_post; assumption.
  - exact (proj2 (SetTPCdEdxSigmaCut_post id 0 c Halloc Hslot eq_refl) eq_refl).
  - destruct (SetTOFSigmaCut_cases id code)
      as [[Hr H] | [[Hr H] | (Hr & lo & hi & H)]]; rewrite H; simpl fst;
      split; first [discriminate | reflexivity | lia].
  - intro Hok. apply SetTOFSigmaCut_post; assumption.
  - exact (proj2 (SetTOFSigmaCut_post id 0 c Halloc Hslot eq_refl) eq_refl).
Qed.

Lemma only_bit_set (b m : N) :
  m <> b ->
  TBits.TestBitNumber (TBits.SetBitNumber b TBits.ResetAllBits) m = false.
Proof.
  intros Hne. rewrite TestBitNumber_Set.
  destruct (N.eqb_spec b m) as [Heq|_]; [congruence|].
  apply N.bits_0.
Qed.

Lemma pionThreeBands_only_pion (m : N) :
  m <> bit kPion ->
  TBits.TestBitNumber (fITSEnabledSpeciesMask pionThreeBands) m = false
  /\ TBits.TestBitNumber (fTPCEnabledSpeciesMask pionThreeBands) m = false
  /\ TBits.TestBitNumber (fTOFEnabledSpeciesMask pionThreeBands) m = false.
Proof. intros Hne. repeat split; apply only_bit_set, Hne. Qed.

(** Before the preset 0 the three detectors' bits are set. *)
Lemma pionThreeBands_enabled :
  TBits.TestBitNumber (fCutsEnabledMask pionThreeBands) kITSdEdxSigmaCut = true
  /\ TBits.TestBitNumber (fCutsEnabledMask pionThreeBands) kTPCdEdxSigmaCut
     = true
  /\ TBits.TestBitNumber (fCutsEnabledMask pionThreeBands) kTOFSigmaCut = true.
Proof. repeat split. Qed.

Lemma band_setters_enabled_bit_witness :
  (fst (SetITSdEdxSigmaCut kPion 0 pionThreeBands) = true
   /\ presetZeroPost kITSdEdxSigmaCut fITSEnabledSpeciesMask
        fITSnSigmaBelow fITSnSigmaAbove kPion pionThreeBands
        (snd (SetITSdEdxSigmaCut kPion 0 pionThreeBands))
   /\ TBits.TestBitNumber
        (fCutsEnabledMask (snd (SetITSdEdxSigmaCut kPion 0 pionThreeBands)))
        kITSdEdxSigmaCut = false)
  /\ (fst (SetTPCdEdxSigmaCut kPion 0 pionThreeBands) = true
      /\ presetZeroPost kTPCdEdxSigmaCut fTPCEnabledSpeciesMask
           fTPCnSigmaBelow fTPCnSigmaAbove kPion pionThreeBands
           (snd (SetTPCdEdxSigmaCut kPion 0 pionThreeBands))
      /\ TBits.TestBitNumber
           (fCutsEnabledMask (snd (SetTPCdEdxSigmaCut kPion 0 pionThreeBands)))
           kTPCdEdxSigmaCut = false)
  /\ (fst (SetTOFSigmaCut kPion 0 pionThreeBands) = true
      /\ presetZeroPost kTOFSigmaCut fTOFEnabledSpeciesMask
           fTOFnSigmaBelow fTOFnSigmaAbove kPion pionThreeBands
           (snd (SetTOFSigmaCut kPion 0 pionThreeBands))
      /\ TBits.TestBitNumber
           (fCutsEnabledMask (snd (SetTOFSigmaCut kPion 0 pionThreeBands)))
           kTOFSigmaCut = false)
  /\ fst (SetTOFSigmaCut kPion 5 pionThreeBands) = true
  /\ fst (SetTOFSigmaCut kPion 6 pionThreeBands) <> true.
Proof.
  assert (Halloc : allocated pionThreeBands) by (repeat split).
  assert (Hslot : hasSlot kPion)
    by (unfold hasSlot, kNSigmaSlots, kSPECIESC; simpl; lia).
  destruct (band_setters_enabled_bit kPion 0 pionThreeBands Halloc Hslot)
    as ((_ & _ & HITS & HITS0) & (_ & _ & HTPC & HTPC0)
        & (_ & _ & HTOF & HTOF0)).
  destruct (band_setters_enabled_bit kPion 5 pionThreeBands Halloc Hslot)
    as (_ & _ & (Hfive & _)).
  destruct (band_setters_enabled_bit kPion 6 pionThreeBands Halloc Hslot)
    as (_ & _ & (Hsix & _)).
  split; [|split; [|split; [|split]]].
  - split; [exact HITS|]. split; [exact HITS0|].
    apply HITS0. intros m Hne. apply (pionThreeBands_only_pion m Hne).
  - split; [exact HTPC|]. split; [exact HTPC0|].
    apply HTPC0. intros m Hne. apply (pionThreeBands_only_pion m Hne).
  - split; [exact HTOF|]. split; [exact HTOF0|].
    apply HTOF0. intros m Hne. apply (pionThreeBands_only_pion m Hne).
  - apply Hfive. lia.
  - intros H. apply Hsix in H. lia.
Defined.

(** ** The facade: rejection and repetition *)

Lemma SetTPCTOFCut_cases (tpctofcode : Z) :
  (~ 0 <= tpctofcode <= 3 /\ forall c, SetTPCTOFCut tpctofcode c = (false, c)) \/
  (0 <= tpctofcode <= 3
   /\ exists required,
       (forall c, SetTPCTOFCut tpctofcode c
                  = (true,
                     TPCTOF2D_enabled_update
                       (with_fTOFRequired required (TPCTOF2D_reset c))))
       \/ (forall c, SetTPCTOFCut tpctofcode c
                     = (true,
                        TPCTOF2D_enabled_update
                          (with_fTOFRequired required
                             (TPCTOF2D_intersect (TPCTOF2D_reset c)))))).
Proof.
  split_code tpctofcode;
    first [ left; split; [lia | intro; reflexivity]
          | right; split; [lia | eexists; left; intro; reflexivity]
          | right; split; [lia | eexists; right; intro; reflexivity] ].
Qed.

(** The closing statements with the condition moved into the assigned
    mask. *)
Lemma ITS_enabled_update_eq (c : AliCSPIDCuts) :
  ITS_enabled_update c
  = with_fCutsEnabledMask
      ((if (0 <? TBits.CountBits (fITSEnabledSpeciesMask c))%nat
        then TBits.SetBitNumber kITSdEdxSigmaCut
        else TBits.ResetBitNumber kITSdEdxSigmaCut) (fCutsEnabledMask c)) c.
Proof. unfold ITS_enabled_update. destruct (0 <? _)%nat; reflexivity. Qed.

Lemma TPC_enabled_update_eq (c : AliCSPIDCuts) :
  TPC_enabled_update c
  = with_fCutsEnabledMask
      ((if (0 <? TBits.CountBits (fTPCEnabledSpeciesMask c))%nat
        then TBits.SetBitNumber kTPCdEdxSigmaCut
        else TBits.ResetBitNumber kTPCdEdxSigmaCut) (fCutsEnabledMask c)) c.
Proof. unfold TPC_enabled_update. destruct (0 <? _)%nat; reflexivity. Qed.

Lemma TOF_enabled_update_eq (c : AliCSPIDCuts) :
  TOF_enabled_update c
  = with_fCutsEnabledMask
      ((if (0 <? TBits.CountBits (fTOFEnabledSpeciesMask c))%nat
        then TBits.SetBitNumber kTOFSigmaCut
        else TBits.ResetBitNumber kTOFSigmaCut) (fCutsEnabledMask c)) c.
Proof. unfold TOF_enabled_update. destruct (0 <? _)%nat; reflexivity. Qed.

Lemma TPCTOF2D_enabled_update_eq (c : AliCSPIDCuts) :
  TPCTOF2D_enabled_update c
  = with_fCutsEnabledMask
      ((if (0 <? TBits.CountBits (fTPCTOF2DEnabledSpeciesMask c))%nat
        then TBits.SetBitNumber kTPCTOF2DSigmaCut
        else TBits.ResetBitNumber kTPCTOF2DSigmaCut) (fCutsEnabledMask c)) c.
Proof. unfold TPCTOF2D_enabled_update. destruct (0 <? _)%nat; reflexivity. Qed.

(** Splits on the conditions of the closing statements. *)
Ltac split_enabled :=
  repeat match goal with
         | |- context [(0 <? TBits.CountBits ?m)%nat] =>
             destruct (0 <? TBits.CountBits m)%nat
         end.

Ltac unfold_updates :=
  cbv beta;
  rewrite ?ITS_enabled_update_eq, ?TPC_enabled_update_eq,
    ?TOF_enabled_update_eq, ?TPCTOF2D_enabled_update_eq;
  cbv [ITS_passive ITS_band TPC_passive TPC_band
       TOF_passive TOF_band TPCTOF2D_reset TPCTOF2D_intersect
       with_ITS with_TPC with_TOF with_fCutsEnabledMask with_fTOFRequired
       with_fTPCTOF2DEnabledSpeciesMask with_fMinP with_fMaxP
       with_fCutsString with_fParameters
       fParameters fCutsString fMinP fMaxP fTOFRequired fTPCTOF2Dcut
       fITSnSigmaAbove fITSnSigmaBelow fTPCnSigmaAbove fTPCnSigmaBelow
       fTOFnSigmaAbove fTOFnSigmaBelow fCutsEnabledMask fCutsActivatedMask
       fITSEnabledSpeciesMask fTPCEnabledSpeciesMask fTOFEnabledSpeciesMask
       fTPCTOF2DEnabledSpeciesMask fTargetSpecies].

Ltac framed_update :=
  split;
  [ intros []; unfold_updates;
    rewrite ?SetBitNumber_idem, ?ResetBitNumber_idem, ?list_insert_insert_eq;
    split_enabled;
    rewrite ?SetBitNumber_idem, ?ResetBitNumber_idem;
    reflexivity
  | intros l s []; unfold_updates; reflexivity ].

Lemma framed_with_fMinP (q : Q) : framed (with_fMinP q).
Proof. framed_update. Qed.

Lemma framed_with_fMaxP (q : Q) : framed (with_fMaxP q).
Proof. framed_update. Qed.

Lemma framed_ITS_passive (id : EParticleType) :
  framed (fun c => ITS_enabled_update (ITS_passive id c)).
Proof. framed_update. Qed.

Lemma framed_ITS_band (id : EParticleType) (below above : Q) :
  framed (fun c => ITS_enabled_update (ITS_band id below above c)).
Proof. framed_update. Qed.

Lemma framed_TPC_passive (id : EParticleType) :
  framed (fun c => TPC_enabled_update (TPC_passive id c)).
Proof. framed_update. Qed.

Lemma framed_TPC_band (id : EParticleType) (below above : Q) :
  framed (fun c => TPC_enabled_update (TPC_band id below above c)).
Proof. framed_update. Qed.

Lemma framed_TOF_passive (id : EParticleType) :
  framed (fun c => TOF_enabled_update (TOF_passive id c)).
Proof. framed_update. Qed.

Lemma framed_TOF_band (id : EParticleType) (below above : Q) :
  framed (fun c => TOF_enabled_update (TOF_band id below above c)).
Proof. framed_update. Qed.

Lemma framed_TPCTOF2D_reset (required : bool) :
  framed (fun c => TPCTOF2D_enabled_update
                     (with_fTOFRequired required (TPCTOF2D_reset c))).
Proof. framed_update. Qed.

Lemma framed_TPCTOF2D_intersect (required : bool) :
  framed (fun c => TPCTOF2D_enabled_update
                     (with_fTOFRequired required
                        (TPCTOF2D_intersect (TPCTOF2D_reset c)))).
Proof. framed_update. Qed.

Lemma SetPMin_uniform (pcode : Z) : uniformSetter (SetPMin pcode).
Proof.
  destruct (SetPMin_cases pcode) as [[_ H] | (_ & q & H)].
  - left. exact H.
  - right. exists (with_fMinP q). split; [apply framed_with_fMinP | exact H].
Qed.

Lemma SetPMax_uniform (pcode : Z) : uniformSetter (SetPMax pcode).
Proof.
  destruct (SetPMax_cases pcode) as [[_ H] | (_ & q & H)].
  - left. exact H.
  - right. exists (with_fMaxP q). split; [apply framed_with_fMaxP | exact H].
Qed.

Lemma SetITSdEdxSigmaCut_uniform (id : EParticleType) (dEdxCode : Z) :
  uniformSetter (SetITSdEdxSigmaCut id dEdxCode).
Proof.
  destruct (SetITSdEdxSigmaCut_cases id dEdxCode)
    as [[_ H] | [[_ H] | (_ & below & above & H)]].
  - left. exact H.
  - right. eexists. split; [apply (framed_ITS_passive id) | exact H].
  - right. eexists.
    split; [apply (framed_ITS_band id below above) | exact H].
Qed.

Lemma SetTPCdEdxSigmaCut_uniform (id : EParticleType) (dEdxCode : Z) :
  uniformSetter (SetTPCdEdxSigmaCut id dEdxCode).
Proof.
  destruct (SetTPCdEdxSigmaCut_cases id dEdxCode)
    as [[_ H] | [[_ H] | (_ & below & above & H)]].
  - left. exact H.
  - right. eexists. split; [apply (framed_TPC_passive id) | exact H].
  - right. eexists.
    split; [apply (framed_TPC_band id below above) | exact H].
Qed.

Lemma SetTOFSigmaCut_uniform (id : EParticleType) (tofcode : Z) :
  uniformSetter (SetTOFSigmaCut id tofcode).
Proof.
  destruct (SetTOFSigmaCut_cases id tofcode)
    as [[_ H] | [[_ H] | (_ & below & above & H)]].
  - left. exact H.
  - right. eexists. split; [apply (framed_TOF_passive id) | exact H].
  - right. eexists.
    split; [apply (framed_TOF_band id below above) | exact H].
Qed.

Lemma SetTPCTOFCut_uniform (tpctofcode : Z) :
  uniformSetter (SetTPCTOFCut tpctofcode).
Proof.
  destruct (SetTPCTOFCut_cases tpctofcode)
    as [[_ H] | (_ & required & [H | H])].
  - left. exact H.
  - right. eexists.
    split; [apply (framed_TPCTOF2D_reset required) | exact H].
  - right. eexists.
    split; [apply (framed_TPCTOF2D_intersect required) | exact H].
Qed.

Section FacadeProperties.

Variable FormCutsString : list Z -> string.

(** Storing after a uniform setter: a second round with the same value
    gives the result of the first. *)
Lemma stored_twice (param : cutsParametersIds) (value : Z)
    (set : AliCSPIDCuts -> bool * AliCSPIDCuts) (c : AliCSPIDCuts) :
  uniformSetter set ->
  stored FormCutsString param value
    (set (snd (stored FormCutsString param value (set c))))
  = stored FormCutsString param value (set c).
Proof.
  intros [Hrej | (f & [Hidem Hframe] & Hacc)].
  - rewrite !Hrej. unfold stored. simpl. rewrite ?Hrej. reflexivity.
  - rewrite Hacc. unfold stored, UpdateCutsString. cbn [fst snd].
    rewrite Hacc. cbn [fst snd].
    rewrite Hframe, Hidem.
    destruct (f c). cbn. rewrite list_insert_insert_eq. reflexivity.
Qed.

(** Storing after a setter that rejected: nothing is stored. *)
Lemma stored_rejected (param : cutsParametersIds) (value : Z)
    (c : AliCSPIDCuts) :
  stored FormCutsString param value (false, c) = (false, c).
Proof. reflexivity. Qed.

Lemma stored_failure (param : cutsParametersIds) (value : Z)
    (set : AliCSPIDCuts -> bool * AliCSPIDCuts) (c : AliCSPIDCuts) :
  uniformSetter set ->
  fst (stored FormCutsString param value (set c)) = false ->
  snd (stored FormCutsString param value (set c)) = c.
Proof.
  intros [Hrej | (f & _ & Hacc)].
  - rewrite Hrej. reflexivity.
  - rewrite Hacc. unfold stored. simpl. discriminate.
Qed.

(** C3: a preset value outside of the range of the parameter is rejected
    and the cut is left exactly as it was: bounds, masks, momentum window,
    TOF flag, stored parameters and cuts string.  This holds for
    [SetCutAndParams], also for an identifier that names no parameter and
    for any other failure, and for each of the setters it calls. *)
Theorem rejected_value_keeps_state (paramID value : Z) (c : AliCSPIDCuts) :
  (forall param,
      cutsParametersIds_of paramID = Some param ->
      ~ supported param value ->
      SetCutAndParams FormCutsString paramID value c = (false, c)) /\
  (cutsParametersIds_of paramID = None ->
   SetCutAndParams FormCutsString paramID value c = (false, c)) /\
  (fst (SetCutAndParams FormCutsString paramID value c) = false ->
   snd (SetCutAndParams FormCutsString paramID value c) = c) /\
  (~ 0 <= value <= 9 -> SetPMin value c = (false, c)) /\
  (~ 0 <= value <= 8 -> SetPMax value c = (false, c)) /\
  (forall id, ~ 0 <= value <= 8 ->
              SetITSdEdxSigmaCut id value c = (false, c)) /\
  (forall id, ~ 0 <= value <= 9 ->
              SetTPCdEdxSigmaCut id value c = (false, c)) /\
  (forall id, ~ 0 <= value <= 5 ->
              SetTOFSigmaCut id value c = (false, c)) /\
  (~ 0 <= value <= 3 -> SetTPCTOFCut value c = (false, c)).
Proof.
  assert (HPMin : ~ 0 <= value <= 9 -> SetPMin value c = (false, c)).
  { intro Hout. destruct (SetPMin_cases value) as [[_ H] | [Hin _]];
      [apply H | contradiction]. }
  assert (HPMax : ~ 0 <= value <= 8 -> SetPMax value c = (false, c)).
  { intro Hout. destruct (SetPMax_cases value) as [[_ H] | [Hin _]];
      [apply H | contradiction]. }
  assert (HITS : forall id, ~ 0 <= value <= 8 ->
                            SetITSdEdxSigmaCut id value c = (false, c)).
  { intros id Hout.
    destruct (SetITSdEdxSigmaCut_cases id value)
      as [[_ H] | [[Hin _] | [Hin _]]]; [apply H | lia | lia]. }
  assert (HTPC : forall id, ~ 0 <= value <= 9 ->
                            SetTPCdEdxSigmaCut id value c = (false, c)).
  { intros id Hout.
    destruct (SetTPCdEdxSigmaCut_cases id value)
      as [[_ H] | [[Hin _] | [Hin _]]]; [apply H | lia | lia]. }
  assert (HTOF : forall id, ~ 0 <= value <= 5 ->
                            SetTOFSigmaCut id value c = (false, c)).
  { intros id Hout.
    destruct (SetTOFSigmaCut_cases id value)
      as [[_ H] | [[Hin _] | [Hin _]]]; [apply H | lia | lia]. }
  assert (H2D : ~ 0 <= value <= 3 -> SetTPCTOFCut value c = (false, c)).
  { intro Hout. destruct (SetTPCTOFCut_cases value) as [[_ H] | [Hin _]];
      [apply H | contradiction]. }
  repeat split; try assumption.
  - intros param Hparam Hout. unfold SetCutAndParams. rewrite Hparam.
    destruct param; simpl in Hout;
      first [ rewrite (HPMin Hout) | rewrite (HPMax Hout)
            | rewrite (HITS _ Hout) | rewrite (HTPC _ Hout)
            | rewrite (HTOF _ Hout) | rewrite (H2D Hout) ];
      reflexivity.
  - intros Hnone. unfold SetCutAndParams. rewrite Hnone. reflexivity.
  - unfold SetCutAndParams.
    destruct (cutsParametersIds_of paramID) as [param|]; [|reflexivity].
    destruct param; apply stored_failure;
      first [ apply SetPMin_uniform | apply SetPMax_uniform
            | apply SetITSdEdxSigmaCut_uniform
            | apply SetTPCdEdxSigmaCut_uniform
            | apply SetTOFSigmaCut_uniform | apply SetTPCTOFCut_uniform ].
Qed.

(** C9: [SetCutAndParams] is idempotent.  Calling it a second time with
    the same identifier and value returns the same result and leaves the
    cut of the first call: the same momentum window, bands, masks, TOF
    flag, stored parameters and cuts string. *)
Theorem SetCutAndParams_idempotent (paramID value : Z) (c : AliCSPIDCuts) :
  SetCutAndParams FormCutsString paramID value
    (snd (SetCutAndParams FormCutsString paramID value c))
  = SetCutAndParams FormCutsString paramID value c.
Proof.
  unfold SetCutAndParams.
  destruct (cutsParametersIds_of paramID) as [param|]; [|reflexivity].
  destruct param; apply stored_twice;
    first [ apply SetPMin_uniform | apply SetPMax_uniform
          | apply SetITSdEdxSigmaCut_uniform
          | apply SetTPCdEdxSigmaCut_uniform
          | apply SetTOFSigmaCut_uniform | apply SetTPCTOFCut_uniform ].
Qed.

End FacadeProperties.

(** The arrays keep their bound under every call of the facade, so that
    every cut configured from a constructed one is allocated. *)
Lemma SetCutAndParams_allocated (FormCutsString : list Z -> string)
    (paramID value : Z) (c : AliCSPIDCuts) :
  allocated c ->
  allocated (snd (SetCutAndParams FormCutsString paramID value c)).
Proof.
  intros Halloc. unfold SetCutAndParams.
  destruct (cutsParametersIds_of paramID) as [param|]; [|exact Halloc].
  destruct param;
    match goal with
    | |- context [SetPMin ?v ?c] =>
        destruct (SetPMin_cases v) as [[_ H] | (_ & q & H)]
    | |- context [SetPMax ?v ?c] =>
        destruct (SetPMax_cases v) as [[_ H] | (_ & q & H)]
    | |- context [SetITSdEdxSigmaCut ?id ?v ?c] =>
        destruct (SetITSdEdxSigmaCut_cases id v)
          as [[_ H] | [[_ H] | (_ & below & above & H)]]
    | |- context [SetTPCdEdxSigmaCut ?id ?v ?c] =>
        destruct (SetTPCdEdxSigmaCut_cases id v)
          as [[_ H] | [[_ H] | (_ & below & above & H)]]
    | |- context [SetTOFSigmaCut ?id ?v ?c] =>
        destruct (SetTOFSigmaCut_cases id v)
          as [[_ H] | [[_ H] | (_ & below & above & H)]]
    | |- context [SetTPCTOFCut ?v ?c] =>
        destruct (SetTPCTOFCut_cases v) as [[_ H] | (_ & required & [H | H])]
    end;
    rewrite H; unfold stored, UpdateCutsString; cbn [fst snd];
    try exact Halloc;
    destruct c; unfold allocated in *; unfold_updates;
    rewrite ?length_insert; exact Halloc.
Qed.

(** Preset codes on concrete cuts. *)
Example SetPMin_code_3 :
  (fMinP (snd (SetPMin 3 (new_AliCSPIDCuts kKaon))) == 0.4)%Q.
Proof. reflexivity. Qed.

Example SetITSdEdxSigmaCut_code_7 :
  let c := snd (SetITSdEdxSigmaCut kProton 7 (new_AliCSPIDCuts kProton)) in
  at_species (fITSnSigmaBelow c) kProton = (-2.5)%Q
  /\ at_species (fITSnSigmaAbove c) kProton = 4.0%Q
  /\ TBits.TestBitNumber (fCutsEnabledMask c) kITSdEdxSigmaCut = true.
Proof. repeat split. Qed.

Example SetCutAndParams_stores :
  let r := SetCutAndParams digitsCutsString 9 3 (new_AliCSPIDCuts kPion) in
  fst r = true
  /\ fParameters (snd r) = [0; 0; 0; 0; 0; 0; 0; 0; 0; 3; 0; 0; 0; 0; 0; 0; 0; 0]
  /\ fCutsString (snd r) = "000000000300000000"%string.
Proof. repeat split. Qed.

Example fresh_bounds_brace_initialised :
  fTPCnSigmaAbove (new_AliCSPIDCuts kPion)
  = [100.0; 0; 0; 0; 0; 0; 0; 0; 0]%Q.
Proof. reflexivity. Qed.

Lemma rejected_value_keeps_state_witness :
  SetCutAndParams digitsCutsString 9 10 pionCut = (false, pionCut)
  /\ SetCutAndParams digitsCutsString 18 1 pionCut = (false, pionCut)
  /\ SetTOFSigmaCut kKaon 6 pionCut = (false, pionCut).
Proof.
  destruct (rejected_value_keeps_state digitsCutsString 9 10 pionCut)
    as (Hvalue & _).
  destruct (rejected_value_keeps_state digitsCutsString 18 1 pionCut)
    as (_ & Hid & _).
  destruct (rejected_value_keeps_state digitsCutsString 0 6 pionCut)
    as (_ & _ & _ & _ & _ & _ & _ & HTOF & _).
  split; [|split].
  - apply (Hvalue kTPCdEdxSigmaCutParam_pi eq_refl). simpl. lia.
  - apply Hid. reflexivity.
  - apply HTOF. lia.
Defined.

(** ** The one-dimensional detector test *)

Lemma bandTest_target (target : EParticleType) (below above nSigma : Q) :
  bandTest target target below above nSigma = true <->
  insideBand below above nSigma.
Proof.
  unfold bandTest, insideBand, AliPID.eqb. rewrite Nat.eqb_refl.
  rewrite andb_true_iff, !Qltb_lt. tauto.
Qed.

Lemma bandTest_other (target id : EParticleType) (below above nSigma : Q) :
  id <> target ->
  (bandTest target id below above nSigma = true <->
   outsideBand below above nSigma).
Proof.
  intros Hne. unfold bandTest, outsideBand.
  destruct (AliPID.eqb id target) eqn:E.
  - apply AliPID_eqb_eq in E. contradiction.
  - rewrite orb_true_iff, !Qltb_lt. tauto.
Qed.

Lemma detectorTest1D_bandsRespected (target : EParticleType) (mask : TBits.t)
    (below above : list Q) (nSigma : EParticleType -> Q) :
  TBits.TestBitNumber mask (bit target) = true ->
  (detectorTest1D target mask below above nSigma = true <->
   bandsRespected target mask below above nSigma).
Proof.
  intros Htarget. unfold detectorTest1D, bandsRespected.
  rewrite forallb_forall. split.
  - intros Hall. split.
    + specialize (Hall target (all_complete target)).
      rewrite Htarget in Hall. apply bandTest_target in Hall. exact Hall.
    + intros id Hne Hbit.
      specialize (Hall id (all_complete id)).
      rewrite Hbit in Hall. apply (bandTest_other target id) in Hall; assumption.
  - intros [Hin Hout] id _.
    destruct (TBits.TestBitNumber mask (bit id)) eqn:Hbit; [|reflexivity].
    destruct (AliPID.eqb id target) eqn:E.
    + apply AliPID_eqb_eq in E. subst id. apply bandTest_target, Hin.
    + apply bandTest_other.
      * intros ->. unfold AliPID.eqb in E. rewrite Nat.eqb_refl in E.
        discriminate.
      * apply Hout; [|exact Hbit].
        intros ->. unfold AliPID.eqb in E. rewrite Nat.eqb_refl in E.
        discriminate.
Qed.

(** C1: with the target species enabled in a detector's band table, the 1-D
    test of that detector (ITS, TPC, and TOF on a track with a valid TOF hit)
    passes exactly when the n-sigma for the target species lies strictly
    inside the open interval of the target's bounds and, for every other
    species with an enabled band, the n-sigma for that species lies strictly
    outside the closed interval of that species' bounds.  A value on a bound
    fails in both cases. *)
Theorem detector_test_bands (c : AliCSPIDCuts) (nSigma : EParticleType -> Q) :
  (TBits.TestBitNumber (fITSEnabledSpeciesMask c) (bit (fTargetSpecies c))
   = true ->
   (ITSTest c nSigma = true <->
    bandsRespected (fTargetSpecies c) (fITSEnabledSpeciesMask c)
      (fITSnSigmaBelow c) (fITSnSigmaAbove c) nSigma)) /\
  (TBits.TestBitNumber (fTPCEnabledSpeciesMask c) (bit (fTargetSpecies c))
   = true ->
   (TPCTest c nSigma = true <->
    bandsRespected (fTargetSpecies c) (fTPCEnabledSpeciesMask c)
      (fTPCnSigmaBelow c) (fTPCnSigmaAbove c) nSigma)) /\
  (TBits.TestBitNumber (fTOFEnabledSpeciesMask c) (bit (fTargetSpecies c))
   = true ->
   (TOFTest c true nSigma = true <->
    bandsRespected (fTargetSpecies c) (fTOFEnabledSpeciesMask c)
      (fTOFnSigmaBelow c) (fTOFnSigmaAbove c) nSigma)) /\
  (forall target below above x,
      (bandTest target target below above x = true <->
       (below < x /\ x < above)%Q)
      /\ bandTest target target below above below = false
      /\ bandTest target target below above above = false) /\
  (forall target id below above x,
      id <> target ->
      (bandTest target id below above x = true <->
       (x < below \/ above < x)%Q)
      /\ ((below <= above)%Q ->
          bandTest target id below above below = false
          /\ bandTest target id below above above = false)).
Proof.
  split; [|split; [|split; [|split]]].
  - apply detectorTest1D_bandsRespected.
  - apply detectorTest1D_bandsRespected.
  - apply detectorTest1D_bandsRespected.
  - intros target below above x.
    split; [apply bandTest_target|].
    split; apply not_true_is_false; rewrite bandTest_target;
      unfold insideBand; intros [H1 H2];
      first [exact (Qlt_irrefl _ H1) | exact (Qlt_irrefl _ H2)].
  - intros target id below above x Hne.
    split; [apply bandTest_other, Hne|].
    intros Hle.
    split; apply not_true_is_false; rewrite (bandTest_other _ _ _ _ _ Hne);
      unfold outsideBand; intros [H|H];
      first [ exact (Qlt_irrefl _ H) | exact (Qlt_not_le _ _ H Hle) ].
Qed.

Lemma detector_test_bands_witness :
  TPCTest pionKaonCut pionResponse = true.
Proof.
  apply (proj1 (proj2 (detector_test_bands pionKaonCut pionResponse))
           eq_refl).
  split.
  - split; vm_compute; reflexivity.
  - intros id Hne Hbit.
    destruct id; try discriminate Hbit; try (exfalso; apply Hne; reflexivity).
    right. vm_compute. reflexivity.
Defined.

(** * Further properties of the configuration *)

(** ** The band setters and their documented tables *)

Ltac Qcompare := unfold Qlt, Qle, Qeq; simpl; first [reflexivity | discriminate | lia].

Lemma at_species_insert_ne (a : list Q) (id id' : EParticleType) (x : Q) :
  id' <> id -> at_species (<[index id := x]> a) id' = at_species a id'.
Proof.
  intro Hne. unfold at_species.
  rewrite !nth_lookup, list_lookup_insert_ne; [reflexivity|].
  intro H. apply Hne. symmetry. apply index_inj, H.
Qed.

Lemma bit_ne (id id' : EParticleType) : id' <> id -> N.eqb (bit id) (bit id') = false.
Proof.
  intro Hne. apply N.eqb_neq. intro H. apply Hne. symmetry. apply bit_inj, H.
Qed.

Lemma SetITSdEdxSigmaCut_preset (id : EParticleType) (dEdxCode : Z) (lo hi : Q) :
  ITS_preset dEdxCode = Some (lo, hi) ->
  1 <= dEdxCode <= 8
  /\ (-10 <= lo /\ lo < 0 /\ 0 < hi /\ hi <= 10)%Q
  /\ exists below above,
      (below == lo)%Q /\ (above == hi)%Q
      /\ forall c, SetITSdEdxSigmaCut id dEdxCode c
                   = (true, ITS_enabled_update (ITS_band id below above c)).
Proof.
  intro H.
  split_code dEdxCode; try discriminate H;
    injection H as <- <-;
    (split; [lia|]);
    (split; [repeat split; Qcompare|]);
    do 2 eexists; (split; [|split; [|intro; reflexivity]]); Qcompare.
Qed.

Lemma SetTPCdEdxSigmaCut_preset (id : EParticleType) (dEdxCode : Z) (lo hi : Q) :
  TPC_preset dEdxCode = Some (lo, hi) ->
  1 <= dEdxCode <= 9
  /\ (-10 <= lo /\ lo < 0 /\ 0 < hi /\ hi <= 10)%Q
  /\ exists below above,
      (below == lo)%Q /\ (above == hi)%Q
      /\ forall c, SetTPCdEdxSigmaCut id dEdxCode c
                   = (true, TPC_enabled_update (TPC_band id below above c)).
Proof.
  intro H.
  split_code dEdxCode; try discriminate H;
    injection H as <- <-;
    (split; [lia|]);
    (split; [repeat split; Qcompare|]);
    do 2 eexists; (split; [|split; [|intro; reflexivity]]); Qcompare.
Qed.

Lemma SetTOFSigmaCut_preset (id : EParticleType) (tofcode : Z) (lo hi : Q) :
  TOF_preset tofcode = Some (lo, hi) ->
  1 <= tofcode <= 5
  /\ (-10 <= lo /\ lo < 0 /\ 0 < hi /\ hi <= 10)%Q
  /\ exists below above,
      (below == lo)%Q /\ (above == hi)%Q
      /\ forall c, SetTOFSigmaCut id tofcode c
                   = (true, TOF_enabled_update (TOF_band id below above c)).
Proof.
  intro H.
  split_code tofcode; try discriminate H;
    injection H as <- <-;
    (split; [lia|]);
    (split; [repeat split; Qcompare|]);
    do 2 eexists; (split; [|split; [|intro; reflexivity]]); Qcompare.
Qed.
Lemma bandStored_intro (cut : N) (mask : AliCSPIDCuts -> TBits.t)
    (below above : AliCSPIDCuts -> list Q)
    (update : AliCSPIDCuts -> AliCSPIDCuts)
    (id : EParticleType) (lo hi lo' hi' : Q) (c c1 : AliCSPIDCuts) :
  (mask (update c1) = mask c1
   /\ below (update c1) = below c1
   /\ above (update c1) = above c1
   /\ TBits.TestBitNumber (fCutsEnabledMask (update c1)) cut
      = (0 <? TBits.CountBits (mask c1))%nat) ->
  mask c1 = TBits.SetBitNumber (bit id) (mask c) ->
  below c1 = <[index id := lo']> (below c) ->
  above c1 = <[index id := hi']> (above c) ->
  (lo' == lo)%Q -> (hi' == hi)%Q ->
  (index id < length (below c))%nat ->
  (index id < length (above c))%nat ->
  bandStored cut mask below above id lo hi (update c1).
Proof.
  intros (Hm & Hb & Ha & Hbit) Hm1 Hb1 Ha1 Hlo Hhi Hlb Hla.
  unfold bandStored. rewrite Hm, Hb, Ha, Hbit, Hm1, Hb1, Ha1.
  rewrite TestBitNumber_Set, N.eqb_refl, CountBits_Set,
    !at_species_insert by assumption.
  repeat split; assumption.
Qed.

(** After a band setter is called with an active preset code of its
    documented table, it has succeeded, the species is enabled, its bounds
    are the row of the table, and the detector's bit of the enabled cuts is
    set. *)
Theorem band_setters_store_preset (id : EParticleType) (code : Z)
    (lo hi : Q) (c : AliCSPIDCuts) :
  allocated c -> hasSlot id ->
  (ITS_preset code = Some (lo, hi) ->
   fst (SetITSdEdxSigmaCut id code c) = true
   /\ bandStored kITSdEdxSigmaCut fITSEnabledSpeciesMask
        fITSnSigmaBelow fITSnSigmaAbove id lo hi
        (snd (SetITSdEdxSigmaCut id code c))) /\
  (TPC_preset code = Some (lo, hi) ->
   fst (SetTPCdEdxSigmaCut id code c) = true
   /\ bandStored kTPCdEdxSigmaCut fTPCEnabledSpeciesMask
        fTPCnSigmaBelow fTPCnSigmaAbove id lo hi
        (snd (SetTPCdEdxSigmaCut id code c))) /\
  (TOF_preset code = Some (lo, hi) ->
   fst (SetTOFSigmaCut id code c) = true
   /\ bandStored kTOFSigmaCut fTOFEnabledSpeciesMask
        fTOFnSigmaBelow fTOFnSigmaAbove id lo hi
        (snd (SetTOFSigmaCut id code c))).
Proof.
  intros (HIa & HIb & HPa & HPb & HFa & HFb) Hslot. unfold hasSlot in Hslot.
  split; [|split]; intro Hrow.
  - destruct (SetITSdEdxSigmaCut_preset id code lo hi Hrow)
      as (_ & _ & below & above & Hlo & Hhi & H).
    rewrite H. split; [reflexivity|]. cbn [snd].
    eapply bandStored_intro; eauto using ITS_enabled_update_fields;
      first [reflexivity | lia].
  - destruct (SetTPCdEdxSigmaCut_preset id code lo hi Hrow)
      as (_ & _ & below & above & Hlo & Hhi & H).
    rewrite H. split; [reflexivity|]. cbn [snd].
    eapply bandStored_intro; eauto using TPC_enabled_update_fields;
      first [reflexivity | lia].
  - destruct (SetTOFSigmaCut_preset id code lo hi Hrow)
      as (_ & _ & below & above & Hlo & Hhi & H).
    rewrite H. split; [reflexivity|]. cbn [snd].
    eapply bandStored_intro; eauto using TOF_enabled_update_fields;
      first [reflexivity | lia].
Qed.

Lemma band_setters_store_preset_witness :
  bandStored kITSdEdxSigmaCut fITSEnabledSpeciesMask
    fITSnSigmaBelow fITSnSigmaAbove kProton (-2.5) 4.0
    (snd (SetITSdEdxSigmaCut kProton 7 pionCut)).
Proof.
  assert (Halloc : allocated pionCut) by (repeat split).
  assert (Hslot : hasSlot kProton)
    by (unfold hasSlot, kNSigmaSlots, kSPECIESC; simpl; lia).
  destruct (band_setters_store_preset kProton 7 (-2.5) 4.0 pionCut Halloc Hslot)
    as (HITS & _).
  exact (proj2 (HITS eq_refl)).
Defined.

Lemma otherSpeciesKept_intro (mask : AliCSPIDCuts -> TBits.t)
    (below above : AliCSPIDCuts -> list Q)
    (update : AliCSPIDCuts -> AliCSPIDCuts) (id : EParticleType)
    (c c1 : AliCSPIDCuts) (x y : Q) :
  (mask (update c1) = mask c1
   /\ below (update c1) = below c1
   /\ above (update c1) = above c1) ->
  (mask c1 = TBits.SetBitNumber (bit id) (mask c)
   \/ mask c1 = TBits.ResetBitNumber (bit id) (mask c)) ->
  below c1 = <[index id := x]> (below c) ->
  above c1 = <[index id := y]> (above c) ->
  otherSpeciesKept mask below above id c (update c1).
Proof.
  intros (Hu & Hub & Hua) Hm Hb Ha id' _ Hne.
  rewrite Hu, Hub, Hua, Hb, Ha.
  rewrite !at_species_insert_ne by exact Hne.
  split; [|split; reflexivity].
  destruct Hm as [-> | ->].
  - rewrite TestBitNumber_Set, (bit_ne _ _ Hne). reflexivity.
  - rewrite TestBitNumber_Reset, (bit_ne _ _ Hne). apply andb_true_r.
Qed.

Lemma otherSpeciesKept_refl (mask : AliCSPIDCuts -> TBits.t)
    (below above : AliCSPIDCuts -> list Q) (id : EParticleType)
    (c : AliCSPIDCuts) :
  otherSpeciesKept mask below above id c c.
Proof. intros id' _ _. repeat split. Qed.

(** A band setter called with any code for a species that has a slot in the
    n-sigma arrays leaves the enable bit and the bounds of every other such
    species of its detector as they were. *)
Theorem band_setters_keep_other_species (id : EParticleType) (code : Z)
    (c : AliCSPIDCuts) :
  hasSlot id ->
  otherSpeciesKept fITSEnabledSpeciesMask fITSnSigmaBelow fITSnSigmaAbove
    id c (snd (SetITSdEdxSigmaCut id code c)) /\
  otherSpeciesKept fTPCEnabledSpeciesMask fTPCnSigmaBelow fTPCnSigmaAbove
    id c (snd (SetTPCdEdxSigmaCut id code c)) /\
  otherSpeciesKept fTOFEnabledSpeciesMask fTOFnSigmaBelow fTOFnSigmaAbove
    id c (snd (SetTOFSigmaCut id code c)).
Proof.
  intros _.
  split; [|split].
  - destruct (SetITSdEdxSigmaCut_cases id code)
      as [[_ H] | [[_ H] | (_ & lo & hi & H)]]; rewrite H; cbn [snd];
      [ apply otherSpeciesKept_refl
      | eapply otherSpeciesKept_intro
      | eapply otherSpeciesKept_intro ];
      first [ destruct (ITS_enabled_update_fields (ITS_passive id c))
                as (? & ? & ? & _); repeat split; assumption
            | destruct (ITS_enabled_update_fields (ITS_band id lo hi c))
                as (? & ? & ? & _); repeat split; assumption
            | right; reflexivity | left; reflexivity | reflexivity ].
  - destruct (SetTPCdEdxSigmaCut_cases id code)
      as [[_ H] | [[_ H] | (_ & lo & hi & H)]]; rewrite H; cbn [snd];
      [ apply otherSpeciesKept_refl
      | eapply otherSpeciesKept_intro
      | eapply otherSpeciesKept_intro ];
      first [ destruct (TPC_enabled_update_fields (TPC_passive id c))
                as (? & ? & ? & _); repeat split; assumption
            | destruct (TPC_enabled_update_fields (TPC_band id lo hi c))
                as (? & ? & ? & _); repeat split; assumption
            | right; reflexivity | left; reflexivity | reflexivity ].
  - destruct (SetTOFSigmaCut_cases id code)
      as [[_ H] | [[_ H] | (_ & lo & hi & H)]]; rewrite H; cbn [snd];
      [ apply otherSpeciesKept_refl
      | eapply otherSpeciesKept_intro
      | eapply otherSpeciesKept_intro ];
      first [ destruct (TOF_enabled_update_fields (TOF_passive id c))
                as (? & ? & ? & _); repeat split; assumption
            | destruct (TOF_enabled_update_fields (TOF_band id lo hi c))
                as (? & ? & ? & _); repeat split; assumption
            | right; reflexivity | left; reflexivity | reflexivity ].
Qed.

Lemma band_setters_keep_other_species_witness :
  TBits.TestBitNumber
    (fTPCEnabledSpeciesMask (snd (SetTPCdEdxSigmaCut kKaon 7 pionCut)))
    (bit kPion) = TBits.TestBitNumber (fTPCEnabledSpeciesMask pionCut) (bit kPion)
  /\ at_species (fTPCnSigmaBelow (snd (SetTPCdEdxSigmaCut kKaon 7 pionCut)))
       kPion = at_species (fTPCnSigmaBelow pionCut) kPion
  /\ at_species (fTPCnSigmaAbove (snd (SetTPCdEdxSigmaCut kKaon 7 pionCut)))
       kPion = at_species (fTPCnSigmaAbove pionCut) kPion.
Proof.
  assert (Hkaon : hasSlot kKaon)
    by (unfold hasSlot, kNSigmaSlots, kSPECIESC; simpl; lia).
  assert (Hpion : hasSlot kPion)
    by (unfold hasSlot, kNSigmaSlots, kSPECIESC; simpl; lia).
  apply (proj1 (proj2 (band_setters_keep_other_species kKaon 7 pionCut Hkaon))
           kPion Hpion).
  discriminate.
Defined.


(** ** The facade as a table of updates *)

Lemma SetCutAndParams_table (FormCutsString : list Z -> string)
    (paramID value : Z) (c : AliCSPIDCuts) :
  SetCutAndParams FormCutsString paramID value c =
  match cutsParametersIds_of paramID with
  | None => (false, c)
  | Some param =>
      match updateOf param value with
      | None => (false, c)
      | Some u =>
          (true,
           UpdateCutsString FormCutsString
             (with_fParameters
                (<[param_index param := value]> (fParameters (applyUpdate u c)))
                (applyUpdate u c)))
      end
  end.
Proof.
  unfold SetCutAndParams.
  destruct (cutsParametersIds_of paramID) as [param|]; [|reflexivity].
  destruct param; split_code value; reflexivity.
Qed.

Lemma updateOf_supported (param : cutsParametersIds) (value : Z) :
  supported param value <-> updateOf param value <> None.
Proof.
  destruct param; split_code value; cbn;
    (split; [first [discriminate | lia] | first [lia | congruence]]).
Qed.

Lemma updateOf_facadeUpdate (param : cutsParametersIds) (value : Z) (u : Update) :
  updateOf param value = Some u -> facadeUpdate u.
Proof.
  destruct param; split_code value; cbn; intro H;
    first [discriminate H | injection H as <-];
    cbn; unfold kSPECIES; repeat split; first [lia | Qcompare].
Qed.

(** [SetCutAndParams] accepts a call exactly when the identifier names a
    parameter and the value is one of the preset codes of that parameter,
    whatever the cut it is called on. *)
Theorem SetCutAndParams_accepts_iff (FormCutsString : list Z -> string)
    (paramID value : Z) (c : AliCSPIDCuts) :
  fst (SetCutAndParams FormCutsString paramID value c) = true <->
  exists param,
    cutsParametersIds_of paramID = Some param /\ supported param value.
Proof.
  rewrite SetCutAndParams_table.
  destruct (cutsParametersIds_of paramID) as [param|].
  - destruct (updateOf param value) as [u|] eqn:E; cbn [fst].
    + split; [|reflexivity]. intros _. exists param.
      split; [reflexivity|]. apply updateOf_supported. congruence.
    + split; [discriminate|]. intros (param' & Heq & Hsup).
      injection Heq as <-. apply updateOf_supported in Hsup. contradiction.
  - cbn [fst]. split; [discriminate|]. intros (param & Heq & _). discriminate.
Qed.

(** ** What the setters leave alone *)

Lemma sameButBit_update (cut : N) (e : TBits.t) (b : bool) :
  sameButBit cut e
    ((if b then TBits.SetBitNumber cut else TBits.ResetBitNumber cut) e).
Proof.
  intros k Hk.
  assert (Hne : N.eqb cut k = false) by (apply N.eqb_neq; congruence).
  destruct b.
  - rewrite TestBitNumber_Set, Hne. reflexivity.
  - rewrite TestBitNumber_Reset, Hne. apply andb_true_r.
Qed.

Lemma sameButBit_refl (cut : N) (e : TBits.t) : sameButBit cut e e.
Proof. intros k _. reflexivity. Qed.

(** Each setter changes the members of its own category only.  [SetPMin],
    with any code, changes at most [fMinP] and [SetPMax] at most [fMaxP]; a
    band setter, with any code and for a species that has a slot in the
    n-sigma arrays, changes at most the species mask and the two arrays of
    bounds of its detector and the detector's bit of the enabled cuts;
    [SetTPCTOFCut], with any code, changes at most the 2D species mask, the
    TOF required flag and the 2D bit of the enabled cuts. *)
Theorem setters_change_only_their_members (c : AliCSPIDCuts) :
  (forall pcode, exists q, snd (SetPMin pcode c) = with_fMinP q c) /\
  (forall pcode, exists q, snd (SetPMax pcode c) = with_fMaxP q c) /\
  (forall id code, hasSlot id -> exists e mask below above,
      snd (SetITSdEdxSigmaCut id code c)
      = with_fCutsEnabledMask e (with_ITS mask below above c)
      /\ sameButBit kITSdEdxSigmaCut (fCutsEnabledMask c) e) /\
  (forall id code, hasSlot id -> exists e mask below above,
      snd (SetTPCdEdxSigmaCut id code c)
      = with_fCutsEnabledMask e (with_TPC mask below above c)
      /\ sameButBit kTPCdEdxSigmaCut (fCutsEnabledMask c) e) /\
  (forall id code, hasSlot id -> exists e mask below above,
      snd (SetTOFSigmaCut id code c)
      = with_fCutsEnabledMask e (with_TOF mask below above c)
      /\ sameButBit kTOFSigmaCut (fCutsEnabledMask c) e) /\
  (forall code, exists e required mask,
      snd (SetTPCTOFCut code c)
      = with_fCutsEnabledMask e
          (with_fTOFRequired required
             (with_fTPCTOF2DEnabledSpeciesMask mask c))
      /\ sameButBit kTPCTOF2DSigmaCut (fCutsEnabledMask c) e).
Proof.
  split; [|split; [|split; [|split; [|split]]]].
  - intro pcode. destruct (SetPMin_cases pcode) as [[_ H] | (_ & q & H)];
      rewrite H; cbn [snd]; [exists (fMinP c); destruct c | exists q];
      reflexivity.
  - intro pcode. destruct (SetPMax_cases pcode) as [[_ H] | (_ & q & H)];
      rewrite H; cbn [snd]; [exists (fMaxP c); destruct c | exists q];
      reflexivity.
  - intros id code _.
    destruct (SetITSdEdxSigmaCut_cases id code)
      as [[_ H] | [[_ H] | (_ & lo & hi & H)]]; rewrite H; cbn [snd].
    + exists (fCutsEnabledMask c), (fITSEnabledSpeciesMask c),
        (fITSnSigmaBelow c), (fITSnSigmaAbove c).
      split; [destruct c; reflexivity | apply sameButBit_refl].
    + rewrite ITS_enabled_update_eq. unfold ITS_passive.
      do 4 eexists. split; [reflexivity | apply sameButBit_update].
    + rewrite ITS_enabled_update_eq. unfold ITS_band.
      do 4 eexists. split; [reflexivity | apply sameButBit_update].
  - intros id code _.
    destruct (SetTPCdEdxSigmaCut_cases id code)
      as [[_ H] | [[_ H] | (_ & lo & hi & H)]]; rewrite H; cbn [snd].
    + exists (fCutsEnabledMask c), (fTPCEnabledSpeciesMask c),
        (fTPCnSigmaBelow c), (fTPCnSigmaAbove c).
      split; [destruct c; reflexivity | apply sameButBit_refl].
    + rewrite TPC_enabled_update_eq. unfold TPC_passive.
      do 4 eexists. split; [reflexivity | apply sameButBit_update].
    + rewrite TPC_enabled_update_eq. unfold TPC_band.
      do 4 eexists. split; [reflexivity | apply sameButBit_update].
  - intros id code _.
    destruct (SetTOFSigmaCut_cases id code)
      as [[_ H] | [[_ H] | (_ & lo & hi & H)]]; rewrite H; cbn [snd].
    + exists (fCutsEnabledMask c), (fTOFEnabledSpeciesMask c),
        (fTOFnSigmaBelow c), (fTOFnSigmaAbove c).
      split; [destruct c; reflexivity | apply sameButBit_refl].
    + rewrite TOF_enabled_update_eq. unfold TOF_passive.
      do 4 eexists. split; [reflexivity | apply sameButBit_update].
    + rewrite TOF_enabled_update_eq. unfold TOF_band.
      do 4 eexists. split; [reflexivity | apply sameButBit_update].
  - intro code.
    destruct (SetTPCTOFCut_cases code)
      as [[_ H] | (_ & required & [H | H])]; rewrite H; cbn [snd].
    + exists (fCutsEnabledMask c), (fTOFRequired c),
        (fTPCTOF2DEnabledSpeciesMask c).
      split; [destruct c; reflexivity | apply sameButBit_refl].
    + rewrite TPCTOF2D_enabled_update_eq. unfold TPCTOF2D_reset.
      do 3 eexists.
      split; [destruct c; reflexivity | apply sameButBit_update].
    + rewrite TPCTOF2D_enabled_update_eq.
      unfold TPCTOF2D_reset, TPCTOF2D_intersect.
      do 3 eexists.
      split; [destruct c; reflexivity | apply sameButBit_update].
Qed.

Lemma setters_change_only_their_members_witness :
  exists e mask below above,
    snd (SetTPCdEdxSigmaCut kKaon 7 pionCut)
    = with_fCutsEnabledMask e (with_TPC mask below above pionCut)
    /\ sameButBit kTPCdEdxSigmaCut (fCutsEnabledMask pionCut) e.
Proof.
  apply (proj1 (proj2 (proj2 (proj2
           (setters_change_only_their_members pionCut))))).
  unfold hasSlot, kNSigmaSlots, kSPECIESC. simpl. lia.
Defined.


(** ** Invariants of a configured cut *)

Lemma configure_invariant (FormCutsString : list Z -> string)
    (I : AliCSPIDCuts -> Prop) :
  (forall paramID value c,
      I c -> I (snd (SetCutAndParams FormCutsString paramID value c))) ->
  forall script c, I c -> I (configure FormCutsString script c).
Proof.
  intros Hstep script. unfold configure.
  induction script as [|call script IH]; intros c Hc; cbn [fold_left].
  - exact Hc.
  - apply IH, Hstep, Hc.
Qed.

Lemma SetCutAndParams_invariant (FormCutsString : list Z -> string)
    (I : AliCSPIDCuts -> Prop) :
  (forall u c, facadeUpdate u -> I c -> I (applyUpdate u c)) ->
  (forall l s c, I c -> I (with_fCutsString s (with_fParameters l c))) ->
  forall paramID value c,
    I c -> I (snd (SetCutAndParams FormCutsString paramID value c)).
Proof.
  intros Hupd Hstore paramID value c Hc.
  rewrite SetCutAndParams_table.
  destruct (cutsParametersIds_of paramID) as [param|]; [|exact Hc].
  destruct (updateOf param value) as [u|] eqn:E; [|exact Hc].
  cbn [snd]. unfold UpdateCutsString.
  apply Hstore, Hupd, Hc. exact (updateOf_facadeUpdate _ _ _ E).
Qed.

Ltac members_in H :=
  cbv [fParameters fCutsString fMinP fMaxP fTOFRequired fTPCTOF2Dcut
       fITSnSigmaAbove fITSnSigmaBelow fTPCnSigmaAbove fTPCnSigmaBelow
       fTOFnSigmaAbove fTOFnSigmaBelow fCutsEnabledMask fCutsActivatedMask
       fITSEnabledSpeciesMask fTPCEnabledSpeciesMask fTOFEnabledSpeciesMask
       fTPCTOF2DEnabledSpeciesMask fTargetSpecies] in H.

(** The cases of an update, each on a cut given by its members. *)
Ltac update_cases u c :=
  destruct u as [?q|?q|?id [[?lo ?hi]|]|?id [[?lo ?hi]|]|?id [[?lo ?hi]|]
                |?required [|]];
  destruct c; cbn [applyUpdate]; unfold_updates.

Ltac test_bits :=
  rewrite ?TestBitNumber_Set, ?TestBitNumber_Reset;
  cbv [kITSdEdxSigmaCut kTPCdEdxSigmaCut kTOFSigmaCut kTPCTOF2DSigmaCut];
  cbn [N.eqb Pos.eqb negb andb orb];
  rewrite ?andb_true_r, ?andb_false_r.

Lemma applyUpdate_enabledConsistent (u : Update) (c : AliCSPIDCuts) :
  enabledConsistent c -> enabledConsistent (applyUpdate u c).
Proof.
  unfold enabledConsistent. intro H.
  update_cases u c; members_in H; destruct H as (HI & HP & HF & H2);
    rewrite ?CountBits_Set; split_enabled; test_bits; auto.
Qed.

Lemma stored_members_invariant (I : AliCSPIDCuts -> Prop) :
  (forall c c',
      fMinP c' = fMinP c -> fMaxP c' = fMaxP c ->
      fTOFRequired c' = fTOFRequired c -> fTPCTOF2Dcut c' = fTPCTOF2Dcut c ->
      fITSnSigmaAbove c' = fITSnSigmaAbove c ->
      fITSnSigmaBelow c' = fITSnSigmaBelow c ->
      fTPCnSigmaAbove c' = fTPCnSigmaAbove c ->
      fTPCnSigmaBelow c' = fTPCnSigmaBelow c ->
      fTOFnSigmaAbove c' = fTOFnSigmaAbove c ->
      fTOFnSigmaBelow c' = fTOFnSigmaBelow c ->
      fCutsEnabledMask c' = fCutsEnabledMask c ->
      fCutsActivatedMask c' = fCutsActivatedMask c ->
      fITSEnabledSpeciesMask c' = fITSEnabledSpeciesMask c ->
      fTPCEnabledSpeciesMask c' = fTPCEnabledSpeciesMask c ->
      fTOFEnabledSpeciesMask c' = fTOFEnabledSpeciesMask c ->
      fTPCTOF2DEnabledSpeciesMask c' = fTPCTOF2DEnabledSpeciesMask c ->
      fTargetSpecies c' = fTargetSpecies c ->
      I c -> I c') ->
  forall l s c, I c -> I (with_fCutsString s (with_fParameters l c)).
Proof.
  intros H l s c. apply H; reflexivity.
Qed.

(** The bit of each cut category in [fCutsEnabledMask] says whether the
    species mask of the category counts an enabled species: this holds for
    a constructed cut and every sequence of [SetCutAndParams] calls keeps
    it. *)
Theorem configured_enabled_bits_consistent (FormCutsString : list Z -> string) :
  (forall target, enabledConsistent (new_AliCSPIDCuts target)) /\
  (forall script c,
      enabledConsistent c ->
      enabledConsistent (configure FormCutsString script c)).
Proof.
  split.
  - intro target. repeat split.
  - apply configure_invariant. apply SetCutAndParams_invariant.
    + intros u c _. apply applyUpdate_enabledConsistent.
    + apply stored_members_invariant.
      unfold enabledConsistent. intros c c'. intros.
      repeat match goal with H : _ c' = _ c |- _ => rewrite H; clear H end.
      assumption.
Qed.

Lemma configured_enabled_bits_consistent_witness :
  enabledConsistent
    (configure digitsCutsString [(9, 3); (14, 2); (17, 2); (9, 0)]
       (new_AliCSPIDCuts kPion)).
Proof.
  apply (proj2 (configured_enabled_bits_consistent digitsCutsString)).
  apply (proj1 (configured_enabled_bits_consistent digitsCutsString)).
Defined.

Lemma applyUpdate_fixed_members (u : Update) (c : AliCSPIDCuts) :
  fTargetSpecies (applyUpdate u c) = fTargetSpecies c
  /\ fTPCTOF2Dcut (applyUpdate u c) = fTPCTOF2Dcut c
  /\ fCutsActivatedMask (applyUpdate u c) = fCutsActivatedMask c.
Proof.
  update_cases u c; repeat split.
Qed.

(** No sequence of [SetCutAndParams] calls changes the target species, the
    [fTPCTOF2Dcut] flag or the mask of activated cuts.  In particular
    [fTPCTOF2Dcut] is false for every cut configured from a constructed
    one, also after the combined TPC+TOF mode was set to a 2D code. *)
Theorem configure_keeps_fixed_members (FormCutsString : list Z -> string)
    (script : list (Z * Z)) (c : AliCSPIDCuts) (target : EParticleType) :
  fTargetSpecies (configure FormCutsString script c) = fTargetSpecies c
  /\ fTPCTOF2Dcut (configure FormCutsString script c) = fTPCTOF2Dcut c
  /\ fCutsActivatedMask (configure FormCutsString script c)
     = fCutsActivatedMask c
  /\ fTPCTOF2Dcut
       (configure FormCutsString script (new_AliCSPIDCuts target)) = false.
Proof.
  assert (H : forall c0,
             fTargetSpecies (configure FormCutsString script c0)
             = fTargetSpecies c0
             /\ fTPCTOF2Dcut (configure FormCutsString script c0)
                = fTPCTOF2Dcut c0
             /\ fCutsActivatedMask (configure FormCutsString script c0)
                = fCutsActivatedMask c0).
  { intro c0.
    pose (I := fun c1 =>
                 fTargetSpecies c1 = fTargetSpecies c0
                 /\ fTPCTOF2Dcut c1 = fTPCTOF2Dcut c0
                 /\ fCutsActivatedMask c1 = fCutsActivatedMask c0).
    apply (configure_invariant FormCutsString I); [|repeat split].
    apply (SetCutAndParams_invariant FormCutsString I).
    - intros u c1 _ (Ht & H2 & Ha).
      destruct (applyUpdate_fixed_members u c1) as (Ht' & H2' & Ha').
      unfold I. rewrite Ht', H2', Ha'. repeat split; assumption.
    - intros l s c1 Hc1. exact Hc1. }
  destruct (H c) as (Ht & H2 & Ha).
  split; [exact Ht|]. split; [exact H2|]. split; [exact Ha|].
  rewrite (proj1 (proj2 (H (new_AliCSPIDCuts target)))). reflexivity.
Qed.

Lemma saneBandAt_band (mask : TBits.t) (below above : list Q)
    (id id0 : EParticleType) (lo hi : Q) :
  (index id < length below)%nat ->
  (index id < length above)%nat ->
  saneBand (Some (lo, hi)) ->
  saneBandAt mask below above id0 ->
  saneBandAt (TBits.SetBitNumber (bit id) mask)
    (<[index id := lo]> below) (<[index id := hi]> above) id0.
Proof.
  intros Hlb Hla (H1 & H2 & H3 & H4) [Hle Hen]. unfold saneBandAt.
  destruct (AliPID.eqb id0 id) eqn:E.
  - apply AliPID_eqb_eq in E. subst id0.
    rewrite !at_species_insert by assumption.
    split; [|intros _; repeat split; assumption].
    apply Qlt_le_weak. exact (Qlt_trans _ _ _ H2 H3).
  - assert (Hne : id0 <> id).
    { intros ->. unfold AliPID.eqb in E. rewrite Nat.eqb_refl in E.
      discriminate. }
    rewrite !at_species_insert_ne by exact Hne.
    rewrite TestBitNumber_Set, (bit_ne _ _ Hne). split; assumption.
Qed.

Lemma saneBandAt_passive (mask : TBits.t) (below above : list Q)
    (id id0 : EParticleType) :
  (index id < length below)%nat ->
  (index id < length above)%nat ->
  saneBandAt mask below above id0 ->
  saneBandAt (TBits.ResetBitNumber (bit id) mask)
    (<[index id := (-100.0)%Q]> below) (<[index id := 100.0%Q]> above) id0.
Proof.
  intros Hlb Hla [Hle Hen]. unfold saneBandAt.
  destruct (AliPID.eqb id0 id) eqn:E.
  - apply AliPID_eqb_eq in E. subst id0.
    rewrite !at_species_insert by assumption.
    rewrite TestBitNumber_Reset, N.eqb_refl, andb_false_r.
    split; [Qcompare | discriminate].
  - assert (Hne : id0 <> id).
    { intros ->. unfold AliPID.eqb in E. rewrite Nat.eqb_refl in E.
      discriminate. }
    rewrite !at_species_insert_ne by exact Hne.
    rewrite TestBitNumber_Reset, (bit_ne _ _ Hne), andb_true_r.
    split; assumption.
Qed.

Lemma applyUpdate_allocated (u : Update) (c : AliCSPIDCuts) :
  allocated c -> allocated (applyUpdate u c).
Proof.
  unfold allocated. intro H.
  update_cases u c; members_in H; rewrite ?length_insert; exact H.
Qed.

Lemma applyUpdate_bandsSane (u : Update) (c : AliCSPIDCuts) :
  facadeUpdate u -> allocated c -> bandsSane c -> bandsSane (applyUpdate u c).
Proof.
  intros Hu Halloc Hsane id0 Hslot.
  specialize (Hsane id0 Hslot). unfold allocated in Halloc.
  unfold kNSigmaSlots, kSPECIESC in Halloc.
  destruct u as [?q|?q|id [[lo hi]|]|id [[lo hi]|]|id [[lo hi]|]
                |?required [|]];
    cbn [facadeUpdate] in Hu; unfold kSPECIES in Hu;
    destruct c; cbn [applyUpdate]; unfold_updates;
    members_in Halloc; members_in Hsane;
    destruct Halloc as (HIa & HIb & HPa & HPb & HFa & HFb);
    destruct Hsane as (HI & HP & HF);
    try exact (conj HI (conj HP HF));
    destruct Hu as [Hid Hband];
    (split; [|split]); try assumption;
    first [ apply saneBandAt_band | apply saneBandAt_passive ];
    first [ assumption | lia ].
Qed.

(** For a constructed cut and after every sequence of [SetCutAndParams]
    calls, the n-sigma arrays keep their bound, every slot has its lower
    bound not above its upper bound, and the band of every enabled species
    is a proper interval around the line: [-10 <= below < 0 < above <= 10]. *)
Theorem configured_bands_sane (FormCutsString : list Z -> string) :
  (forall target,
      allocated (new_AliCSPIDCuts target)
      /\ bandsSane (new_AliCSPIDCuts target)) /\
  (forall script c,
      allocated c /\ bandsSane c ->
      allocated (configure FormCutsString script c)
      /\ bandsSane (configure FormCutsString script c)).
Proof.
  split.
  - intro target. split; [repeat split|].
    intros id Hslot. unfold hasSlot, kNSigmaSlots, kSPECIESC in Hslot.
    destruct id; cbn in Hslot; try lia;
      repeat split; first [Qcompare | discriminate].
  - pose (I := fun c => allocated c /\ bandsSane c).
    apply (configure_invariant FormCutsString I).
    apply (SetCutAndParams_invariant FormCutsString I).
    + intros u c Hu [Ha Hs]. split.
      * apply applyUpdate_allocated, Ha.
      * apply applyUpdate_bandsSane; assumption.
    + intros l s c Hc. exact Hc.
Qed.

Lemma configured_bands_sane_witness :
  bandsSane
    (configure digitsCutsString [(9, 3); (10, 7); (14, 2)]
       (new_AliCSPIDCuts kPion)).
Proof.
  apply (proj2 (configured_bands_sane digitsCutsString)).
  apply (proj1 (configured_bands_sane digitsCutsString)).
Defined.

Lemma onlyFacadeSpecies_Set (mask : TBits.t) (id : EParticleType) :
  (index id < kSPECIES)%nat ->
  onlyFacadeSpecies mask ->
  onlyFacadeSpecies (TBits.SetBitNumber (bit id) mask).
Proof.
  intros Hid Hm n Hn. rewrite TestBitNumber_Set, (Hm n Hn), orb_false_r.
  apply N.eqb_neq. unfold bit. lia.
Qed.

Lemma onlyFacadeSpecies_Reset (mask : TBits.t) (n0 : N) :
  onlyFacadeSpecies mask ->
  onlyFacadeSpecies (TBits.ResetBitNumber n0 mask).
Proof.
  intros Hm n Hn. rewrite TestBitNumber_Reset, (Hm n Hn). reflexivity.
Qed.

Lemma onlyFacadeSpecies_and (a b : TBits.t) :
  onlyFacadeSpecies a -> onlyFacadeSpecies (TBits.and a b).
Proof.
  intros Ha n Hn. unfold TBits.and, TBits.TestBitNumber.
  rewrite N.land_spec. fold (TBits.TestBitNumber a n). rewrite (Ha n Hn).
  reflexivity.
Qed.

Lemma onlyFacadeSpecies_empty : onlyFacadeSpecies TBits.ResetAllBits.
Proof. intros n _. apply N.bits_0. Qed.

Lemma applyUpdate_masksOfFacade (u : Update) (c : AliCSPIDCuts) :
  facadeUpdate u -> masksOfFacade c -> masksOfFacade (applyUpdate u c).
Proof.
  unfold masksOfFacade. intros Hu H.
  destruct u as [?q|?q|id [[lo hi]|]|id [[lo hi]|]|id [[lo hi]|]
                |?required [|]];
    cbn [facadeUpdate] in Hu;
    destruct c; cbn [applyUpdate]; unfold_updates; members_in H;
    destruct H as (HI & HP & HF & H2);
    repeat split;
    first [ assumption
          | apply onlyFacadeSpecies_Set; [apply Hu | assumption]
          | apply onlyFacadeSpecies_Reset; assumption
          | apply onlyFacadeSpecies_and; assumption
          | apply onlyFacadeSpecies_empty ].
Qed.

(** For a constructed cut and after every sequence of [SetCutAndParams]
    calls, the four species masks hold bits of the five species electron,
    muon, pion, kaon and proton only. *)
Theorem configured_masks_of_facade (FormCutsString : list Z -> string) :
  (forall target, masksOfFacade (new_AliCSPIDCuts target)) /\
  (forall script c,
      masksOfFacade c -> masksOfFacade (configure FormCutsString script c)).
Proof.
  split.
  - intro target. repeat split; apply onlyFacadeSpecies_empty.
  - apply configure_invariant. apply SetCutAndParams_invariant.
    + intros u c. apply applyUpdate_masksOfFacade.
    + intros l s c Hc. exact Hc.
Qed.

Lemma configured_masks_of_facade_witness :
  masksOfFacade
    (configure digitsCutsString [(9, 3); (14, 2); (17, 3)]
       (new_AliCSPIDCuts kPion)).
Proof.
  apply (proj2 (configured_masks_of_facade digitsCutsString)).
  apply (proj1 (configured_masks_of_facade digitsCutsString)).
Defined.

(** ** The parameter store *)

Lemma applyUpdate_fParameters (u : Update) (c : AliCSPIDCuts) :
  fParameters (applyUpdate u c) = fParameters c
  /\ fCutsString (applyUpdate u c) = fCutsString c.
Proof.
  update_cases u c; split; reflexivity.
Qed.

Lemma param_index_inj (a b : cutsParametersIds) :
  param_index a = param_index b -> a = b.
Proof.
  destruct a, b; cbn; intro H; first [reflexivity | discriminate H].
Qed.

Lemma param_index_bound (param : cutsParametersIds) :
  (param_index param < kNCutsParameters)%nat.
Proof.
  destruct param; cbn; unfold kNCutsParameters; lia.
Qed.

Lemma SetCutAndParams_fParameters (FormCutsString : list Z -> string)
    (paramID value : Z) (c : AliCSPIDCuts) :
  (fst (SetCutAndParams FormCutsString paramID value c) = false
   /\ snd (SetCutAndParams FormCutsString paramID value c) = c)
  \/ (exists param,
         cutsParametersIds_of paramID = Some param
         /\ supported param value
         /\ fst (SetCutAndParams FormCutsString paramID value c) = true
         /\ fParameters (snd (SetCutAndParams FormCutsString paramID value c))
            = <[param_index param := value]> (fParameters c)
         /\ fCutsString (snd (SetCutAndParams FormCutsString paramID value c))
            = FormCutsString (<[param_index param := value]> (fParameters c))).
Proof.
  rewrite SetCutAndParams_table.
  destruct (cutsParametersIds_of paramID) as [param|]; [|left; split; reflexivity].
  destruct (updateOf param value) as [u|] eqn:E; [|left; split; reflexivity].
  right. exists param. split; [reflexivity|].
  split; [apply updateOf_supported; congruence|].
  cbn [fst snd]. unfold UpdateCutsString.
  rewrite (proj1 (applyUpdate_fParameters u c)).
  repeat split.
Qed.

(** An accepted [SetCutAndParams] call stores the value under its
    parameter, leaves every other stored parameter as it was, and the cuts
    string is the rendering of the parameter store after the call. *)
Theorem SetCutAndParams_stores_value (FormCutsString : list Z -> string)
    (paramID value : Z) (param : cutsParametersIds) (c : AliCSPIDCuts) :
  length (fParameters c) = kNCutsParameters ->
  cutsParametersIds_of paramID = Some param ->
  fst (SetCutAndParams FormCutsString paramID value c) = true ->
  fParameters (snd (SetCutAndParams FormCutsString paramID value c))
    !! param_index param = Some value
  /\ (forall other,
         other <> param ->
         fParameters (snd (SetCutAndParams FormCutsString paramID value c))
           !! param_index other
         = fParameters c !! param_index other)
  /\ fCutsString (snd (SetCutAndParams FormCutsString paramID value c))
     = FormCutsString
         (fParameters (snd (SetCutAndParams FormCutsString paramID value c))).
Proof.
  intros Hlen Hparam Hok.
  destruct (SetCutAndParams_fParameters FormCutsString paramID value c)
    as [[Hfail _] | (param' & Hparam' & _ & _ & Hstore & Hstring)];
    [congruence|].
  assert (param' = param) by congruence. subst param'.
  rewrite Hstring, Hstore.
  split; [|split; [|reflexivity]].
  - apply list_lookup_insert_eq. rewrite Hlen. apply param_index_bound.
  - intros other Hne. apply list_lookup_insert_ne.
    intro H. apply Hne. symmetry. apply param_index_inj, H.
Qed.

Lemma SetCutAndParams_stores_value_witness :
  fParameters (snd (SetCutAndParams digitsCutsString 9 3 pionCut)) !! 9%nat
  = Some 3.
Proof.
  apply (SetCutAndParams_stores_value digitsCutsString 9 3
           kTPCdEdxSigmaCutParam_pi pionCut);
    reflexivity.
Defined.

(** The parameter store of a constructed cut has one entry per parameter
    identifier, each a preset code its parameter supports, and every
    sequence of [SetCutAndParams] calls keeps it so: a rejected value never
    reaches the store. *)
Theorem configured_parameters_supported (FormCutsString : list Z -> string) :
  (forall target, parametersSupported (new_AliCSPIDCuts target)) /\
  (forall script c,
      parametersSupported c ->
      parametersSupported (configure FormCutsString script c)).
Proof.
  split.
  - intro target. split; [reflexivity|].
    intro param. exists 0. split; [destruct param; reflexivity|].
    destruct param; cbn; lia.
  - apply configure_invariant.
    intros paramID value c [Hlen Hall].
    destruct (SetCutAndParams_fParameters FormCutsString paramID value c)
      as [[_ ->] | (param & _ & Hsup & _ & Hstore & _)];
      [split; assumption|].
    unfold parametersSupported. rewrite Hstore, length_insert.
    split; [exact Hlen|].
    intro other.
    destruct (Nat.eq_dec (param_index param) (param_index other)) as [Heq|Hne].
    + apply param_index_inj in Heq. subst other. exists value.
      split; [|exact Hsup].
      apply list_lookup_insert_eq. rewrite Hlen. apply param_index_bound.
    + destruct (Hall other) as (v & Hv & Hs). exists v.
      split; [|exact Hs].
      rewrite list_lookup_insert_ne by exact Hne. exact Hv.
Qed.

Lemma configured_parameters_supported_witness :
  parametersSupported
    (configure digitsCutsString [(9, 3); (9, 12); (40, 1); (17, 2)]
       (new_AliCSPIDCuts kPion)).
Proof.
  apply (proj2 (configured_parameters_supported digitsCutsString)).
  apply (proj1 (configured_parameters_supported digitsCutsString)).
Defined.

(** ** The momentum window of two preset codes *)

Lemma momentumGate_nonempty (c : AliCSPIDCuts) :
  (exists p, momentumGate c p = true) <-> (fMinP c <= fMaxP c)%Q.
Proof.
  split.
  - intros [p Hp]. apply momentumGate_range in Hp.
    exact (Qle_trans _ _ _ (proj1 Hp) (proj2 Hp)).
  - intro Hle. exists (fMinP c). apply momentumGate_range.
    split; [apply Qle_refl | exact Hle].
Qed.

Lemma empty_window_rejects (mc : MCTruth) (c : AliCSPIDCuts) (trk : AliVTrack) :
  ~ (fMinP c <= fMaxP c)%Q -> IsTrueTrackAccepted mc c trk = false.
Proof.
  intro Hempty. unfold IsTrueTrackAccepted.
  destruct (GetLabel trk <? 0); [reflexivity|].
  rewrite IsTrueTrackAccepted_index_eq.
  destruct (truthParticle mc (GetLabel trk)) as [particle|]; [|reflexivity].
  destruct (momentumGate c (AliVParticle.P particle)) eqn:E; [|reflexivity].
  exfalso. apply Hempty. apply momentumGate_nonempty. eauto.
Qed.

Ltac code_0_to_9 code :=
  let H := fresh in
  assert (H : code = 0 \/ code = 1 \/ code = 2 \/ code = 3 \/ code = 4
              \/ code = 5 \/ code = 6 \/ code = 7 \/ code = 8 \/ code = 9)
    by lia;
  repeat (destruct H as [H | H]; [subst code | ]); [ .. | subst code].

Lemma IsTrueTrackAccepted_in_window (mc : MCTruth) (c : AliCSPIDCuts)
    (trk : AliVTrack) (particle : AliVParticle.t) :
  0 <= GetLabel trk ->
  truthParticle mc (GetLabel trk) = Some particle ->
  (anyCutEnabled c = true -> GetTrueSpecies particle = fTargetSpecies c) ->
  (IsTrueTrackAccepted mc c trk = true <->
   (fMinP c <= AliVParticle.P particle
    /\ AliVParticle.P particle <= fMaxP c)%Q).
Proof.
  intros Hlabel Hpart Hspecies. unfold IsTrueTrackAccepted.
  destruct (Z.ltb_spec (GetLabel trk) 0) as [Hneg|_]; [lia|].
  rewrite IsTrueTrackAccepted_index_eq, Hpart, andb_true_iff,
    momentumGate_range.
  split; [tauto|]. intros Hwin. split; [exact Hwin|].
  destruct (anyCutEnabled c); [|reflexivity].
  rewrite (Hspecies eq_refl). simpl. apply AliPID_eqb_eq. reflexivity.
Qed.

Lemma momentum_codes_bounds (pmin pmax : Z) (lo hi : Q) (c : AliCSPIDCuts) :
  PMin_preset pmin = Some lo -> PMax_preset pmax = Some hi ->
  fMinP (snd (SetPMax pmax (snd (SetPMin pmin c)))) = lo
  /\ fMaxP (snd (SetPMax pmax (snd (SetPMin pmin c)))) = hi.
Proof.
  intros Hlo Hhi.
  split_code pmin; cbn in Hlo; first [discriminate Hlo | injection Hlo as <-];
    split_code pmax; cbn in Hhi;
    first [discriminate Hhi | injection Hhi as <-];
    split; reflexivity.
Qed.

(** The minimum and the maximum momentum are set independently and no
    setter checks one against the other.  For a supported minimum code and
    a supported maximum code, in either order of the calls: a true track
    whose particle passes the species test is accepted when its momentum
    lies between the two preset values, a margin of 0.001 away from each;
    a true track with a momentum beyond a preset value by more than the
    margin is rejected; such momenta exist when the maximum code is 0 or at
    least 6 or the minimum code is at most the maximum code; and when the
    maximum code is 1 to 5 and the minimum code exceeds it by two or more,
    the window is empty and no true track is accepted. *)
Theorem momentum_codes_window (pmin pmax : Z) (lo hi : Q) (c : AliCSPIDCuts) :
  PMin_preset pmin = Some lo -> PMax_preset pmax = Some hi ->
  snd (SetPMin pmin (snd (SetPMax pmax c)))
  = snd (SetPMax pmax (snd (SetPMin pmin c)))
  /\ (forall mc trk particle,
         0 <= GetLabel trk ->
         truthParticle mc (GetLabel trk) = Some particle ->
         (anyCutEnabled (snd (SetPMax pmax (snd (SetPMin pmin c)))) = true ->
          GetTrueSpecies particle
          = fTargetSpecies (snd (SetPMax pmax (snd (SetPMin pmin c))))) ->
         (lo + roundingMargin <= AliVParticle.P particle
          /\ AliVParticle.P particle <= hi - roundingMargin)%Q ->
         IsTrueTrackAccepted mc (snd (SetPMax pmax (snd (SetPMin pmin c)))) trk
         = true)
  /\ (forall mc trk particle,
         truthParticle mc (GetLabel trk) = Some particle ->
         (AliVParticle.P particle < lo - roundingMargin
          \/ hi + roundingMargin < AliVParticle.P particle)%Q ->
         IsTrueTrackAccepted mc (snd (SetPMax pmax (snd (SetPMin pmin c)))) trk
         = false)
  /\ (pmax = 0 \/ 6 <= pmax \/ pmin <= pmax ->
      (lo + roundingMargin <= hi - roundingMargin)%Q)
  /\ (1 <= pmax <= 5 -> pmax + 2 <= pmin ->
      forall mc trk,
        IsTrueTrackAccepted mc (snd (SetPMax pmax (snd (SetPMin pmin c)))) trk
        = false).
Proof.
  intros Hlo Hhi.
  destruct (momentum_codes_bounds pmin pmax lo hi c Hlo Hhi) as [Emin Emax].
  assert (Hmargin : (0 <= roundingMargin)%Q) by Qcompare.
  split; [|split; [|split; [|split]]].
  - clear Emin Emax.
    split_code pmin; cbn in Hlo; try discriminate Hlo;
      split_code pmax; cbn in Hhi; try discriminate Hhi; reflexivity.
  - intros mc trk particle Hlabel Hpart Hspecies [Hge Hle].
    apply (IsTrueTrackAccepted_in_window _ _ _ _ Hlabel Hpart Hspecies).
    rewrite Emin, Emax. split.
    + apply Qle_trans with (y := (lo + roundingMargin)%Q); [|exact Hge].
      rewrite <- (Qplus_0_r lo) at 1. apply Qplus_le_r. exact Hmargin.
    + apply Qle_trans with (y := (hi - roundingMargin)%Q); [exact Hle|].
      rewrite <- (Qplus_0_r hi) at 2. apply Qplus_le_r.
      apply (Qopp_le_compat 0 roundingMargin). exact Hmargin.
  - intros mc trk particle Hpart Hout.
    unfold IsTrueTrackAccepted.
    destruct (GetLabel trk <? 0); [reflexivity|].
    rewrite IsTrueTrackAccepted_index_eq, Hpart.
    apply andb_false_iff. left.
    apply not_true_is_false. rewrite momentumGate_range, Emin, Emax.
    intros [Hge Hle]. destruct Hout as [Hout|Hout].
    + apply (Qlt_not_le _ _ Hout).
      apply Qle_trans with (y := lo); [|exact Hge].
      rewrite <- (Qplus_0_r lo) at 2. apply Qplus_le_r.
      apply (Qopp_le_compat 0 roundingMargin). exact Hmargin.
    + apply (Qlt_not_le _ _ Hout).
      apply Qle_trans with (y := hi); [exact Hle|].
      rewrite <- (Qplus_0_r hi) at 1. apply Qplus_le_r. exact Hmargin.
  - clear Emin Emax. intros Hcodes.
    split_code pmin; cbn in Hlo; first [discriminate Hlo | injection Hlo as <-];
      split_code pmax; cbn in Hhi;
      first [discriminate Hhi | injection Hhi as <-];
      first [Qcompare | exfalso; lia].
  - intros Hmax Hmin mc trk. apply empty_window_rejects.
    rewrite Emin, Emax. clear Emin Emax.
    split_code pmin; cbn in Hlo; first [discriminate Hlo | injection Hlo as <-];
      split_code pmax; cbn in Hhi;
      first [discriminate Hhi | injection Hhi as <-];
      first [Qcompare | exfalso; lia].
Qed.

Lemma momentum_codes_window_witness :
  IsTrueTrackAccepted slowPionAOD (snd (SetPMax 3 (snd (SetPMin 2 pionCut))))
    (mkTrack 3)
  = true
  /\ IsTrueTrackAccepted onePionESD
       (snd (SetPMax 3 (snd (SetPMin 2 pionCut)))) (mkTrack 7)
     = false
  /\ IsTrueTrackAccepted onePionESD
       (snd (SetPMax 1 (snd (SetPMin 9 pionCut)))) (mkTrack 7)
     = false.
Proof.
  pose proof (momentum_codes_window 2 3 (inject_Z (2 + 1) / 10.0) 0.5 pionCut
                eq_refl eq_refl) as (_ & Hin & Hout & _).
  pose proof (momentum_codes_window 9 1 (inject_Z (9 + 1) / 10.0) 0.3 pionCut
                eq_refl eq_refl) as (_ & _ & _ & _ & Hempty).
  split; [|split].
  - apply (Hin slowPionAOD (mkTrack 3) (AliVParticle.mk 0.4 211)).
    + simpl. lia.
    + reflexivity.
    + intros _. reflexivity.
    + split; vm_compute; discriminate.
  - apply (Hout onePionESD (mkTrack 7) (AliVParticle.mk 1.5 211)).
    + reflexivity.
    + right. vm_compute. reflexivity.
  - apply Hempty; lia.
Defined.

(** ** The 2D species mask is a snapshot *)

Lemma applyUpdate_band_keeps_2D (u : Update) (c : AliCSPIDCuts) :
  match u with UpdTPCTOF _ _ => False | _ => True end ->
  fTPCTOF2DEnabledSpeciesMask (applyUpdate u c)
  = fTPCTOF2DEnabledSpeciesMask c
  /\ fTOFRequired (applyUpdate u c) = fTOFRequired c
  /\ TBits.TestBitNumber (fCutsEnabledMask (applyUpdate u c))
       kTPCTOF2DSigmaCut
     = TBits.TestBitNumber (fCutsEnabledMask c) kTPCTOF2DSigmaCut.
Proof.
  intro Hu. update_cases u c; try contradiction;
    split_enabled; test_bits; repeat split.
Qed.

(** [SetTPCTOFCut] takes the 2D species mask from the TPC and TOF species
    masks as they are at the call, and no later call for another parameter
    refreshes it: such a call leaves the 2D mask, the TOF required flag and
    the 2D bit of the enabled cuts as they were.  So a species that is in
    the 2D mask stays there when its TPC band is switched off afterwards,
    and a 2D code set while the TPC or the TOF mask is empty leaves the 2D
    cut disabled whatever bands are configured later. *)
Theorem combined_mask_is_a_snapshot (FormCutsString : list Z -> string)
    (paramID value : Z) (c : AliCSPIDCuts) :
  (cutsParametersIds_of paramID <> Some kTPCTOFCutParam ->
   fTPCTOF2DEnabledSpeciesMask
     (snd (SetCutAndParams FormCutsString paramID value c))
   = fTPCTOF2DEnabledSpeciesMask c
   /\ fTOFRequired (snd (SetCutAndParams FormCutsString paramID value c))
      = fTOFRequired c
   /\ TBits.TestBitNumber
        (fCutsEnabledMask
           (snd (SetCutAndParams FormCutsString paramID value c)))
        kTPCTOF2DSigmaCut
      = TBits.TestBitNumber (fCutsEnabledMask c) kTPCTOF2DSigmaCut) /\
  (forall id,
      TBits.TestBitNumber (fTPCTOF2DEnabledSpeciesMask c) (bit id) = true ->
      TBits.TestBitNumber
        (fTPCTOF2DEnabledSpeciesMask (snd (SetTPCdEdxSigmaCut id 0 c)))
        (bit id) = true
      /\ TBits.TestBitNumber
           (fTPCEnabledSpeciesMask (snd (SetTPCdEdxSigmaCut id 0 c)))
           (bit id) = false) /\
  (fTPCEnabledSpeciesMask c = TBits.ResetAllBits
   \/ fTOFEnabledSpeciesMask c = TBits.ResetAllBits ->
   forall code,
     fst (SetTPCTOFCut code c) = true ->
     fTPCTOF2DEnabledSpeciesMask (snd (SetTPCTOFCut code c))
     = TBits.ResetAllBits
     /\ TBits.TestBitNumber (fCutsEnabledMask (snd (SetTPCTOFCut code c)))
          kTPCTOF2DSigmaCut = false).
Proof.
  split; [|split].
  - intro Hparam. rewrite SetCutAndParams_table.
    destruct (cutsParametersIds_of paramID) as [param|]; [|repeat split].
    destruct (updateOf param value) as [u|] eqn:E; [|repeat split].
    cbn [snd]. unfold UpdateCutsString.
    change (fTPCTOF2DEnabledSpeciesMask (applyUpdate u c)
            = fTPCTOF2DEnabledSpeciesMask c
            /\ fTOFRequired (applyUpdate u c) = fTOFRequired c
            /\ TBits.TestBitNumber (fCutsEnabledMask (applyUpdate u c))
                 kTPCTOF2DSigmaCut
               = TBits.TestBitNumber (fCutsEnabledMask c) kTPCTOF2DSigmaCut).
    apply applyUpdate_band_keeps_2D.
    destruct param; try (exfalso; apply Hparam; reflexivity);
      revert E; split_code value; cbn; intro E;
      first [discriminate E | injection E as <-; exact I].
  - intros id Hbit.
    change (SetTPCdEdxSigmaCut id 0 c)
      with (true, TPC_enabled_update (TPC_passive id c)).
    cbn [snd].
    destruct (TPC_enabled_update_fields (TPC_passive id c)) as (Hm & _).
    rewrite Hm. cbn [TPC_passive with_TPC fTPCEnabledSpeciesMask].
    rewrite TestBitNumber_Reset, N.eqb_refl, andb_false_r.
    split; [|reflexivity].
    rewrite TPC_enabled_update_eq. exact Hbit.
  - intros Hempty code Hok.
    assert (Hland : TBits.and (fTPCEnabledSpeciesMask c)
                      (fTOFEnabledSpeciesMask c) = TBits.ResetAllBits).
    { unfold TBits.and, TBits.ResetAllBits in *.
      destruct Hempty as [-> | ->]; [apply N.land_0_l | apply N.land_0_r]. }
    destruct (SetTPCTOFCut_cases code)
      as [[_ H] | (_ & required & [H | H])]; rewrite H in *;
      cbn [fst snd] in *; [discriminate Hok | |];
      rewrite TPCTOF2D_enabled_update_eq;
      cbn [with_fCutsEnabledMask fTPCTOF2DEnabledSpeciesMask
           with_fTOFRequired TPCTOF2D_intersect TPCTOF2D_reset
           with_fTPCTOF2DEnabledSpeciesMask fTPCEnabledSpeciesMask
           fTOFEnabledSpeciesMask fCutsEnabledMask];
      rewrite ?Hland; cbn [TBits.CountBits TBits.ResetAllBits Nat.ltb Nat.leb];
      rewrite TestBitNumber_Reset, N.eqb_refl, andb_false_r;
      split; reflexivity.
Qed.

Lemma combined_mask_is_a_snapshot_witness :
  let c := configure digitsCutsString [(9, 3); (14, 2); (17, 2)]
             (new_AliCSPIDCuts kPion) in
  TBits.TestBitNumber
    (fTPCTOF2DEnabledSpeciesMask (snd (SetTPCdEdxSigmaCut kPion 0 c)))
    (bit kPion) = true
  /\ TBits.TestBitNumber
       (fTPCEnabledSpeciesMask (snd (SetTPCdEdxSigmaCut kPion 0 c)))
       (bit kPion) = false.
Proof.
  intro c.
  apply (proj1 (proj2 (combined_mask_is_a_snapshot digitsCutsString 0 0 c))).
  reflexivity.
Defined.


(** ** The truth acceptance and the true species *)

Lemma GetTrueSpecies_classified (par : AliVParticle.t) :
  In (GetTrueSpecies par) classified.
Proof.
  unfold GetTrueSpecies, classified.
  repeat match goal with
         | |- context [if ?b then _ else _] => destruct b
         end; simpl; tauto.
Qed.

Lemma GetTrueSpecies_track_eq (mc : MCTruth) (trk : AliVTrack) :
  GetTrueSpecies_track mc trk
  = option_map GetTrueSpecies (truthParticle mc (Z.abs (GetLabel trk))).
Proof.
  unfold GetTrueSpecies_track, truthParticle.
  destruct (fgIsESD mc);
    [destruct (MCEvent_GetTrack mc _) | destruct (fgMCArray_At mc _)];
    reflexivity.
Qed.

Lemma IsTrueTrackAccepted_true (mc : MCTruth) (c : AliCSPIDCuts)
    (trk : AliVTrack) :
  IsTrueTrackAccepted mc c trk = true ->
  0 <= GetLabel trk
  /\ exists particle,
      truthParticle mc (GetLabel trk) = Some particle
      /\ momentumGate c (AliVParticle.P particle) = true
      /\ (anyCutEnabled c = true ->
          GetTrueSpecies particle = fTargetSpecies c).
Proof.
  unfold IsTrueTrackAccepted.
  destruct (Z.ltb_spec (GetLabel trk) 0) as [Hneg|Hpos]; [discriminate|].
  rewrite IsTrueTrackAccepted_index_eq.
  destruct (truthParticle mc (GetLabel trk)) as [particle|]; [|discriminate].
  intro H. apply andb_true_iff in H. destruct H as [Hgate Hspecies].
  split; [exact Hpos|]. exists particle.
  split; [reflexivity|]. split; [exact Hgate|].
  intro Hany. rewrite Hany in Hspecies. cbn in Hspecies.
  apply AliPID_eqb_eq, Hspecies.
Qed.

(** The truth classifier answers one of electron, muon, pion, kaon, proton
    and unknown.  So a cut with any cut category enabled whose target is
    another species (a light nucleus, a neutral particle) accepts no true
    track at all. *)
Theorem truth_rejects_unclassified_target (mc : MCTruth) (c : AliCSPIDCuts)
    (trk : AliVTrack) :
  (forall par, In (GetTrueSpecies par) classified) /\
  (anyCutEnabled c = true ->
   ~ In (fTargetSpecies c) classified ->
   IsTrueTrackAccepted mc c trk = false).
Proof.
  split; [apply GetTrueSpecies_classified|].
  intros Hany Htarget.
  destruct (IsTrueTrackAccepted mc c trk) eqn:E; [|reflexivity].
  apply IsTrueTrackAccepted_true in E.
  destruct E as (_ & particle & _ & _ & Hspecies).
  exfalso. apply Htarget. rewrite <- (Hspecies Hany).
  apply GetTrueSpecies_classified.
Qed.

Lemma truth_rejects_unclassified_target_witness :
  IsTrueTrackAccepted onePionESD deuteronCut (mkTrack 7) = false.
Proof.
  apply (proj2 (truth_rejects_unclassified_target onePionESD deuteronCut
                  (mkTrack 7))).
  - reflexivity.
  - unfold classified. simpl. intuition discriminate.
Defined.

(** The true species of a track is looked up under the absolute value of
    its label: two tracks whose labels differ in sign only get the same
    answer, although the truth acceptance rejects the one with the negative
    label.  For an accepted true track, with any cut category enabled, the
    true species of the track is the target species. *)
Theorem accepted_track_has_target_species (mc : MCTruth) (c : AliCSPIDCuts)
    (trk trk' : AliVTrack) :
  (GetLabel trk' = - GetLabel trk ->
   GetTrueSpecies_track mc trk' = GetTrueSpecies_track mc trk) /\
  (IsTrueTrackAccepted mc c trk = true ->
   anyCutEnabled c = true ->
   GetTrueSpecies_track mc trk = Some (fTargetSpecies c)).
Proof.
  split.
  - intro Hlabel. rewrite !GetTrueSpecies_track_eq, Hlabel, Z.abs_opp.
    reflexivity.
  - intros Hacc Hany. apply IsTrueTrackAccepted_true in Hacc.
    destruct Hacc as (Hpos & particle & Hpart & _ & Hspecies).
    rewrite GetTrueSpecies_track_eq, Z.abs_eq, Hpart by exact Hpos.
    cbn. rewrite (Hspecies Hany). reflexivity.
Qed.

Lemma accepted_track_has_target_species_witness :
  GetTrueSpecies_track onePionESD (mkTrack (-7))
  = GetTrueSpecies_track onePionESD (mkTrack 7)
  /\ GetTrueSpecies_track onePionESD (mkTrack 7) = Some kPion.
Proof.
  destruct (accepted_track_has_target_species onePionESD pionCut
              (mkTrack 7) (mkTrack (-7))) as [Hsign Hacc].
  split.
  - apply Hsign. reflexivity.
  - apply Hacc; reflexivity.
Defined.



Lemma enabled_update_members (c : AliCSPIDCuts) :
  (fMinP (ITS_enabled_update c) = fMinP c
   /\ fMaxP (ITS_enabled_update c) = fMaxP c
   /\ fTargetSpecies (ITS_enabled_update c) = fTargetSpecies c)
  /\ (fMinP (TPC_enabled_update c) = fMinP c
      /\ fMaxP (TPC_enabled_update c) = fMaxP c
      /\ fTargetSpecies (TPC_enabled_update c) = fTargetSpecies c)
  /\ (fMinP (TOF_enabled_update c) = fMinP c
      /\ fMaxP (TOF_enabled_update c) = fMaxP c
      /\ fTargetSpecies (TOF_enabled_update c) = fTargetSpecies c).
Proof.
  rewrite ITS_enabled_update_eq, TPC_enabled_update_eq, TOF_enabled_update_eq.
  repeat split.
Qed.



(** ** Printing the cuts *)

Section PrintingProperties.

Variable ParticleName : EParticleType -> string.

Local Open Scope string_scope.

Lemma AliPID_eqb_sym (a b : EParticleType) : AliPID.eqb a b = AliPID.eqb b a.
Proof. unfold AliPID.eqb. apply Nat.eqb_sym. Qed.

Lemma bandStored_exact (cut : N) (mask : AliCSPIDCuts -> TBits.t)
    (below above : AliCSPIDCuts -> list Q)
    (update : AliCSPIDCuts -> AliCSPIDCuts)
    (id : EParticleType) (lo hi : Q) (c c1 : AliCSPIDCuts) :
  (mask (update c1) = mask c1
   /\ below (update c1) = below c1
   /\ above (update c1) = above c1
   /\ TBits.TestBitNumber (fCutsEnabledMask (update c1)) cut
      = (0 <? TBits.CountBits (mask c1))%nat) ->
  mask c1 = TBits.SetBitNumber (bit id) (mask c) ->
  below c1 = <[index id := lo]> (below c) ->
  above c1 = <[index id := hi]> (above c) ->
  (index id < length (below c))%nat ->
  (index id < length (above c))%nat ->
  TBits.TestBitNumber (mask (update c1)) (bit id) = true
  /\ at_species (below (update c1)) id = lo
  /\ at_species (above (update c1)) id = hi
  /\ TBits.TestBitNumber (fCutsEnabledMask (update c1)) cut = true.
Proof.
  intros (Hm & Hb & Ha & Hbit) Hm1 Hb1 Ha1 Hlb Hla.
  rewrite Hm, Hb, Ha, Hbit, Hm1, Hb1, Ha1.
  rewrite TestBitNumber_Set, N.eqb_refl, CountBits_Set,
    !at_species_insert by assumption.
  repeat split.
Qed.

Lemma ITS_preset_exact (id : EParticleType) (code : Z) (lo hi : Q) :
  ITS_preset code = Some (lo, hi) ->
  forall c, SetITSdEdxSigmaCut id code c
            = (true, ITS_enabled_update (ITS_band id lo hi c)).
Proof.
  intro H. split_code code; try discriminate H; injection H as <- <-;
    intro; reflexivity.
Qed.

Lemma TPC_preset_exact (id : EParticleType) (code : Z) (lo hi : Q) :
  TPC_preset code = Some (lo, hi) ->
  forall c, SetTPCdEdxSigmaCut id code c
            = (true, TPC_enabled_update (TPC_band id lo hi c)).
Proof.
  intro H. split_code code; try discriminate H; injection H as <- <-;
    intro; reflexivity.
Qed.

Lemma TOF_preset_exact (id : EParticleType) (code : Z) (lo hi : Q) :
  TOF_preset code = Some (lo, hi) ->
  forall c, SetTOFSigmaCut id code c
            = (true, TOF_enabled_update (TOF_band id lo hi c)).
Proof.
  intro H. split_code code; try discriminate H; injection H as <- <-;
    intro; reflexivity.
Qed.

(** Printing a band right after it was set shows what was set.  After a
    band setter was called with an active preset code, the print function
    of the detector writes the header with the name of the target and then,
    for the target species, the band with the two bounds of the preset, and
    for another species the separation band with the name of that species
    and the two bounds of the preset.  (For the TPC and the TOF: on a cut
    whose [fTPCTOF2Dcut] flag is off.) *)
Theorem print_shows_the_preset (id : EParticleType) (code : Z) (lo hi : Q)
    (c : AliCSPIDCuts) :
  allocated c -> hasSlot id ->
  (ITS_preset code = Some (lo, hi) ->
   PrintITSdEdxSigmaCut ParticleName id (snd (SetITSdEdxSigmaCut id code c))
   = ("  ITS PID CUT %s: ", [ArgStr (ParticleName (fTargetSpecies c))])
     :: (if AliPID.eqb (fTargetSpecies c) id
         then [("%3.1f < nsigma < %3.1f" ++ LF, [ArgFloat lo; ArgFloat hi])]
         else [("nsigma %s < %3.1f OR %3.1f < nsigma %s" ++ LF,
                [ArgStr (ParticleName id); ArgFloat lo; ArgFloat hi;
                 ArgStr (ParticleName id)])])) /\
  (TPC_preset code = Some (lo, hi) ->
   fTPCTOF2Dcut c = false ->
   PrintTPCdEdxSigmaCut ParticleName id (snd (SetTPCdEdxSigmaCut id code c))
   = ("  TPC%sPID CUT %s: ",
      [ArgStr " "; ArgStr (ParticleName (fTargetSpecies c))])
     :: (if AliPID.eqb (fTargetSpecies c) id
         then [("%3.1f < nsigma < %3.1f" ++ LF, [ArgFloat lo; ArgFloat hi])]
         else [("nsigma %s < %3.1f OR %3.1f < nsigma %s" ++ LF,
                [ArgStr (ParticleName id); ArgFloat lo; ArgFloat hi;
                 ArgStr (ParticleName id)])])) /\
  (TOF_preset code = Some (lo, hi) ->
   fTPCTOF2Dcut c = false ->
   PrintTOFSigmaCut ParticleName id (snd (SetTOFSigmaCut id code c))
   = ("  TOF (%s)%sPID CUT %s: ",
      [ArgStr (if fTOFRequired c then "REQUIRED" else "NOT required");
       ArgStr " "; ArgStr (ParticleName (fTargetSpecies c))])
     :: (if AliPID.eqb (fTargetSpecies c) id
         then [("%3.1f < nsigma < %3.1f" ++ LF, [ArgFloat lo; ArgFloat hi])]
         else [("nsigma %s < %3.1f OR %3.1f < nsigma %s" ++ LF,
                [ArgStr (ParticleName id); ArgFloat lo; ArgFloat hi;
                 ArgStr (ParticleName id)])])).
Proof.
  intros (HIa & HIb & HPa & HPb & HFa & HFb) Hslot. unfold hasSlot in Hslot.
  split; [|split].
  - intro Hrow. rewrite (ITS_preset_exact id code lo hi Hrow). cbn [snd].
    destruct (bandStored_exact kITSdEdxSigmaCut fITSEnabledSpeciesMask
                fITSnSigmaBelow fITSnSigmaAbove ITS_enabled_update
                id lo hi c (ITS_band id lo hi c))
      as (Hm & Hb & Ha & Hbit);
      [apply ITS_enabled_update_fields | reflexivity | reflexivity
       | reflexivity | lia | lia |].
    unfold PrintITSdEdxSigmaCut. rewrite Hbit, Hm, Hb, Ha.
    rewrite (proj2 (proj2 (proj1 (enabled_update_members _)))).
    cbn [ITS_band with_ITS fTargetSpecies].
    destruct (AliPID.eqb (fTargetSpecies c) id); reflexivity.
  - intros Hrow H2D. rewrite (TPC_preset_exact id code lo hi Hrow). cbn [snd].
    destruct (bandStored_exact kTPCdEdxSigmaCut fTPCEnabledSpeciesMask
                fTPCnSigmaBelow fTPCnSigmaAbove TPC_enabled_update
                id lo hi c (TPC_band id lo hi c))
      as (Hm & Hb & Ha & Hbit);
      [apply TPC_enabled_update_fields | reflexivity | reflexivity
       | reflexivity | lia | lia |].
    unfold PrintTPCdEdxSigmaCut. rewrite Hbit, Hm, Hb, Ha.
    rewrite (proj2 (proj2 (proj1 (proj2 (enabled_update_members _))))).
    rewrite TPC_enabled_update_eq.
    cbn [TPC_band with_TPC with_fCutsEnabledMask fTargetSpecies fTPCTOF2Dcut
         orb].
    rewrite H2D.
    destruct (AliPID.eqb (fTargetSpecies c) id); reflexivity.
  - intros Hrow H2D. rewrite (TOF_preset_exact id code lo hi Hrow). cbn [snd].
    destruct (bandStored_exact kTOFSigmaCut fTOFEnabledSpeciesMask
                fTOFnSigmaBelow fTOFnSigmaAbove TOF_enabled_update
                id lo hi c (TOF_band id lo hi c))
      as (Hm & Hb & Ha & Hbit);
      [apply TOF_enabled_update_fields | reflexivity | reflexivity
       | reflexivity | lia | lia |].
    unfold PrintTOFSigmaCut. rewrite Hbit, Hm, Hb, Ha.
    rewrite (proj2 (proj2 (proj2 (proj2 (enabled_update_members _))))).
    rewrite TOF_enabled_update_eq.
    cbn [TOF_band with_TOF with_fCutsEnabledMask fTargetSpecies fTPCTOF2Dcut
         fTOFRequired orb].
    rewrite H2D.
    destruct (AliPID.eqb (fTargetSpecies c) id); reflexivity.
Qed.

(** [PrintCutWithParams] for the maximum momentum writes a value exactly
    for the preset codes 1 to 8.  For a constructed cut, whose maximum is
    9999, and after the preset code 0, which sets 1000000, the line ends
    without a value. *)
Theorem print_maximum_momentum (c : AliCSPIDCuts) :
  (forall target,
      PrintCutWithParams ParticleName 1 (new_AliCSPIDCuts target)
      = [("  Cut applicable up to P max: %s", [ArgStr LF])]) /\
  PrintCutWithParams ParticleName 1 (snd (SetPMax 0 c))
  = [("  Cut applicable up to P max: %s", [ArgStr LF])] /\
  (forall pcode q,
      1 <= pcode <= 8 ->
      PMax_preset pcode = Some q ->
      PrintCutWithParams ParticleName 1 (snd (SetPMax pcode c))
      = [("  Cut applicable up to P max: %s",
          [ArgForm ("%3.1f GeV/c" ++ LF) q])]).
Proof.
  split; [|split].
  - intro target. reflexivity.
  - reflexivity.
  - intros pcode q Hcode Hq.
    code_0_to_9 pcode; try lia; injection Hq as <-; reflexivity.
Qed.

Lemma mentions2D_cons (call : printf_call) (rest : list printf_call) :
  ~ mentions2D call ->
  (forall x, In x rest -> ~ mentions2D x) ->
  forall x, In x (call :: rest) -> ~ mentions2D x.
Proof.
  intros Hc Hrest x [<- | Hx]; [exact Hc | apply Hrest, Hx].
Qed.

Ltac no2D_call Hname :=
  unfold mentions2D; cbn [fst snd In];
  intros [H | [H | H]];
  [ discriminate H | discriminate H
  | repeat (destruct H as [H | H]);
    first [ discriminate H
          | contradiction
          | injection H as H; first [exact (Hname _ H) | discriminate H] ] ].

Lemma print_without_2D (paramID : Z) (c : AliCSPIDCuts) :
  (forall id, ParticleName id <> " [2D] ") ->
  fTPCTOF2Dcut c = false ->
  forall call,
    In call (PrintCutWithParams ParticleName paramID c) -> ~ mentions2D call.
Proof.
  intros Hname H2D.
  unfold PrintCutWithParams.
  destruct (cutsParametersIds_of paramID) as [param|]; [|intros ? []].
  destruct param;
    unfold PrintITSdEdxSigmaCut, PrintTPCdEdxSigmaCut, PrintTOFSigmaCut;
    rewrite ?H2D;
    repeat match goal with
           | |- context [if ?b then _ else _] => destruct b
           end;
    repeat (apply mentions2D_cons; [no2D_call Hname|]);
    intros ? [].
Qed.

(** No setter assigns [fTPCTOF2Dcut], so for a cut configured from a
    constructed one by any sequence of [SetCutAndParams] calls, also one
    that sets the combined mode to a 2D code, [PrintCutWithParams] writes
    the one-dimensional form of every cut: no call carries the 2D tag or
    one of the two 2D formats. *)
Theorem print_never_shows_2D (FormCutsString : list Z -> string)
    (script : list (Z * Z)) (target : EParticleType) (paramID : Z)
    (call : printf_call) :
  (forall id, ParticleName id <> " [2D] ") ->
  In call
    (PrintCutWithParams ParticleName paramID
       (configure FormCutsString script (new_AliCSPIDCuts target))) ->
  ~ mentions2D call.
Proof.
  intros Hname. apply print_without_2D; [exact Hname|].
  pose (I := fun c => fTPCTOF2Dcut c = false).
  apply (configure_invariant FormCutsString I); [|reflexivity].
  apply (SetCutAndParams_invariant FormCutsString I).
  - intros u c _ Hc. unfold I.
    rewrite (proj1 (proj2 (applyUpdate_fixed_members u c))). exact Hc.
  - intros l s c Hc. exact Hc.
Qed.

End PrintingProperties.

Lemma print_shows_the_preset_witness :
  PrintTPCdEdxSigmaCut sampleName kKaon (snd (SetTPCdEdxSigmaCut kKaon 7 pionCut))
  = [("  TPC%sPID CUT %s: ", [ArgStr " "; ArgStr "pion"]);
     ("nsigma %s < %3.1f OR %3.1f < nsigma %s" ++ LF,
      [ArgStr "kaon"; ArgFloat (-3.0); ArgFloat 3.0; ArgStr "kaon"])]%string.
Proof.
  assert (Halloc : allocated pionCut) by (repeat split).
  assert (Hslot : hasSlot kKaon)
    by (unfold hasSlot, kNSigmaSlots, kSPECIESC; simpl; lia).
  exact (proj1 (proj2 (print_shows_the_preset sampleName kKaon 7 (-3.0) 3.0
                         pionCut Halloc Hslot)) eq_refl eq_refl).
Defined.

Lemma print_maximum_momentum_witness :
  PrintCutWithParams sampleName 1 (snd (SetPMax 6 pionCut))
  = [("  Cut applicable up to P max: %s",
      [ArgForm ("%3.1f GeV/c" ++ LF) 2.0])]%string.
Proof.
  apply (proj2 (proj2 (print_maximum_momentum sampleName pionCut)) 6 2.0%Q).
  - lia.
  - reflexivity.
Defined.

Lemma print_never_shows_2D_witness :
  ~ mentions2D
      ("  TPC%sPID CUT %s: ", [ArgStr " "; ArgStr "pion"])%string.
Proof.
  apply (print_never_shows_2D sampleName digitsCutsString
           [(9, 3); (14, 2); (17, 3)] kPion 9).
  - intros id. destruct id; discriminate.
  - vm_compute. left. reflexivity.
Defined.


(** ** Calls that do not depend on each other commute *)

Lemma updateOf_updateFor (param : cutsParametersIds) (value : Z) (u : Update) :
  updateOf param value = Some u -> updateFor param u.
Proof.
  destruct param; split_code value; cbn; intro H;
    first [discriminate H | injection H as <-; reflexivity].
Qed.

Lemma independent_updates (a b : cutsParametersIds) (u1 u2 : Update) :
  independentParams a b -> updateFor a u1 -> updateFor b u2 ->
  independentUpdates u1 u2.
Proof.
  intros (Hne & Hab & Hba) H1 H2.
  destruct u1, u2; cbn in *; try exact I; subst;
    try congruence;
    try (intros ->; congruence);
    try (apply Hab; split; [reflexivity|]; destruct id; cbn in *;
         first [discriminate | injection H2 as <-; reflexivity]);
    try (apply Hba; split; [reflexivity|]; destruct id; cbn in *;
         first [discriminate | injection H1 as <-; reflexivity]).
Qed.

Lemma TestBitNumber_update (k n : N) (b : bool) (e : TBits.t) :
  TBits.TestBitNumber
    ((if b then TBits.SetBitNumber k else TBits.ResetBitNumber k) e) n
  = if N.eqb k n then b else TBits.TestBitNumber e n.
Proof.
  destruct b.
  - rewrite TestBitNumber_Set. destruct (N.eqb k n); reflexivity.
  - rewrite TestBitNumber_Reset.
    destruct (N.eqb k n); [apply andb_false_r | apply andb_true_r].
Qed.

Lemma update_bits_commute (k1 k2 : N) (b1 b2 : bool) (e : TBits.t) :
  k1 <> k2 ->
  (if b2 then TBits.SetBitNumber k2 else TBits.ResetBitNumber k2)
    ((if b1 then TBits.SetBitNumber k1 else TBits.ResetBitNumber k1) e)
  = (if b1 then TBits.SetBitNumber k1 else TBits.ResetBitNumber k1)
      ((if b2 then TBits.SetBitNumber k2 else TBits.ResetBitNumber k2) e).
Proof.
  intro Hne. apply N.bits_inj. intro n.
  change (TBits.TestBitNumber
            ((if b2 then TBits.SetBitNumber k2 else TBits.ResetBitNumber k2)
               ((if b1 then TBits.SetBitNumber k1
                 else TBits.ResetBitNumber k1) e)) n
          = TBits.TestBitNumber
              ((if b1 then TBits.SetBitNumber k1 else TBits.ResetBitNumber k1)
                 ((if b2 then TBits.SetBitNumber k2
                   else TBits.ResetBitNumber k2) e)) n).
  rewrite !TestBitNumber_update.
  destruct (N.eqb_spec k1 n), (N.eqb_spec k2 n); try reflexivity.
  congruence.
Qed.

Lemma update_bits_absorb (k : N) (b1 b2 : bool) (e : TBits.t) :
  (if b2 then TBits.SetBitNumber k else TBits.ResetBitNumber k)
    ((if b1 then TBits.SetBitNumber k else TBits.ResetBitNumber k) e)
  = (if b2 then TBits.SetBitNumber k else TBits.ResetBitNumber k) e.
Proof.
  apply N.bits_inj. intro n.
  change (TBits.TestBitNumber
            ((if b2 then TBits.SetBitNumber k else TBits.ResetBitNumber k)
               ((if b1 then TBits.SetBitNumber k
                 else TBits.ResetBitNumber k) e)) n
          = TBits.TestBitNumber
              ((if b2 then TBits.SetBitNumber k else TBits.ResetBitNumber k)
                 e) n).
  rewrite !TestBitNumber_update.
  destruct (N.eqb k n); reflexivity.
Qed.

(** Setting or resetting the bits of two different species, in either
    order. *)
Lemma species_bits_commute (id1 id2 : EParticleType) (s1 s2 : bool)
    (m : TBits.t) :
  id1 <> id2 ->
  (if s2 then TBits.SetBitNumber (bit id2) else TBits.ResetBitNumber (bit id2))
    ((if s1 then TBits.SetBitNumber (bit id1)
      else TBits.ResetBitNumber (bit id1)) m)
  = (if s1 then TBits.SetBitNumber (bit id1)
     else TBits.ResetBitNumber (bit id1))
      ((if s2 then TBits.SetBitNumber (bit id2)
        else TBits.ResetBitNumber (bit id2)) m).
Proof.
  intro Hne. apply update_bits_commute.
  intro H. apply Hne. apply bit_inj, H.
Qed.

(** The enabled bit of one detector after two band updates of different
    species, in either order. *)
Lemma enabled_after_two (k : N) (id1 id2 : EParticleType) (s1 s2 : bool)
    (m e : TBits.t) :
  id1 <> id2 ->
  let op1 := if s1 then TBits.SetBitNumber (bit id1)
             else TBits.ResetBitNumber (bit id1) in
  let op2 := if s2 then TBits.SetBitNumber (bit id2)
             else TBits.ResetBitNumber (bit id2) in
  (if (0 <? TBits.CountBits (op2 (op1 m)))%nat
   then TBits.SetBitNumber k else TBits.ResetBitNumber k)
    ((if (0 <? TBits.CountBits (op1 m))%nat
      then TBits.SetBitNumber k else TBits.ResetBitNumber k) e)
  = (if (0 <? TBits.CountBits (op1 (op2 m)))%nat
     then TBits.SetBitNumber k else TBits.ResetBitNumber k)
      ((if (0 <? TBits.CountBits (op2 m))%nat
        then TBits.SetBitNumber k else TBits.ResetBitNumber k) e).
Proof.
  intros Hne op1 op2. rewrite !update_bits_absorb.
  unfold op1, op2. rewrite (species_bits_commute id1 id2 s1 s2 m Hne).
  reflexivity.
Qed.

Ltac commute_field Hne :=
  first
    [ reflexivity
    | apply list_insert_insert_ne;
      let H := fresh in intro H; apply Hne; apply index_inj; exact H
    | apply list_insert_insert_ne;
      let H := fresh in intro H; apply Hne; symmetry; apply index_inj; exact H
    | exact (species_bits_commute _ _ true true _ Hne)
    | exact (species_bits_commute _ _ true false _ Hne)
    | exact (species_bits_commute _ _ false true _ Hne)
    | exact (species_bits_commute _ _ false false _ Hne)
    | exact (enabled_after_two _ _ _ true true _ _ Hne)
    | exact (enabled_after_two _ _ _ true false _ _ Hne)
    | exact (enabled_after_two _ _ _ false true _ _ Hne)
    | exact (enabled_after_two _ _ _ false false _ _ Hne)
    | apply update_bits_commute; discriminate ].

Lemma applyUpdate_commute (u1 u2 : Update) (c : AliCSPIDCuts) :
  independentUpdates u1 u2 ->
  applyUpdate u2 (applyUpdate u1 c) = applyUpdate u1 (applyUpdate u2 c).
Proof.
  intro Hne.
  destruct u1 as [?q|?q|id1 [[?lo ?hi]|]|id1 [[?lo ?hi]|]|id1 [[?lo ?hi]|]
                 |?required [|]];
    destruct u2 as [?q|?q|id2 [[?lo ?hi]|]|id2 [[?lo ?hi]|]|id2 [[?lo ?hi]|]
                   |?required [|]];
    cbn [independentUpdates] in Hne; try contradiction;
    destruct c; cbn [applyUpdate]; unfold_updates;
    try reflexivity;
    f_equal; try commute_field Hne.
Qed.

Lemma applyUpdate_framed (u : Update) : framed (applyUpdate u).
Proof.
  destruct u as [q|q|id [[lo hi]|]|id [[lo hi]|]|id [[lo hi]|]|required [|]];
    cbn [applyUpdate].
  - apply framed_with_fMinP.
  - apply framed_with_fMaxP.
  - apply (framed_ITS_band id lo hi).
  - apply (framed_ITS_passive id).
  - apply (framed_TPC_band id lo hi).
  - apply (framed_TPC_passive id).
  - apply (framed_TOF_band id lo hi).
  - apply (framed_TOF_passive id).
  - apply (framed_TPCTOF2D_intersect required).
  - apply (framed_TPCTOF2D_reset required).
Qed.

Lemma store_twice (s s' : string) (l l' : list Z) (c : AliCSPIDCuts) :
  with_fCutsString s
    (with_fParameters l (with_fCutsString s' (with_fParameters l' c)))
  = with_fCutsString s (with_fParameters l c).
Proof. destruct c. reflexivity. Qed.

Lemma fParameters_with_fParameters (l : list Z) (c : AliCSPIDCuts) :
  fParameters (with_fParameters l c) = l.
Proof. reflexivity. Qed.

Lemma fParameters_stored (s : string) (l : list Z) (c : AliCSPIDCuts) :
  fParameters (with_fCutsString s (with_fParameters l c)) = l.
Proof. reflexivity. Qed.

Lemma SetCutAndParams_fst (FormCutsString : list Z -> string)
    (paramID value : Z) (c c' : AliCSPIDCuts) :
  fst (SetCutAndParams FormCutsString paramID value c)
  = fst (SetCutAndParams FormCutsString paramID value c').
Proof.
  rewrite !SetCutAndParams_table.
  destruct (cutsParametersIds_of paramID) as [param|]; [|reflexivity].
  destruct (updateOf param value); reflexivity.
Qed.

(** Two [SetCutAndParams] calls for different parameters give the same cut
    and the same results in either order, cuts string included, unless one
    of them sets the combined TPC+TOF mode and the other a TPC or a TOF
    band. *)
Theorem SetCutAndParams_commute (FormCutsString : list Z -> string)
    (paramID1 value1 paramID2 value2 : Z) (a b : cutsParametersIds)
    (c : AliCSPIDCuts) :
  cutsParametersIds_of paramID1 = Some a ->
  cutsParametersIds_of paramID2 = Some b ->
  independentParams a b ->
  snd (SetCutAndParams FormCutsString paramID2 value2
         (snd (SetCutAndParams FormCutsString paramID1 value1 c)))
  = snd (SetCutAndParams FormCutsString paramID1 value1
           (snd (SetCutAndParams FormCutsString paramID2 value2 c)))
  /\ fst (SetCutAndParams FormCutsString paramID2 value2
            (snd (SetCutAndParams FormCutsString paramID1 value1 c)))
     = fst (SetCutAndParams FormCutsString paramID2 value2 c)
  /\ fst (SetCutAndParams FormCutsString paramID1 value1
            (snd (SetCutAndParams FormCutsString paramID2 value2 c)))
     = fst (SetCutAndParams FormCutsString paramID1 value1 c).
Proof.
  intros Ha Hb Hind.
  split; [|split; apply SetCutAndParams_fst].
  rewrite !SetCutAndParams_table, Ha, Hb.
  destruct (updateOf a value1) as [u1|] eqn:E1;
    destruct (updateOf b value2) as [u2|] eqn:E2; cbn [snd];
    rewrite ?SetCutAndParams_table, ?Ha, ?Hb, ?E1, ?E2; cbn [snd];
    try reflexivity.
  unfold UpdateCutsString.
  rewrite !(proj2 (applyUpdate_framed u2)), !(proj2 (applyUpdate_framed u1)).
  rewrite !fParameters_stored, !fParameters_with_fParameters.
  rewrite !store_twice.
  rewrite ?(proj1 (applyUpdate_fParameters u1 _)),
    ?(proj1 (applyUpdate_fParameters u2 _)).
  rewrite (applyUpdate_commute u1 u2 c).
  - rewrite (list_insert_insert_ne (fParameters c) (param_index b)
               (param_index a)); [reflexivity|].
    intro H. apply param_index_inj in H. destruct Hind as [Hne _].
    congruence.
  - apply (independent_updates a b); [exact Hind | |];
      eapply updateOf_updateFor; eassumption.
Qed.

Lemma SetCutAndParams_commute_witness :
  snd (SetCutAndParams digitsCutsString 9 3
         (snd (SetCutAndParams digitsCutsString 0 4 pionCut)))
  = snd (SetCutAndParams digitsCutsString 0 4
           (snd (SetCutAndParams digitsCutsString 9 3 pionCut))).
Proof.
  apply (SetCutAndParams_commute digitsCutsString 0 4 9 3
           kPMinCutParam kTPCdEdxSigmaCutParam_pi pionCut eq_refl eq_refl).
  repeat split; intro H; [discriminate H | destruct H as [H _]; discriminate H
                         | destruct H as [_ H]; discriminate H].
Defined.

(** The order of the combined TPC+TOF mode and the bands of a species does
    matter, and the parameter store does not show it.  On a constructed cut,
    setting the TPC and the TOF band of one of the five species with active
    presets and then the 2D mode (code 2 or 3) enables the 2D cut for that
    species; setting the 2D mode first and the two bands afterwards leaves
    the 2D cut disabled.  Both orders end with the same parameter store and
    the same cuts string. *)
Theorem combined_mode_order_matters (FormCutsString : list Z -> string)
    (target : EParticleType) (k tpc tof mode : Z) :
  0 <= k <= 4 -> 1 <= tpc <= 9 -> 1 <= tof <= 5 -> 2 <= mode <= 3 ->
  let bands_first :=
    configure FormCutsString [(7 + k, tpc); (12 + k, tof); (17, mode)]
      (new_AliCSPIDCuts target) in
  let mode_first :=
    configure FormCutsString [(17, mode); (7 + k, tpc); (12 + k, tof)]
      (new_AliCSPIDCuts target) in
  fParameters bands_first = fParameters mode_first
  /\ fCutsString bands_first = fCutsString mode_first
  /\ TBits.TestBitNumber (fCutsEnabledMask bands_first) kTPCTOF2DSigmaCut
     = true
  /\ TBits.TestBitNumber (fTPCTOF2DEnabledSpeciesMask bands_first)
       (N.of_nat (Z.to_nat k)) = true
  /\ TBits.TestBitNumber (fCutsEnabledMask mode_first) kTPCTOF2DSigmaCut
     = false
  /\ fTPCTOF2DEnabledSpeciesMask mode_first = TBits.ResetAllBits.
Proof.
  intros Hk Htpc Htof Hmode.
  assert (Hk' : k = 0 \/ k = 1 \/ k = 2 \/ k = 3 \/ k = 4) by lia.
  assert (Hm' : mode = 2 \/ mode = 3) by lia.
  assert (Hf' : tof = 1 \/ tof = 2 \/ tof = 3 \/ tof = 4 \/ tof = 5) by lia.
  code_0_to_9 tpc; try lia;
    destruct Hk' as [-> | [-> | [-> | [-> | ->]]]];
    destruct Hf' as [-> | [-> | [-> | [-> | ->]]]];
    destruct Hm' as [-> | ->];
    vm_compute; repeat split.
Qed.

Lemma combined_mode_order_matters_witness :
  TBits.TestBitNumber
    (fCutsEnabledMask
       (configure digitsCutsString [(9, 3); (14, 2); (17, 2)]
          (new_AliCSPIDCuts kPion)))
    kTPCTOF2DSigmaCut = true
  /\ TBits.TestBitNumber
       (fCutsEnabledMask
          (configure digitsCutsString [(17, 2); (9, 3); (14, 2)]
             (new_AliCSPIDCuts kPion)))
       kTPCTOF2DSigmaCut = false.
Proof.
  destruct (combined_mode_order_matters digitsCutsString kPion 2 3 2 2
              ltac:(lia) ltac:(lia) ltac:(lia) ltac:(lia))
    as (_ & _ & Hon & _ & Hoff & _).
  split; [exact Hon | exact Hoff].
Defined.

(** ** The last call for a parameter wins *)

Lemma ITSparam_inj (id1 id2 : EParticleType) (a : cutsParametersIds) :
  ITSparam id1 = Some a -> ITSparam id2 = Some a -> id1 = id2.
Proof.
  destruct id1; cbn; intro H1; try discriminate H1; injection H1 as <-;
    destruct id2; cbn; intro H2; first [reflexivity | discriminate H2].
Qed.

Lemma TPCparam_inj (id1 id2 : EParticleType) (a : cutsParametersIds) :
  TPCparam id1 = Some a -> TPCparam id2 = Some a -> id1 = id2.
Proof.
  destruct id1; cbn; intro H1; try discriminate H1; injection H1 as <-;
    destruct id2; cbn; intro H2; first [reflexivity | discriminate H2].
Qed.

Lemma TOFparam_inj (id1 id2 : EParticleType) (a : cutsParametersIds) :
  TOFparam id1 = Some a -> TOFparam id2 = Some a -> id1 = id2.
Proof.
  destruct id1; cbn; intro H1; try discriminate H1; injection H1 as <-;
    destruct id2; cbn; intro H2; first [reflexivity | discriminate H2].
Qed.

(** The enabled bit of one detector after two band updates of the same
    species. *)
Lemma enabled_after_override (k n : N) (s1 s2 : bool) (m e : TBits.t) :
  let op1 := if s1 then TBits.SetBitNumber n else TBits.ResetBitNumber n in
  let op2 := if s2 then TBits.SetBitNumber n else TBits.ResetBitNumber n in
  (if (0 <? TBits.CountBits (op2 (op1 m)))%nat
   then TBits.SetBitNumber k else TBits.ResetBitNumber k)
    ((if (0 <? TBits.CountBits (op1 m))%nat
      then TBits.SetBitNumber k else TBits.ResetBitNumber k) e)
  = (if (0 <? TBits.CountBits (op2 m))%nat
     then TBits.SetBitNumber k else TBits.ResetBitNumber k) e.
Proof.
  intros op1 op2. rewrite update_bits_absorb.
  unfold op1, op2. rewrite update_bits_absorb. reflexivity.
Qed.

Ltac override_field :=
  first
    [ reflexivity
    | apply list_insert_insert_eq
    | apply update_bits_absorb
    | exact (update_bits_absorb _ true true _)
    | exact (update_bits_absorb _ true false _)
    | exact (update_bits_absorb _ false true _)
    | exact (update_bits_absorb _ false false _)
    | exact (enabled_after_override _ _ true true _ _)
    | exact (enabled_after_override _ _ true false _ _)
    | exact (enabled_after_override _ _ false true _ _)
    | exact (enabled_after_override _ _ false false _ _) ].

Lemma applyUpdate_override (a : cutsParametersIds) (u1 u2 : Update)
    (c : AliCSPIDCuts) :
  updateFor a u1 -> updateFor a u2 ->
  applyUpdate u2 (applyUpdate u1 c) = applyUpdate u2 c.
Proof.
  intros H1 H2.
  destruct u1 as [?q|?q|id1 b1|id1 b1|id1 b1|?required ?twoD];
    destruct u2 as [?q|?q|id2 b2|id2 b2|id2 b2|?required ?twoD];
    cbn [updateFor] in H1, H2;
    try (subst a; discriminate H2);
    try (rewrite H2 in H1; discriminate H1);
    try (destruct id1; cbn in H1; try discriminate H1;
         injection H1 as <-; discriminate H2);
    try (destruct id2; cbn in H2; try discriminate H2;
         injection H2 as <-; discriminate H1);
    try (destruct id1, id2; cbn in H1, H2; congruence);
    try (assert (id1 = id2) by
           first [ exact (ITSparam_inj _ _ _ H1 H2)
                 | exact (TPCparam_inj _ _ _ H1 H2)
                 | exact (TOFparam_inj _ _ _ H1 H2) ];
         subst id2;
         destruct b1 as [[? ?]|], b2 as [[? ?]|]);
    try (destruct twoD, twoD0);
    destruct c; cbn [applyUpdate]; unfold_updates;
    f_equal; try override_field.
Qed.

(** Of two successive [SetCutAndParams] calls for the same parameter the
    second one decides: when the second value is accepted, the cut, cuts
    string included, is the one the second call alone would have given;
    when it is rejected, the cut of the first call stays. *)
Theorem SetCutAndParams_last_wins (FormCutsString : list Z -> string)
    (paramID value1 value2 : Z) (c : AliCSPIDCuts) :
  (fst (SetCutAndParams FormCutsString paramID value2 c) = true ->
   snd (SetCutAndParams FormCutsString paramID value2
          (snd (SetCutAndParams FormCutsString paramID value1 c)))
   = snd (SetCutAndParams FormCutsString paramID value2 c)) /\
  (fst (SetCutAndParams FormCutsString paramID value2 c) = false ->
   snd (SetCutAndParams FormCutsString paramID value2
          (snd (SetCutAndParams FormCutsString paramID value1 c)))
   = snd (SetCutAndParams FormCutsString paramID value1 c)).
Proof.
  rewrite !SetCutAndParams_table.
  destruct (cutsParametersIds_of paramID) as [a|] eqn:Ha;
    [|split; intro; reflexivity].
  destruct (updateOf a value2) as [u2|] eqn:E2;
    destruct (updateOf a value1) as [u1|] eqn:E1; cbn [fst snd];
    (split; intro H; try discriminate H; try reflexivity).
  unfold UpdateCutsString.
  rewrite !(proj2 (applyUpdate_framed u2)).
  rewrite !fParameters_stored.
  rewrite !store_twice.
  rewrite (applyUpdate_override a u1 u2 c)
    by (eapply updateOf_updateFor; eassumption).
  rewrite ?(proj1 (applyUpdate_fParameters u1 _)),
    ?(proj1 (applyUpdate_fParameters u2 _)).
  rewrite list_insert_insert_eq. reflexivity.
Qed.

Lemma SetCutAndParams_last_wins_witness :
  snd (SetCutAndParams digitsCutsString 9 0
         (snd (SetCutAndParams digitsCutsString 9 7 pionCut)))
  = snd (SetCutAndParams digitsCutsString 9 0 pionCut)
  /\ snd (SetCutAndParams digitsCutsString 9 12
            (snd (SetCutAndParams digitsCutsString 9 7 pionCut)))
     = snd (SetCutAndParams digitsCutsString 9 7 pionCut).
Proof.
  split.
  - apply (proj1 (SetCutAndParams_last_wins digitsCutsString 9 7 0 pionCut)).
    reflexivity.
  - apply (proj2 (SetCutAndParams_last_wins digitsCutsString 9 7 12 pionCut)).
    reflexivity.
Defined.

(** ** The constructed cut *)

(** A constructed cut has no species and no cut category enabled, and the
    brace initialisation of its arrays of bounds reaches the first slot
    only: the electron slot holds -100 and 100, every other slot holds 0
    below and above until a band setter is called for its species. *)
Theorem constructed_cut_bounds (target id : EParticleType) :
  hasSlot id ->
  let c := new_AliCSPIDCuts target in
  let below := if AliPID.eqb id kElectron then (-100.0)%Q else 0%Q in
  let above := if AliPID.eqb id kElectron then 100.0%Q else 0%Q in
  at_species (fITSnSigmaBelow c) id = below
  /\ at_species (fITSnSigmaAbove c) id = above
  /\ at_species (fTPCnSigmaBelow c) id = below
  /\ at_species (fTPCnSigmaAbove c) id = above
  /\ at_species (fTOFnSigmaBelow c) id = below
  /\ at_species (fTOFnSigmaAbove c) id = above
  /\ anyCutEnabled c = false
  /\ fITSEnabledSpeciesMask c = TBits.ResetAllBits
  /\ fTPCEnabledSpeciesMask c = TBits.ResetAllBits
  /\ fTOFEnabledSpeciesMask c = TBits.ResetAllBits
  /\ fTPCTOF2DEnabledSpeciesMask c = TBits.ResetAllBits.
Proof.
  unfold hasSlot, kNSigmaSlots, kSPECIESC. intro Hslot.
  destruct id; cbn in Hslot; try lia; repeat split.
Qed.

Lemma constructed_cut_bounds_witness :
  at_species (fTPCnSigmaBelow (new_AliCSPIDCuts kPion)) kPion = 0%Q
  /\ at_species (fTPCnSigmaBelow (new_AliCSPIDCuts kPion)) kElectron
     = (-100.0)%Q.
Proof.
  split.
  - apply (constructed_cut_bounds kPion kPion).
    unfold hasSlot, kNSigmaSlots, kSPECIESC. simpl. lia.
  - apply (constructed_cut_bounds kPion kElectron).
    unfold hasSlot, kNSigmaSlots, kSPECIESC. simpl. lia.
Defined.

(** ** The momentum codes are ordered *)

(** A higher minimum code never widens the momentum window and a higher
    maximum code among 1 to 8 never narrows it, while the maximum code 0
    gives the widest window: what the gate accepts under the tighter code
    it accepts under the looser one. *)
Theorem momentum_codes_monotone (c : AliCSPIDCuts) (p : Q) :
  (forall a a',
      0 <= a -> a <= a' -> a' <= 9 ->
      momentumGate (snd (SetPMin a' c)) p = true ->
      momentumGate (snd (SetPMin a c)) p = true) /\
  (forall b b',
      1 <= b -> b <= b' -> b' <= 8 ->
      momentumGate (snd (SetPMax b c)) p = true ->
      momentumGate (snd (SetPMax b' c)) p = true) /\
  (forall b,
      0 <= b <= 8 ->
      momentumGate (snd (SetPMax b c)) p = true ->
      momentumGate (snd (SetPMax 0 c)) p = true).
Proof.
  split; [|split].
  - intros a a' H0 Hle H9. rewrite !momentumGate_range.
    assert (Hmax : fMaxP (snd (SetPMin a' c)) = fMaxP (snd (SetPMin a c))).
    { code_0_to_9 a; code_0_to_9 a'; try lia; reflexivity. }
    rewrite Hmax. intros [Hlo Hhi]. split; [|exact Hhi].
    apply Qle_trans with (2 := Hlo).
    code_0_to_9 a; code_0_to_9 a'; try lia; Qcompare.
  - intros b b' H1 Hle H8. rewrite !momentumGate_range.
    assert (Hmin : fMinP (snd (SetPMax b' c)) = fMinP (snd (SetPMax b c))).
    { code_0_to_9 b; code_0_to_9 b'; try lia; reflexivity. }
    rewrite Hmin. intros [Hlo Hhi]. split; [exact Hlo|].
    apply Qle_trans with (1 := Hhi).
    code_0_to_9 b; code_0_to_9 b'; try lia; Qcompare.
  - intros b Hb. rewrite !momentumGate_range.
    assert (Hmin : fMinP (snd (SetPMax 0 c)) = fMinP (snd (SetPMax b c))).
    { code_0_to_9 b; try lia; reflexivity. }
    rewrite Hmin. intros [Hlo Hhi]. split; [exact Hlo|].
    apply Qle_trans with (1 := Hhi).
    code_0_to_9 b; try lia; Qcompare.
Qed.

Lemma momentum_codes_monotone_witness :
  momentumGate (snd (SetPMin 2 pionCut)) 0.5 = true
  /\ momentumGate (snd (SetPMax 0 pionCut)) 0.5 = true.
Proof.
  destruct (momentum_codes_monotone pionCut 0.5) as (Hmin & _ & Hmax).
  split.
  - apply (Hmin 2 4); first [lia | reflexivity].
  - apply (Hmax 5); first [lia | reflexivity].
Defined.
